(** * cinema_bot: extraction pipeline and per-user navigation engine

    A shallow embedding of [cinema_bot.py].  The handlers of the bot are
    written in a state-and-exception monad over a [World] that holds the
    module-level dictionary [user_data], the FSM storage of the
    conversation framework, and a trace of the calls made to the outside
    (Telegram, the catalog site, the database).  What the outside answers
    is an oracle [Env], a variable of the development.  A handler runs to
    its end before the next one starts: the interleaving of handlers at
    their [await]s is not modelled. *)

From Stdlib Require Import ZArith String Ascii List Lia.
From stdpp Require Import base option list gmap strings pretty.

Open Scope string_scope.
Open Scope list_scope.
Open Scope Z_scope.

(** ** Python primitives used by the bot *)

Module Py.

(** Exceptions the handlers distinguish: [except ValueError] catches the
    third only, [except Exception] all of them. *)
Inductive Exn := KeyError | IndexError | ValueError | OtherError.

(** [len(l)] *)
Definition len {A} (l : list A) : Z := Z.of_nat (length l).

(** Truth value of a string and of an optional string ([None] and the
    empty string are false). *)
Definition truthy_str (s : string) : bool :=
  match s with EmptyString => false | String _ _ => true end.

Definition truthy_ostr (o : option string) : bool :=
  match o with Some s => truthy_str s | None => false end.

(** Truth value of an optional integer ([None] and [0] are false). *)
Definition truthy_oint (o : option Z) : bool :=
  match o with Some n => negb (n =? 0) | None => false end.

(** Position of index [i] in a list of length [n], with Python's
    negative indices; [None] is IndexError. *)
Definition norm_index (n : nat) (i : Z) : option nat :=
  if (0 <=? i) && (i <? Z.of_nat n) then Some (Z.to_nat i)
  else if (- Z.of_nat n <=? i) && (i <? 0) then Some (Z.to_nat (Z.of_nat n + i))
  else None.

(** [l[i]] *)
Definition getitem {A} (l : list A) (i : Z) : option A :=
  pos ← norm_index (length l) i; l !! pos.

(** [l[:k]] *)
Definition slice_to {A} (l : list A) (k : Z) : list A :=
  if k <? 0 then take (Z.to_nat (len l + k)) l else take (Z.to_nat k) l.

(** [s.startswith(p)] *)
Definition startswith (s p : string) : bool := String.prefix p s.

Definition mem_ascii (c : ascii) (cs : list ascii) : bool :=
  existsb (Ascii.eqb c) cs.

Fixpoint lstrip (cs : list ascii) (s : string) : string :=
  match s with
  | String c s' => if mem_ascii c cs then lstrip cs s' else s
  | EmptyString => EmptyString
  end.

Fixpoint rstrip (cs : list ascii) (s : string) : string :=
  match s with
  | String c s' =>
      match rstrip cs s' with
      | EmptyString => if mem_ascii c cs then EmptyString else String c EmptyString
      | r => String c r
      end
  | EmptyString => EmptyString
  end.

(** [s.strip(chars)], for [chars] of one byte each (the bot strips
    quotes, the space and the comma), which no byte of a longer
    character equals. *)
Definition strip_chars (cs : list ascii) (s : string) : string :=
  rstrip cs (lstrip cs s).

(** *** Characters

    A [str] is kept as its UTF-8 encoding.  [chars s] are its
    characters: each one a lead byte with the continuation bytes that
    follow it. *)
Definition byte (c : ascii) : Z := Z.of_nat (nat_of_ascii c).

Definition is_continuation (c : ascii) : bool :=
  (128 <=? byte c) && (byte c <? 192).

Fixpoint chars (s : string) : list string :=
  match s with
  | EmptyString => []
  | String c s' =>
      match chars s' with
      | String d ch :: rest =>
          if is_continuation d then String c (String d ch) :: rest
          else String c EmptyString :: String d ch :: rest
      | rest => String c EmptyString :: rest
      end
  end.

Definition unchars (l : list string) : string :=
  fold_right String.append EmptyString l.

(** The code point a character encodes; [-1] for bytes that encode
    none. *)
Definition code_point (ch : string) : Z :=
  match map byte (list_ascii_of_string ch) with
  | [b0] => if b0 <? 128 then b0 else -1
  | [b0; b1] =>
      if (192 <=? b0) && (b0 <? 224) then (b0 - 192) * 64 + (b1 - 128) else -1
  | [b0; b1; b2] =>
      if (224 <=? b0) && (b0 <? 240)
      then (b0 - 224) * 4096 + (b1 - 128) * 64 + (b2 - 128) else -1
  | [b0; b1; b2; b3] =>
      if (240 <=? b0) && (b0 <? 248)
      then (b0 - 240) * 262144 + (b1 - 128) * 4096 + (b2 - 128) * 64 + (b3 - 128)
      else -1
  | _ => -1
  end.

(** [len(s)] and [s[:k]] of a [str], in characters. *)
Definition str_len (s : string) : Z := len (chars s).

Definition str_slice_to (s : string) (k : Z) : string := unchars (slice_to (chars s) k).

(** The code points [str.isspace()] holds of: the ones [str.strip()]
    strips and the pattern [\s] matches. *)
Definition is_space (c : Z) : bool :=
  ((9 <=? c) && (c <=? 13)) || ((28 <=? c) && (c <=? 32))
  || (c =? 133) || (c =? 160) || (c =? 5760)
  || ((8192 <=? c) && (c <=? 8202))
  || (c =? 8232) || (c =? 8233) || (c =? 8239) || (c =? 8287) || (c =? 12288).

Definition space_char (ch : string) : bool := is_space (code_point ch).

Fixpoint drop_spaces (l : list string) : list string :=
  match l with
  | ch :: l' => if space_char ch then drop_spaces l' else l
  | [] => []
  end.

(** [s.lstrip()] and [s.strip()] *)
Definition lstrip_spaces (s : string) : string := unchars (drop_spaces (chars s)).

Definition strip (s : string) : string :=
  unchars (reverse (drop_spaces (reverse (drop_spaces (chars s))))).

(** *** [int(s)]

    The first code point of every run of ten decimal digits (category
    Nd) of Unicode 15, the version of Python 3.12 and 3.13; the source
    needs 3.12 for the quotes nested in its f-strings. *)
Definition decimal_zeros : list Z :=
  [48; 1632; 1776; 1984; 2406; 2534; 2662; 2790; 2918; 3046; 3174; 3302;
   3430; 3558; 3664; 3792; 3872; 4160; 4240; 6112; 6160; 6470; 6608; 6784;
   6800; 6992; 7088; 7232; 7248; 42528; 43216; 43264; 43472; 43504; 43600;
   44016; 65296; 66720; 68912; 69734; 69872; 69942; 70096; 70384; 70736;
   70864; 71248; 71360; 71472; 71904; 72016; 72784; 73040; 73120; 73552;
   92768; 92864; 93008; 120782; 120792; 120802; 120812; 120822; 123200;
   123632; 124144; 125264; 130032].

(** [unicodedata.decimal(c)], when [c] is a decimal digit. *)
Definition decimal (c : Z) : option Z :=
  (λ z, c - z) <$> List.find (λ z, (z <=? c) && (c <? z + 10)) decimal_zeros.

(** What a character is to [int]: white space (of the ASCII characters
    only tab to carriage return and the space), a sign, a decimal digit,
    an underscore, or none of them. *)
Inductive Token := TSpace | TPlus | TMinus | TDigit (d : Z) | TUnderscore | TOther.

Definition token (c : Z) : Token :=
  if c <? 127 then
    if ((9 <=? c) && (c <=? 13)) || (c =? 32) then TSpace
    else if c =? 43 then TPlus
    else if c =? 45 then TMinus
    else if (48 <=? c) && (c <=? 57) then TDigit (c - 48)
    else if c =? 95 then TUnderscore
    else TOther
  else if is_space c then TSpace
  else match decimal c with
       | Some d => TDigit d
       | None => TOther
       end.

Definition is_tspace (t : Token) : bool :=
  match t with TSpace => true | _ => false end.

(** The digits after the first: single underscores between digits only,
    white space only at the end.  The result is the value and the number
    of digits. *)
Fixpoint int_digits (acc : Z) (n : nat) (ts : list Token) : option (Z * nat) :=
  match ts with
  | [] => Some (acc, n)
  | TDigit d :: ts' => int_digits (10 * acc + d) (S n) ts'
  | TUnderscore :: TDigit d :: ts' => int_digits (10 * acc + d) (S n) ts'
  | TSpace :: ts' => if forallb is_tspace ts' then Some (acc, n) else None
  | _ => None
  end.

Fixpoint drop_tspaces (ts : list Token) : list Token :=
  match ts with
  | TSpace :: ts' => drop_tspaces ts'
  | _ => ts
  end.

(** More than 4300 digits are refused ([sys.int_max_str_digits]). *)
Definition int_tokens (ts : list Token) : option Z :=
  let '(sign, ts) :=
    match drop_tspaces ts with
    | TPlus :: ts' => (1, ts')
    | TMinus :: ts' => (-1, ts')
    | ts' => (1, ts')
    end in
  match ts with
  | TDigit d :: ts' =>
      '(v, n) ← int_digits d 1 ts';
      if (4300 <? n)%nat then None else Some (sign * v)
  | _ => None
  end.

(** [int(s)]; [None] is ValueError. *)
Definition int (s : string) : option Z :=
  int_tokens (map (λ ch, token (code_point ch)) (chars s)).

(** [str(n)] *)
Definition str (n : Z) : string := pretty n.

End Py.

(** ** The pattern [background-image:\s*url\(([^)]+)\)] *)

Module Re.

Fixpoint drop_prefix (p s : string) : option string :=
  match p, s with
  | EmptyString, _ => Some s
  | String a p', String b s' => if Ascii.eqb a b then drop_prefix p' s' else None
  | String _ _, EmptyString => None
  end.

(** [\s*], greedy: what follows the white space at the head of [s]. *)
Definition skip_spaces (s : string) : string := Py.lstrip_spaces s.

(** [[^)]*], greedy: the longest run without a closing parenthesis, and
    what follows it. *)
Fixpoint span_until_rparen (s : string) : string * string :=
  match s with
  | String c s' =>
      if Ascii.eqb c ")" then (EmptyString, s)
      else let '(g, r) := span_until_rparen s' in (String c g, r)
  | EmptyString => (EmptyString, EmptyString)
  end.

(** A match of the whole pattern at the head of [s]; the result is
    group 1. *)
Definition match_here (s : string) : option string :=
  r1 ← drop_prefix "background-image:" s;
  r2 ← drop_prefix "url(" (skip_spaces r1);
  match span_until_rparen r2 with
  | (String c g, String _ _) => Some (String c g)
  | _ => None
  end.

(** [re.search(pattern, s)]: the leftmost match; [match.group(1)]. *)
Fixpoint search_group1 (s : string) : option string :=
  match match_here s with
  | Some g => Some g
  | None =>
      match s with
      | String _ s' => search_group1 s'
      | EmptyString => None
      end
  end.

End Re.

(** ** The pages of the catalog, as the bot queries them

    The bot reads a page only through [find]/[find_all], [get],
    [has_attr] and [get_text(strip=True)]; a page is modelled by the
    answers to these queries. *)

Module Html.

(** The first [a.results-item] of a card. *)
Record Anchor := {
  href : option string;               (* attribute [href] *)
  item_title : option string;         (* text of [div.results-item-title] *)
  item_year : option string;          (* text of [span.results-item-year] *)
  item_rating : option (option string);
    (* [span.results-item-rating], and the text of its first [span] *)
  item_preview : option (option string)
    (* [div.result-item-preview], and its attribute [style] *)
}.

(** One [li.results-item-wrap]. *)
Record Card := {
  link_elem : option Anchor;
  meta_img : option (option string)
    (* [meta] with [itemprop=image], and its attribute [content] *)
}.

(** [dd.entity-desc-value.is-rating] of a detail page: the texts of
    [span.entity-rating-kp] and [span.entity-rating-imdb]. *)
Record RatingDd := {
  kp_span : option string;
  imdb_span : option string
}.

Record Document := {
  results_title : bool;               (* is there a [div.results-title] *)
  cards : list Card;                  (* [find_all("li", "results-item-wrap")] *)
  rating_dd : option RatingDd
}.

End Html.

(** ** Data model *)

(** One entry of [results]: a dict with the five keys set by the parser;
    the keys [kp] and [imdb] are absent ([None]) until the entry is shown
    for the first time. *)
Record Film := {
  title : string;
  year : string;
  rating : string;
  poster_url : option string;
  watch_link : option string;
  kp : option string;
  imdb : option string
}.

(** [user_data[user_id]] *)
Record Session := {
  results : list Film;
  current_index : Z;
  query : string;
  msg_id : option Z;
  list_msg_id : option Z
}.

(** [class ChooseFilm(StatesGroup)] *)
Inductive ChooseFilm := waiting_for_number | confirming_choice.

(** What the FSM storage keeps for one conversation: the state ([None]
    when no state is set) and the data dict. *)
Record FSMRecord := {
  fsm_state : option ChooseFilm;
  fsm_data : gmap string Z
}.

(** The handle [state: FSMContext] a handler receives: the key of the
    conversation, chat id and user id. *)
Definition FSMContext : Type := Z * Z.

Definition fsm_empty : FSMRecord := {| fsm_state := None; fsm_data := ∅ |}.

(** [class NavCallback(CallbackData, prefix="nav")] and
    [class ConfirmCallback(CallbackData, prefix="confirm")] *)
Record NavCallback := { nav_action : string }.
Record ConfirmCallback := { confirm_action : string; confirm_index : Z }.

Inductive Button :=
| CallbackButton (text : string) (data : NavCallback + ConfirmCallback)
| UrlButton (text : string) (url : option string).

(** An inline keyboard: rows of buttons. *)
Definition Markup : Type := list (list Button).

(** [InlineKeyboardBuilder.button]: the button joins the last row. *)
Definition builder_button (b : Button) (m : Markup) : Markup :=
  match reverse m with
  | [] => [[b]]
  | r :: rs => reverse ((r ++ [b]) :: rs)
  end.

(** [InlineKeyboardBuilder.row]: the buttons make a row of their own. *)
Definition builder_row (bs : list Button) (m : Markup) : Markup := m ++ [bs].

(** Incoming updates, as far as the handlers look at them. *)
Record Message := {
  m_from_user : option Z;
  m_chat : Z;
  m_text : option string
}.

Record CallbackQuery := {
  cb_from_user : Z;
  cb_message_chat : option Z     (* [callback.message.chat.id], when there is one *)
}.

(** ** The outside world *)

Inductive DbStatement :=
| InsertHistory (user_id : Z) (query timestamp : string)
| UpsertStats (user_id : Z) (film_title : string).

(** The calls a handler makes to the outside, in the order they are made
    ([trace] keeps the latest first). *)
Inductive Event :=
| HttpGet (url : string)
| DeleteMessage (chat_id message_id : Z)
| EditMessageMedia (chat_id message_id : Z) (media : option string)
    (caption : string) (reply_markup : Markup)
| SendPhoto (chat_id : Z) (photo : option string) (caption : string)
    (reply_markup : Markup)
| SendMessage (chat_id : Z) (text : string) (reply_markup : Markup)
| AnswerCallback (text : option string) (show_alert : bool)
| DbExecute (stmt : DbStatement).

(** The configuration read at start-up and the answers of the outside:
    the answer to a call depends on the moment [clock] it is made at. *)
Record Env := {
  BASE_URL : string;
  FILMS_TO_SHOW : Z;
  quote : string → string;                           (* [urllib.parse.quote] *)
  http_get : nat → string → Py.Exn + (Z * Html.Document);  (* status and page *)
  telegram_send : nat → Py.Exn + Z;                  (* id of the message sent *)
  telegram_call : nat → option Py.Exn;               (* [None]: no exception *)
  db_call : nat → option Py.Exn;
  now : nat → string                                 (* formatted time stamp *)
}.

Record World := {
  user_data : gmap Z Session;
  storage : gmap (Z * Z) FSMRecord;
  trace : list Event;
  clock : nat
}.

Definition set_user_data (f : gmap Z Session → gmap Z Session) (w : World) : World :=
  {| user_data := f (user_data w); storage := storage w;
     trace := trace w; clock := clock w |}.

Definition set_storage (f : gmap (Z * Z) FSMRecord → gmap (Z * Z) FSMRecord)
    (w : World) : World :=
  {| user_data := user_data w; storage := f (storage w);
     trace := trace w; clock := clock w |}.

Definition push_event (ev : Event) (w : World) : World :=
  {| user_data := user_data w; storage := storage w;
     trace := ev :: trace w; clock := clock w |}.

Definition advance_clock (w : World) : World :=
  {| user_data := user_data w; storage := storage w;
     trace := trace w; clock := S (clock w) |}.

Definition set_current_index (i : Z) (s : Session) : Session :=
  {| results := results s; current_index := i; query := query s;
     msg_id := msg_id s; list_msg_id := list_msg_id s |}.

Definition set_msg_id (m : option Z) (s : Session) : Session :=
  {| results := results s; current_index := current_index s; query := query s;
     msg_id := m; list_msg_id := list_msg_id s |}.

Definition set_list_msg_id (m : option Z) (s : Session) : Session :=
  {| results := results s; current_index := current_index s; query := query s;
     msg_id := msg_id s; list_msg_id := m |}.

Definition set_results (l : list Film) (s : Session) : Session :=
  {| results := l; current_index := current_index s; query := query s;
     msg_id := msg_id s; list_msg_id := list_msg_id s |}.

(** [result["kp"], result["imdb"] = k, i] *)
Definition set_ratings (k i : string) (f : Film) : Film :=
  {| title := title f; year := year f; rating := rating f;
     poster_url := poster_url f; watch_link := watch_link f;
     kp := Some k; imdb := Some i |}.

(** ** The monad of handlers: state, and exceptions that keep the state *)

Inductive Outcome (A : Type) :=
| Return (a : A)
| Raise (e : Py.Exn).
Arguments Return {A} a.
Arguments Raise {A} e.

Definition M (A : Type) : Type := World → Outcome A * World.

#[global] Instance M_ret : MRet M := λ A a w, (Return a, w).

#[global] Instance M_bind : MBind M := λ A B k m w,
  match m w with
  | (Return a, w') => k a w'
  | (Raise e, w') => (Raise e, w')
  end.

Definition raise {A} (e : Py.Exn) : M A := λ w, (Raise e, w).

Definition get_world : M World := λ w, (Return w, w).

Definition modify (f : World → World) : M unit := λ w, (Return tt, f w).

(** [try: body / except <the exceptions catches accepts>: handler] *)
Definition try_except {A} (catches : Py.Exn → bool) (body handler : M A) : M A :=
  λ w, match body w with
       | (Raise e, w') => if catches e then handler w' else (Raise e, w')
       | r => r
       end.

Definition any_exception (e : Py.Exn) : bool := true.

Definition value_error (e : Py.Exn) : bool :=
  match e with Py.ValueError => true | _ => false end.

Definition tick : M nat := λ w, (Return (clock w), advance_clock w).

Definition emit (ev : Event) : M unit := modify (push_event ev).

(** [data = user_data[user_id]] *)
Definition user_data_get (user_id : Z) : M Session :=
  w ← get_world;
  match user_data w !! user_id with
  | Some data => mret data
  | None => raise Py.KeyError
  end.

(** [user_id in user_data]; the key may be [None] (never in the dict). *)
Definition user_data_contains (user_id : option Z) : M bool :=
  w ← get_world;
  mret (match user_id with
        | Some u => bool_decide (is_Some (user_data w !! u))
        | None => false
        end).

(** An assignment to a key of the dict [user_data[user_id]], which every
    holder of [data] sees. *)
Definition user_data_update (user_id : Z) (f : Session → Session) : M unit :=
  data ← user_data_get user_id;
  modify (set_user_data (insert user_id (f data))).

(** ** The FSM context *)

Definition fsm_lookup (state : Z * Z) (w : World) : FSMRecord :=
  default fsm_empty (storage w !! state).

(** [await state.get_data()] *)
Definition state_get_data (state : Z * Z) : M (gmap string Z) :=
  w ← get_world; mret (fsm_data (fsm_lookup state w)).

(** [await state.clear()] *)
Definition state_clear (state : Z * Z) : M unit :=
  modify (set_storage (insert state fsm_empty)).

(** [await state.set_state(s)] *)
Definition state_set_state (state : Z * Z) (s : ChooseFilm) : M unit :=
  w ← get_world;
  modify (set_storage (insert state
    {| fsm_state := Some s; fsm_data := fsm_data (fsm_lookup state w) |})).

(** [await state.set_data(d)] *)
Definition state_set_data (state : Z * Z) (d : gmap string Z) : M unit :=
  w ← get_world;
  modify (set_storage (insert state
    {| fsm_state := fsm_state (fsm_lookup state w); fsm_data := d |})).

(** [await state.update_data(k=v, ...)]: the keys given override. *)
Definition state_update_data (state : Z * Z) (d : gmap string Z) : M unit :=
  w ← get_world;
  modify (set_storage (insert state
    {| fsm_state := fsm_state (fsm_lookup state w);
       fsm_data := d ∪ fsm_data (fsm_lookup state w) |})).

(** ** Calls to the outside *)

(** A call that returns a value: it takes one moment of the clock, is
    recorded, and returns or raises as the outside answers. *)
Definition external {A} (ev : Event) (answer : nat → Py.Exn + A) : M A :=
  t ← tick;
  emit ev;;
  match answer t with
  | inr a => mret a
  | inl e => raise e
  end.

(** A call made for its effect only. *)
Definition external_ (ev : Event) (answer : nat → option Py.Exn) : M unit :=
  t ← tick;
  emit ev;;
  match answer t with
  | None => mret tt
  | Some e => raise e
  end.

Definition nl : string := String (ascii_of_nat 10) EmptyString.
Definition dash : string := "—".
Definition no_cover : string := "/img/nocover.png".

(** The characters the URL of a background image is stripped of: quote,
    double quote, space and comma. *)
Definition quote_chars : list ascii := map ascii_of_nat [39; 34; 32; 44]%nat.

(** [title (year)], the year left out when it is empty. *)
Definition with_year (t y : string) : string :=
  if Py.truthy_str y then t +:+ " (" +:+ y +:+ ")" else t.

(** [(year)] or nothing, as the captions have it. *)
Definition year_suffix (y : string) : string :=
  if Py.truthy_str y then "(" +:+ y +:+ ")" else EmptyString.

Definition nav_button (text action : string) : Button :=
  CallbackButton text (inl {| nav_action := action |}).

Definition confirm_button (text action : string) (index : Z) : Button :=
  CallbackButton text (inr {| confirm_action := action; confirm_index := index |}).

Definition prev_button : Button := nav_button "⬅️ Назад" "prev".
Definition next_button : Button := nav_button "➡️ Далее" "next".
Definition list_button : Button := nav_button "📋 Все варианты" "list".
Definition close_button : Button := nav_button "❌ Закрыть" "close_list".
Definition watch_button (url : option string) : Button :=
  UrlButton "🎬 Смотреть онлайн" url.

Section Bot.

Variable env : Env.

Definition ZONA_SEARCH_URL : string := BASE_URL env +:+ "/search/".

Definition bot_delete_message (chat_id message_id : Z) : M unit :=
  external_ (DeleteMessage chat_id message_id) (telegram_call env).

Definition bot_edit_message_media (chat_id message_id : Z) (media : option string)
    (caption : string) (reply_markup : Markup) : M unit :=
  external_ (EditMessageMedia chat_id message_id media caption reply_markup)
    (telegram_call env).

(** [bot.send_photo], [message.answer_photo]; the result is
    [sent.message_id]. *)
Definition bot_send_photo (chat_id : Z) (photo : option string)
    (caption : string) (reply_markup : Markup) : M Z :=
  external (SendPhoto chat_id photo caption reply_markup) (telegram_send env).

(** [message.answer] *)
Definition message_answer (chat_id : Z) (text : string) (reply_markup : Markup) : M Z :=
  external (SendMessage chat_id text reply_markup) (telegram_send env).

(** [callback.answer] *)
Definition callback_answer (text : option string) (show_alert : bool) : M unit :=
  external_ (AnswerCallback text show_alert) (telegram_call env).

Definition db_execute (stmt : DbStatement) : M unit :=
  external_ (DbExecute stmt) (db_call env).

(** [session.get(url)]: the status and the parsed body. *)
Definition session_get (url : string) : M (Z * Html.Document) :=
  t ← tick;
  emit (HttpGet url);;
  match http_get env t url with
  | inr resp => mret resp
  | inl e => raise e
  end.

(** [l[i]] in a handler: IndexError out of range.  The position is
    returned too, for an update in place of the element. *)
Definition getitem_at {A} (l : list A) (i : Z) : M (nat * A) :=
  match Py.norm_index (length l) i with
  | Some pos =>
      match l !! pos with
      | Some x => mret (pos, x)
      | None => raise Py.IndexError
      end
  | None => raise Py.IndexError
  end.

(** The photo of a Telegram object ([InputMediaPhoto(media=...)], the
    [photo] of a sendPhoto): the object is validated when it is built,
    before any call, and [None] is refused with pydantic's
    ValidationError, which is a ValueError. *)
Definition photo_arg (photo : option string) : M (option string) :=
  match photo with
  | Some _ => mret photo
  | None => raise Py.ValueError
  end.

Definition safe_delete (chat_id : Z) (msg_id : option Z) : M unit :=
  match msg_id with
  | Some m =>
      if negb (Py.truthy_oint msg_id) then mret tt
      else try_except any_exception (bot_delete_message chat_id m) (mret tt)
  | None => mret tt
  end.

(** *** Extractor *)

(** The fallback of the poster: the URL of the background image in the
    preview's inline style, unless it is the no-cover placeholder. *)
Definition preview_poster (link_elem : Html.Anchor) : option string :=
  match Html.item_preview link_elem with
  | Some (Some style) =>
      match Re.search_group1 style with
      | Some g =>
          let url := Py.strip_chars quote_chars g in
          if Py.truthy_str url && negb (String.eqb url no_cover)
          then Some url else None
      | None => None
      end
  | _ => None
  end.

(** The body of the loop over the cards: [None] is [continue]. *)
Definition parse_card (card : Html.Card) : option Film :=
  match Html.link_elem card with
  | None => None
  | Some link_elem =>
      let href := default EmptyString (Html.href link_elem) in
      let watch_link :=
        if Py.truthy_str href then Some (BASE_URL env +:+ href) else None in
      let title := default "Без названия" (Html.item_title link_elem) in
      let year := default EmptyString (Html.item_year link_elem) in
      let rating :=
        match Html.item_rating link_elem with
        | Some (Some t) => t
        | _ => "N/A"
        end in
      let poster_url :=
        match Html.meta_img card with
        | Some content => content
        | None => None
        end in
      let poster_url :=
        if Py.truthy_ostr poster_url then poster_url
        else match preview_poster link_elem with
             | Some url => Some url
             | None => poster_url
             end in
      let poster_url :=
        match poster_url with
        | Some u =>
            if Py.truthy_str u && Py.startswith u "//"
            then Some ("https:" +:+ u) else poster_url
        | None => None
        end in
      Some {| title := title; year := year; rating := rating;
              poster_url := poster_url; watch_link := watch_link;
              kp := None; imdb := None |}
  end.

Fixpoint parse_cards (cards : list Html.Card) : list Film :=
  match cards with
  | [] => []
  | card :: rest =>
      match parse_card card with
      | Some film => film :: parse_cards rest
      | None => parse_cards rest
      end
  end.

Definition parse_zona_results (query : string) : M (list Film) :=
  let url := ZONA_SEARCH_URL +:+ quote env query in
  '(status, html) ← session_get url;
  if negb (status =? 200) then mret []
  else if negb (Html.results_title html) then mret []
  else mret (parse_cards (Html.cards html)).

Definition get_film_ratings (watch_link : option string) : M (string * string) :=
  match watch_link with
  | Some link =>
      if negb (Py.truthy_str link) then mret (dash, dash)
      else
        page ← try_except any_exception
                 ('(status, html) ← session_get link;
                  mret (if status =? 200 then Some html else None))
                 (mret None);
        match page with
        | Some html =>
            match Html.rating_dd html with
            | Some dd =>
                mret (default dash (Html.kp_span dd), default dash (Html.imdb_span dd))
            | None => mret (dash, dash)
            end
        | None => mret (dash, dash)
        end
  | None => mret (dash, dash)
  end.

(** *** View model *)

Definition build_keyboard (user_id : Z) (total : Z) (show_list : bool) : M Markup :=
  data ← user_data_get user_id;
  let current := current_index data in
  '(_, result) ← getitem_at (results data) current;
  let builder := [] in
  let builder := if 0 <? current then builder_button prev_button builder else builder in
  let builder := builder_button (watch_button (watch_link result)) builder in
  let builder :=
    if current <? total - 1 then builder_button next_button builder else builder in
  let builder :=
    if (3 <? total) && show_list then builder_row [list_button] builder else builder in
  mret builder.

Definition film_caption (result : Film) (kp_v imdb_v : string) (current total : Z)
    (query : string) : string :=
  "🎥 <b>" +:+ title result +:+ "</b> " +:+ year_suffix (year result) +:+ nl +:+ nl
  +:+ "⭐ <b>Рейтинги:</b>" +:+ nl
  +:+ "   🇷🇺 Кинопоиск: <b>" +:+ kp_v +:+ "</b>" +:+ nl
  +:+ "   🌍 IMDb: <b>" +:+ imdb_v +:+ "</b>" +:+ nl
  +:+ "   🏠 Zona: <b>" +:+ rating result +:+ "</b>" +:+ nl +:+ nl
  +:+ "📊 Позиция: " +:+ Py.str current +:+ " из " +:+ Py.str total +:+ nl
  +:+ "🔍 Запрос: <i>" +:+ query +:+ "</i>".

(** The chat the reply goes to; [None] where the function returns
    because the update carries no message. *)
Definition reply_chat (message : Message + CallbackQuery) : option Z :=
  match message with
  | inl m => Some (m_chat m)
  | inr cb => cb_message_chat cb
  end.

Definition dict_item (o : option string) : M string :=
  match o with
  | Some v => mret v
  | None => raise Py.KeyError
  end.

Definition show_current_film (message : Message + CallbackQuery) (user_id : Z) : M unit :=
  data ← user_data_get user_id;
  '(pos, result) ← getitem_at (results data) (current_index data);
  let current := current_index data + 1 in
  let total := Py.len (results data) in
  result ← match kp result with
           | Some _ => mret result
           | None =>
               '(k, i) ← get_film_ratings (watch_link result);
               user_data_update user_id
                 (λ d, set_results (alter (set_ratings k i) pos (results d)) d);;
               mret (set_ratings k i result)
           end;
  let full_title :=
    title result +:+
    (if Py.truthy_str (year result) then " (" +:+ year result +:+ ")" else EmptyString) in
  db_execute (UpsertStats user_id full_title);;
  kp_v ← dict_item (kp result);
  imdb_v ← dict_item (imdb result);
  let caption := film_caption result kp_v imdb_v current total (query data) in
  keyboard ← build_keyboard user_id total true;
  match reply_chat message with
  | None => mret tt
  | Some chat_id =>
      data ← user_data_get user_id;
      let msg_id := msg_id data in
      media ← photo_arg (poster_url result);
      try_except any_exception
        (match msg_id with
         | Some m =>
             if Py.truthy_oint msg_id
             then bot_edit_message_media chat_id m media caption keyboard
             else raise Py.OtherError
         | None => raise Py.OtherError
         end)
        (safe_delete chat_id msg_id;;
         user_data_update user_id (set_msg_id None);;
         sent ← bot_send_photo chat_id media caption keyboard;
         user_data_update user_id (set_msg_id (Some sent)))
  end.

(** One line of the list of variants. *)
Definition list_line (i : Z) (res : Film) : string :=
  let title := with_year (title res) (year res) in
  let title :=
    if 80 <? Py.str_len title
    then Py.str_slice_to title 77 +:+ "..." else title in
  "<b>" +:+ Py.str i +:+ ".</b> " +:+ title +:+ " — ⭐ " +:+ rating res +:+ nl.

(** [for i, res in enumerate(films, i): text += ...] *)
Fixpoint list_lines (i : Z) (films : list Film) (text : string) : string :=
  match films with
  | [] => text
  | res :: rest => list_lines (i + 1) rest (text +:+ list_line i res)
  end.

Definition list_text (results : list Film) : string :=
  let text := "📋 <b>Все найденные варианты:</b>" +:+ nl +:+ nl in
  let text := list_lines 1 (Py.slice_to results (FILMS_TO_SHOW env)) text in
  let text :=
    if FILMS_TO_SHOW env <? Py.len results
    then text +:+ nl +:+ "... и ещё "
         +:+ Py.str (Py.len results - FILMS_TO_SHOW env) +:+ " вариантов"
    else text in
  text +:+ nl +:+ nl +:+ "Напиши номер нужного фильма или нажми «Закрыть»".

Definition show_list_variants (message : CallbackQuery) (user_id : Z)
    (state : Z * Z) : M unit :=
  match cb_message_chat message with
  | None => mret tt
  | Some chat_id =>
      data ← user_data_get user_id;
      let text := list_text (results data) in
      let builder := builder_button close_button [] in
      safe_delete chat_id (list_msg_id data);;
      sent ← message_answer chat_id text builder;
      user_data_update user_id (set_list_msg_id (Some sent));;
      state_set_state state waiting_for_number;;
      state_set_data state {[ "user_id" := user_id ]}
  end.

Definition close_list (user_id chat_id : Z) : M unit :=
  w ← get_world;
  match user_data w !! user_id with
  | Some data =>
      match list_msg_id data with
      | Some m =>
          if Py.truthy_oint (list_msg_id data) then
            try_except any_exception (bot_delete_message chat_id m) (mret tt);;
            user_data_update user_id (set_list_msg_id None)
          else mret tt
      | None => mret tt
      end
  | None => mret tt
  end.

(** *** Handlers *)

Definition frozen_caption (old_result : Film) (old_query : string) : string :=
  "<b>" +:+ title old_result +:+ "</b> " +:+ year_suffix (year old_result) +:+ nl
  +:+ "⭐ <b>Рейтинг:</b> " +:+ rating old_result +:+ nl +:+ nl
  +:+ "<i>Запрос: " +:+ old_query +:+ " (старый поиск)</i>".

(** [@dp.message(F.text, StateFilter(None))] *)
Definition handle_search (message : Message) (state : Z * Z) : M unit :=
  match m_from_user message, m_text message with
  | Some user_id, Some text =>
      if negb (Py.truthy_str text) then mret tt
      else
        state_clear state;;
        let query_text := Py.strip text in
        let chat_id := m_chat message in
        known ← user_data_contains (Some user_id);
        (if (known : bool) then
           old ← user_data_get user_id;
           safe_delete chat_id (list_msg_id old);;
           match msg_id old with
           | Some m =>
               if Py.truthy_oint (msg_id old) then
                 try_except any_exception
                   ('(_, old_result) ← getitem_at (results old) (current_index old);
                    let old_caption := frozen_caption old_result (query old) in
                    let frozen_keyboard :=
                      builder_row [watch_button (watch_link old_result)] [] in
                    media ← photo_arg (poster_url old_result);
                    bot_edit_message_media chat_id m media
                      old_caption frozen_keyboard)
                   (safe_delete chat_id (msg_id old))
               else mret tt
           | None => mret tt
           end;;
           modify (set_user_data (delete user_id))
         else mret tt);;
        w ← get_world;
        let timestamp := now env (clock w) in
        db_execute (InsertHistory user_id query_text timestamp);;
        searching ← message_answer chat_id "🔍 Ищу..." [];
        results ← parse_zona_results query_text;
        bot_delete_message chat_id searching;;
        match results with
        | [] =>
            message_answer chat_id
              ("😔 Ничего не найдено по запросу:" +:+ nl
               +:+ "<code>" +:+ query_text +:+ "</code>") [];;
            mret tt
        | _ :: _ =>
            modify (set_user_data (insert user_id
              {| results := results; current_index := 0; query := query_text;
                 msg_id := None; list_msg_id := None |}));;
            show_current_film (inl message) user_id
        end
  | _, _ => mret tt
  end.

(** [@dp.callback_query(NavCallback.filter())] *)
Definition handle_navigation (callback : CallbackQuery) (callback_data : NavCallback)
    (state : Z * Z) : M unit :=
  match cb_message_chat callback with
  | None => mret tt
  | Some chat_id =>
      let user_id := cb_from_user callback in
      known ← user_data_contains (Some user_id);
      if negb known then callback_answer (Some "Сделай новый поиск!") true
      else
        data ← user_data_get user_id;
        let action := nav_action callback_data in
        if String.eqb action "prev" then
          user_data_update user_id (λ d, set_current_index (current_index d - 1) d);;
          show_current_film (inr callback) user_id
        else if String.eqb action "next" then
          user_data_update user_id (λ d, set_current_index (current_index d + 1) d);;
          show_current_film (inr callback) user_id
        else if String.eqb action "list" then
          callback_answer None false;;
          show_list_variants callback user_id state
        else if String.eqb action "close_list" then
          callback_answer None false;;
          (if Py.truthy_oint (list_msg_id data) then
             safe_delete chat_id (list_msg_id data);;
             user_data_update user_id (set_list_msg_id None)
           else mret tt);;
          state_clear state
        else show_current_film (inr callback) user_id
  end.

(** [@dp.callback_query(ConfirmCallback.filter(F.action == "yes"))] *)
Definition confirm_yes (callback : CallbackQuery) (callback_data : ConfirmCallback)
    (state : Z * Z) : M unit :=
  match cb_message_chat callback with
  | None => mret tt
  | Some chat_id =>
      state_data ← state_get_data state;
      let user_id := cb_from_user callback in
      known ← user_data_contains (Some user_id);
      if negb known then
        callback_answer (Some "Сессия устарела") true;;
        state_clear state
      else
        data ← user_data_get user_id;
        let chosen_index := confirm_index callback_data in
        (if Py.truthy_oint (list_msg_id data) then
           safe_delete chat_id (list_msg_id data);;
           user_data_update user_id (set_list_msg_id None)
         else mret tt);;
        let confirm_msg_id := state_data !! "confirm_msg_id" in
        safe_delete chat_id confirm_msg_id;;
        user_data_update user_id (set_current_index chosen_index);;
        state_clear state;;
        show_current_film (inr callback) user_id;;
        callback_answer None false
  end.

(** [@dp.callback_query(ConfirmCallback.filter(F.action == "no"))] *)
Definition confirm_no (callback : CallbackQuery) (state : Z * Z) : M unit :=
  match cb_message_chat callback with
  | None => mret tt
  | Some chat_id =>
      state_data ← state_get_data state;
      let confirm_msg_id := state_data !! "confirm_msg_id" in
      safe_delete chat_id confirm_msg_id;;
      callback_answer (Some "Выберите другой номер") false;;
      state_set_state state waiting_for_number
  end.

Definition confirm_caption (selected : Film) : string :=
  "🔍 <b>Это тот фильм?</b>" +:+ nl +:+ nl
  +:+ "<b>" +:+ title selected +:+ "</b> " +:+ year_suffix (year selected) +:+ nl
  +:+ "⭐ <b>Рейтинг Zona:</b> " +:+ rating selected.

Definition confirm_keyboard (num : Z) : Markup :=
  builder_row [confirm_button "✅ Да, тот!" "yes" num;
               confirm_button "❌ Нет, другой" "no" num] [].

Definition reprompt (num : Z) : string := "Введите номер от 1 до " +:+ Py.str num.

(** [@dp.message(ChooseFilm.waiting_for_number, F.text.regexp(r"^\d+$"))] *)
Definition handle_number_choice (message : Message) (state : Z * Z) : M unit :=
  match m_text message with
  | None => mret tt
  | Some text =>
      if negb (Py.truthy_str text) then mret tt
      else
        let chat_id := m_chat message in
        state_data ← state_get_data state;
        let user_id := state_data !! "user_id" in
        known ← user_data_contains user_id;
        if negb known then
          message_answer chat_id "Поиск устарел. Сделай новый запрос." [];;
          state_clear state
        else
          data ← match user_id with
                 | Some u => user_data_get u
                 | None => raise Py.KeyError
                 end;
          try_except value_error
            (num ← match Py.int text with
                   | Some n => mret (n - 1)
                   | None => raise Py.ValueError
                   end;
             if (0 <=? num) && (num <? Py.len (results data)) then
               '(_, selected) ← getitem_at (results data) num;
               photo ← photo_arg (poster_url selected);
               confirm_msg ← bot_send_photo chat_id photo
                               (confirm_caption selected) (confirm_keyboard num);
               state_set_state state confirming_choice;;
               state_update_data state
                 {[ "confirm_msg_id" := confirm_msg; "chosen_index" := num ]}
             else
               message_answer chat_id (reprompt num) [];;
               mret tt)
            (message_answer chat_id "Введите только число" [];;
             mret tt)
  end.

(** [@dp.message(ChooseFilm.waiting_for_number)] *)
Definition handle_invalid (message : Message) (state : Z * Z) : M unit :=
  message_answer (m_chat message) "Пожалуйста, напиши только номер фильма из списка." [];;
  mret tt.

End Bot.

(** ** Specification vocabulary *)

(** The world a handler leaves, and how it ends. *)
Definition exec {A} (m : M A) (w : World) : World := snd (m w).
Definition outcome {A} (m : M A) (w : World) : Outcome A := fst (m w).

(** [I] holds after [m] whenever it holds before, also when [m] raises. *)
Definition inv {A} (I : World → Prop) (m : M A) : Prop :=
  ∀ w, I w → I (exec m w).

(** The index of the record shown is a position of [results]. *)
Definition in_bounds (s : Session) : Prop :=
  0 ≤ current_index s < Py.len (results s).

Definition store_in_bounds (w : World) : Prop :=
  map_Forall (λ _ s, in_bounds s) (user_data w).

(** The record the session shows. *)
Definition current_film (s : Session) : option Film :=
  Py.getitem (results s) (current_index s).

(** Requests to the catalog site among the calls of a trace. *)
Definition is_fetch (ev : Event) : bool :=
  match ev with HttpGet _ => true | _ => false end.

Definition fetches (t : list Event) : nat := length (List.filter is_fetch t).

(** Does a keyboard carry a button of the navigation [action]. *)
Definition is_nav (action : string) (b : Button) : bool :=
  match b with
  | CallbackButton _ (inl c) => String.eqb (nav_action c) action
  | _ => false
  end.

Definition offers (action : string) (kb : Markup) : bool :=
  existsb (is_nav action) (concat kb).

(** The confirmations the buttons of a keyboard carry, in the order of
    the buttons. *)
Definition confirmations (kb : Markup) : list ConfirmCallback :=
  omap (λ b, match b with
             | CallbackButton _ (inr c) => Some c
             | _ => None
             end) (concat kb).

(** The keyboard a call puts on the screen. *)
Definition event_markup (ev : Event) : option Markup :=
  match ev with
  | EditMessageMedia _ _ _ _ kb | SendPhoto _ _ _ kb | SendMessage _ _ kb => Some kb
  | _ => None
  end.

(** The keyboard has the controls the state of the session calls for:
    [prev] off the first record, [next] off the last, the list for more
    than three records. *)
Definition keyboard_fits (s : Session) (kb : Markup) : Prop :=
  offers "prev" kb = (0 <? current_index s)
  ∧ offers "next" kb = (current_index s <? Py.len (results s) - 1)
  ∧ offers "list" kb = (3 <? Py.len (results s)).

Definition view_fits (s : Session) (ev : Event) : Prop :=
  ∀ kb, event_markup ev = Some kb → keyboard_fits s kb.

(** The call by which [safe_delete] takes a message off the screen, when
    there is a message to take off. *)
Definition deleted (chat_id : Z) (msg_id : option Z) : list Event :=
  match msg_id with
  | Some m => if Py.truthy_oint msg_id then [DeleteMessage chat_id m] else []
  | None => []
  end.

(** The index and the number of records of a session. *)
Definition shape (s : Session) : Z * nat := (current_index s, length (results s)).

(** What a session keeps while a record is rendered: everything but the
    id of the message and the ratings cached on the records. *)
Definition core (s : Session) : Z * nat * string * option Z :=
  (current_index s, length (results s), query s, list_msg_id s).

(** From [w0] to [w] only records were rendered: the FSM storage and the
    core of every session are those of [w0], and no call was forgotten. *)
Definition frame_show (w0 w : World) : Prop :=
  storage w = storage w0
  ∧ core <$> user_data w = core <$> user_data w0
  ∧ trace w0 `suffix_of` trace w.

(** From [w0] to [w] nothing was fetched and nothing but the ids of the
    messages changed. *)
Definition frame_render (w0 w : World) : Prop :=
  storage w = storage w0
  ∧ set_msg_id None <$> user_data w = set_msg_id None <$> user_data w0
  ∧ fetches (trace w) = fetches (trace w0).

(** The navigation actions, as the updates that carry them. *)
Inductive Action :=
| Nav (callback : CallbackQuery) (callback_data : NavCallback)
| SelectNumber (message : Message)
| Confirm (callback : CallbackQuery) (callback_data : ConfirmCallback)
| Reject (callback : CallbackQuery).

Definition transition (env : Env) (a : Action) (state : Z * Z) : M unit :=
  match a with
  | Nav callback callback_data => handle_navigation env callback callback_data state
  | SelectNumber message => handle_number_choice env message state
  | Confirm callback callback_data => confirm_yes env callback callback_data state
  | Reject callback => confirm_no env callback state
  end.

(** The action is one a keyboard built for the user's session offers:
    [prev] and [next] only off the ends, and a confirmation only of a
    position of the list. *)
Definition offered (w : World) (a : Action) : Prop :=
  match a with
  | Nav callback callback_data =>
      ∀ s, user_data w !! cb_from_user callback = Some s →
        (nav_action callback_data = "prev" → 0 < current_index s)
        ∧ (nav_action callback_data = "next" → current_index s < Py.len (results s) - 1)
  | Confirm callback callback_data =>
      ∀ s, user_data w !! cb_from_user callback = Some s →
        0 ≤ confirm_index callback_data < Py.len (results s)
  | SelectNumber _ | Reject _ => True
  end.

(** ** A catalog and a user, for concrete runs *)

Module Demo.

Definition anchor (t : string) (h : option string) : Html.Anchor :=
  {| Html.href := h;
     Html.item_title := Some t;
     Html.item_year := Some "1999";
     Html.item_rating := Some (Some "8.1");
     Html.item_preview :=
       Some (Some "background-image: url('//img.example.com/x.jpg')") |}.

Definition card (t h : string) : Html.Card :=
  {| Html.link_elem := Some (anchor t (Some h)); Html.meta_img := None |}.

(** An entry without its anchor. *)
Definition linkless : Html.Card :=
  {| Html.link_elem := None; Html.meta_img := Some (Some "//img.example.com/y.jpg") |}.

(** An entry whose image metadata names the placeholder. *)
Definition placeholder_in_meta : Html.Card :=
  {| Html.link_elem := Some (anchor "F" (Some "/f"));
     Html.meta_img := Some (Some "/img/nocover.png") |}.

(** An entry whose only poster is the placeholder, in the inline style. *)
Definition placeholder_in_style : Html.Card :=
  {| Html.link_elem :=
       Some {| Html.href := Some "/g";
               Html.item_title := Some "G";
               Html.item_year := None;
               Html.item_rating := None;
               Html.item_preview :=
                 Some (Some "background-image:url(/img/nocover.png)") |};
     Html.meta_img := None |}.

Definition results_page (cards : list Html.Card) : Html.Document :=
  {| Html.results_title := true; Html.cards := cards; Html.rating_dd := None |}.

Definition detail_page : Html.Document :=
  {| Html.results_title := false; Html.cards := [];
     Html.rating_dd := Some {| Html.kp_span := Some "7.0"; Html.imdb_span := Some "7.5" |} |}.

Definition matrix_page : Html.Document :=
  results_page [card "A" "/a"; card "B" "/b"; linkless; card "C" "/c";
                card "D" "/d"; card "E" "/e"].

Definition old_page : Html.Document :=
  results_page [card "P" "/p"; card "Q" "/q"; card "R" "/r"; card "S" "/s"].

Definition new_page : Html.Document :=
  results_page [card "X" "/x"; card "Y" "/y"].

(** The site answers three queries; Telegram, the site and the database
    never fail; the message sent at moment [t] gets the id [100 + t]. *)
Definition env : Env :=
  {| BASE_URL := "https://zona.example";
     FILMS_TO_SHOW := 10;
     quote := λ q, q;
     http_get := λ _ url,
       if String.eqb url "https://zona.example/search/matrix" then inr (200, matrix_page)
       else if String.eqb url "https://zona.example/search/old" then inr (200, old_page)
       else if String.eqb url "https://zona.example/search/new" then inr (200, new_page)
       else inr (200, detail_page);
     telegram_send := λ t, inr (100 + Z.of_nat t);
     telegram_call := λ _, None;
     db_call := λ _, None;
     now := λ _, "01-01-2026 12:00:00" |}.

Definition user : Z := 7.
Definition chat : Z := 7.
Definition state : Z * Z := (chat, user).

Definition says (text : string) : Message :=
  {| m_from_user := Some user; m_chat := chat; m_text := Some text |}.

Definition press : CallbackQuery :=
  {| cb_from_user := user; cb_message_chat := Some chat |}.

Definition nav (action : string) : NavCallback := {| nav_action := action |}.

Definition yes (index : Z) : ConfirmCallback :=
  {| confirm_action := "yes"; confirm_index := index |}.

Definition start : World :=
  {| user_data := ∅; storage := ∅; trace := []; clock := 0 |}.

(** The user searched for [matrix]: five records, the first one shown. *)
Definition browsing_matrix : World :=
  exec (handle_search env (says "matrix") state) start.

(** ... and opened the list: the bot waits for a number. *)
Definition awaiting_matrix : World :=
  exec (handle_navigation env press (nav "list") state) browsing_matrix.

(** The user searched for [new]: two records; then pressed [next]: the
    last one is shown. *)
Definition browsing_new : World :=
  exec (handle_search env (says "new") state) start.

Definition last_of_new : World :=
  exec (handle_navigation env press (nav "next") state) browsing_new.

(** The user searched for [old] (four records), opened the list, chose
    number 4, closed the list without answering the question, and
    searched for [new] (two records).  The question about number 4 is
    still on the screen. *)
Definition old_awaiting : World :=
  exec (handle_navigation env press (nav "list") state)
    (exec (handle_search env (says "old") state) start).

Definition old_confirming : World :=
  exec (handle_number_choice env (says "4") state) old_awaiting.

Definition superseded : World :=
  exec (handle_search env (says "new") state)
    (exec (handle_navigation env press (nav "close_list") state) old_confirming).

(** The two records of [new], as [handle_search] stores them before the
    first one is shown. *)
Definition fresh_session : Session :=
  {| results := parse_cards env (Html.cards new_page);
     current_index := 0;
     query := "new";
     msg_id := None;
     list_msg_id := None |}.

Definition found_new : World := set_user_data (insert user fresh_session) start.

End Demo.

(** ** The help command *)

Definition help_text : string :=
  "ℹ️ <b>Как я работаю:</b>" +:+ nl +:+ nl
  +:+ "🔍 Просто напиши название фильма" +:+ nl
  +:+ "◀️▶️ Листай кнопками «Назад» / «Далее»" +:+ nl
  +:+ "📋 «Все варианты» — выбери номер из списка" +:+ nl
  +:+ "🎬 «Смотреть онлайн» — сразу к просмотру" +:+ nl +:+ nl
  +:+ "📊 <b>Команды:</b>" +:+ nl
  +:+ "/history — последние запросы" +:+ nl
  +:+ "/stats — твои самые просматриваемые фильмы" +:+ nl
  +:+ "/clear_data — очистить всё" +:+ nl +:+ nl
  +:+ "Приятного просмотра! 🍿".

(** [@dp.message(Command("help"))] *)
Definition cmd_help (env : Env) (message : Message) (state : Z * Z) : M unit :=
  match m_from_user message with
  | Some user_id =>
      close_list env user_id (m_chat message);;
      message_answer env (m_chat message) help_text [];;
      mret tt
  | None => mret tt
  end.

(** ** Footprints *)

(** One assignment to a key of a session dict, as the handlers make them:
    to [msg_id], to [list_msg_id], to [current_index], or of a pair of
    ratings to one of the records. *)
Inductive assigns (s : Session) : Session → Prop :=
| assigns_msg_id (m : option Z) : assigns s (set_msg_id m s)
| assigns_list_msg_id (m : option Z) : assigns s (set_list_msg_id m s)
| assigns_current_index (i : Z) : assigns s (set_current_index i s)
| assigns_ratings (k i : string) (pos : nat) :
    assigns s (set_results (alter (set_ratings k i) pos (results s)) s).

(** A record as the extractor made it, without the ratings cached later. *)
Definition bare (f : Film) : Film :=
  {| title := title f; year := year f; rating := rating f;
     poster_url := poster_url f; watch_link := watch_link f;
     kp := None; imdb := None |}.

(** What a search fixes of a session: its records and its query. *)
Definition findings (s : Session) : list Film * string :=
  (bare <$> results s, query s).

(** The user whose session an action may assign to. *)
Definition actor (a : Action) : option Z :=
  match a with
  | Nav callback _ | Confirm callback _ => Some (cb_from_user callback)
  | SelectNumber _ | Reject _ => None
  end.

(** ** A second user, for concrete runs *)

Module Guest.

Definition user : Z := 8.
Definition chat : Z := 8.
Definition state : Z * Z := (chat, user).

Definition says (text : string) : Message :=
  {| m_from_user := Some user; m_chat := chat; m_text := Some text |}.

(** The first user browses [matrix]; the guest has searched for [new]. *)
Definition both_browsing : World :=
  exec (handle_search Demo.env (says "new") state) Demo.browsing_matrix.

(** The first user has the list of [matrix] open and is asked for a
    number; the guest browses [new]. *)
Definition host_awaiting : World :=
  exec (handle_search Demo.env (says "new") state) Demo.awaiting_matrix.

(** Telegram refuses every edit, deletion and answer to a press. *)
Definition refusing : Env :=
  {| BASE_URL := BASE_URL Demo.env;
     FILMS_TO_SHOW := FILMS_TO_SHOW Demo.env;
     quote := quote Demo.env;
     http_get := http_get Demo.env;
     telegram_send := telegram_send Demo.env;
     telegram_call := λ _, Some Py.OtherError;
     db_call := db_call Demo.env;
     now := now Demo.env |}.

End Guest.

(** ** An entry without poster, for concrete runs *)

Module Plain.

(** An entry with neither image metadata nor preview. *)
Definition card : Html.Card :=
  {| Html.link_elem :=
       Some {| Html.href := Some "/n";
               Html.item_title := Some "N";
               Html.item_year := None;
               Html.item_rating := None;
               Html.item_preview := None |};
     Html.meta_img := None |}.

(** The one record of this entry, as [handle_search] stores it before it
    is shown. *)
Definition session : Session :=
  {| results := parse_cards Demo.env [card];
     current_index := 0;
     query := "n";
     msg_id := None;
     list_msg_id := None |}.

Definition found : World := set_user_data (insert Demo.user session) Demo.start.

End Plain.

(** ** Moves of the index *)

(** The core of a session whose index moved by [d]. *)
Definition moved (d : Z) (c : Z * nat * string * option Z) : Z * nat * string * option Z :=
  let '(i, n, q, l) := c in (i + d, n, q, l).

(** ** Invariants of the primitives *)

Lemma exec_bind {A B} (m : M A) (k : A → M B) (w : World) :
  exec (m ≫= k) w =
  match outcome m w with
  | Return a => exec (k a) (exec m w)
  | Raise _ => exec m w
  end.
Proof.
  unfold exec, outcome, mbind, M_bind.
  destruct (m w) as [[a|e] w']; reflexivity.
Qed.

Lemma outcome_bind {A B} (m : M A) (k : A → M B) (w : World) :
  outcome (m ≫= k) w =
  match outcome m w with
  | Return a => outcome (k a) (exec m w)
  | Raise e => Raise e
  end.
Proof.
  unfold exec, outcome, mbind, M_bind.
  destruct (m w) as [[a|e] w']; reflexivity.
Qed.

Lemma bind_run {A B} (m : M A) (k : A → M B) (w : World) :
  (m ≫= k) w =
  match m w with
  | (Return a, w') => k a w'
  | (Raise e, w') => (Raise e, w')
  end.
Proof. reflexivity. Qed.

Lemma user_data_get_run (user_id : Z) (w : World) :
  user_data_get user_id w =
  (match user_data w !! user_id with
   | Some data => Return data
   | None => Raise Py.KeyError
   end, w).
Proof.
  unfold user_data_get, get_world. rewrite bind_run.
  destruct (user_data w !! user_id); reflexivity.
Qed.

Lemma user_data_update_run (user_id : Z) (f : Session → Session) (w : World) :
  user_data_update user_id f w =
  match user_data w !! user_id with
  | Some data => (Return tt, set_user_data (insert user_id (f data)) w)
  | None => (Raise Py.KeyError, w)
  end.
Proof.
  unfold user_data_update. rewrite bind_run, user_data_get_run.
  destruct (user_data w !! user_id); reflexivity.
Qed.

Lemma getitem_at_run {A} (l : list A) (i : Z) (w : World) :
  getitem_at l i w =
  (match Py.norm_index (length l) i with
   | Some pos => match l !! pos with
                 | Some x => Return (pos, x)
                 | None => Raise Py.IndexError
                 end
   | None => Raise Py.IndexError
   end, w).
Proof.
  unfold getitem_at. destruct (Py.norm_index _ _); [destruct (l !! _)|]; reflexivity.
Qed.

Section Invariants.

Variable I : World → Prop.

Lemma inv_ret {A} (a : A) : inv I (mret a).
Proof. intros w Hw. exact Hw. Qed.

Lemma inv_raise {A} (e : Py.Exn) : inv I (raise e : M A).
Proof. intros w Hw. exact Hw. Qed.

Lemma inv_get_world : inv I get_world.
Proof. intros w Hw. exact Hw. Qed.

Lemma inv_bind {A B} (m : M A) (k : A → M B) :
  inv I m → (∀ a, inv I (k a)) → inv I (m ≫= k).
Proof.
  intros Hm Hk w Hw. rewrite exec_bind.
  destruct (outcome m w); [apply Hk|]; apply Hm, Hw.
Qed.

Lemma inv_bind_val {A B} (m : M A) (k : A → M B) (Q : A → Prop) :
  inv I m → (∀ w a w', I w → m w = (Return a, w') → Q a) →
  (∀ a, Q a → inv I (k a)) → inv I (m ≫= k).
Proof.
  intros Hm HQ Hk w Hw. unfold exec. rewrite bind_run.
  pose proof (Hm w Hw) as Hw'. unfold exec in Hw'.
  destruct (m w) as [[a|e] w'] eqn:E; simpl in *; [|exact Hw'].
  apply (Hk a); [exact (HQ w a w' Hw E)|exact Hw'].
Qed.

Lemma inv_try_except {A} (catches : Py.Exn → bool) (body handler : M A) :
  inv I body → inv I handler → inv I (try_except catches body handler).
Proof.
  intros Hb Hh w Hw. specialize (Hb w Hw). revert Hb.
  unfold exec, try_except. destruct (body w) as [[a|e] w']; simpl; auto.
  destruct (catches e); simpl; auto. apply Hh.
Qed.

Lemma inv_modify (f : World → World) :
  (∀ w, I w → I (f w)) → inv I (modify f).
Proof. intros Hf w Hw. apply Hf, Hw. Qed.

Hypothesis I_clock : ∀ w, I w → I (advance_clock w).

Lemma inv_tick : inv I tick.
Proof. intros w Hw. apply I_clock, Hw. Qed.

Lemma inv_external {A} (ev : Event) (answer : nat → Py.Exn + A) :
  (∀ w, I w → I (push_event ev w)) → inv I (external ev answer).
Proof.
  intros Hev. unfold external, emit.
  apply inv_bind; [apply inv_tick|]. intros t.
  apply inv_bind; [apply inv_modify, Hev|]. intros _.
  destruct (answer t); [apply inv_raise|apply inv_ret].
Qed.

Lemma inv_external_ (ev : Event) (answer : nat → option Py.Exn) :
  (∀ w, I w → I (push_event ev w)) → inv I (external_ ev answer).
Proof.
  intros Hev. unfold external_, emit.
  apply inv_bind; [apply inv_tick|]. intros t.
  apply inv_bind; [apply inv_modify, Hev|]. intros _.
  destruct (answer t); [apply inv_raise|apply inv_ret].
Qed.

Lemma inv_user_data_get (user_id : Z) : inv I (user_data_get user_id).
Proof.
  intros w Hw. unfold exec, user_data_get, get_world, mbind, M_bind.
  destruct (user_data w !! user_id); exact Hw.
Qed.

Lemma inv_user_data_contains (user_id : option Z) :
  inv I (user_data_contains user_id).
Proof. intros w Hw. exact Hw. Qed.

Lemma inv_user_data_update (user_id : Z) (f : Session → Session) :
  (∀ w s, user_data w !! user_id = Some s → I w →
     I (set_user_data (insert user_id (f s)) w)) →
  inv I (user_data_update user_id f).
Proof.
  intros Hf w Hw. unfold exec, user_data_update, user_data_get, get_world, mbind, M_bind.
  destruct (user_data w !! user_id) eqn:E; simpl; [|exact Hw].
  apply Hf; assumption.
Qed.

Lemma inv_state_get_data (state : Z * Z) : inv I (state_get_data state).
Proof. intros w Hw. exact Hw. Qed.

Lemma inv_getitem_at {A} (l : list A) (i : Z) : inv I (getitem_at l i).
Proof.
  intros w Hw. unfold exec, getitem_at.
  destruct (Py.norm_index _ _); [destruct (l !! _)|]; exact Hw.
Qed.

Lemma inv_dict_item (o : option string) : inv I (dict_item o).
Proof. intros w Hw. unfold exec, dict_item. destruct o; exact Hw. Qed.

End Invariants.

(** One step of a proof that a handler keeps an invariant: the rule of the
    construct at the head, or a case analysis, or the body of a function of
    the bot. *)
Ltac inv_step :=
  lazymatch goal with
  | |- inv _ (mbind _ _) => apply inv_bind; [|intros ?]
  | |- inv _ (mret _) => apply inv_ret
  | |- inv _ (raise _) => apply inv_raise
  | |- inv _ get_world => apply inv_get_world
  | |- inv _ tick => apply inv_tick
  | |- inv _ (try_except _ _ _) => apply inv_try_except
  | |- inv _ (modify _) => apply inv_modify
  | |- inv _ (external _ _) => apply inv_external
  | |- inv _ (external_ _ _) => apply inv_external_
  | |- inv _ (user_data_get _) => apply inv_user_data_get
  | |- inv _ (user_data_contains _) => apply inv_user_data_contains
  | |- inv _ (user_data_update _ _) => apply inv_user_data_update
  | |- inv _ (state_get_data _) => apply inv_state_get_data
  | |- inv _ (getitem_at _ _) => apply inv_getitem_at
  | |- inv _ (dict_item _) => apply inv_dict_item
  | |- inv _ (match ?x with _ => _ end) => destruct x
  | |- inv _ _ =>
      progress unfold bot_delete_message, bot_edit_message_media, bot_send_photo,
        message_answer, callback_answer, db_execute, session_get, emit,
        state_clear, state_set_state, state_set_data, state_update_data, photo_arg
  end.

(** Read a goal about the world a computation leaves as an invariance. *)
Ltac as_inv :=
  lazymatch goal with
  | |- ∀ w, ?I w → ?I (snd (?m w)) => change (inv I m)
  | |- ∀ w, ?I w → ?I (exec ?m w) => change (inv I m)
  end.

Section Rendering.

Variable env : Env.
Variable I : World → Prop.

(** What the invariant asks of a keyboard that is sent. *)
Variable K : Markup → Prop.

Hypothesis I_clock : ∀ w, I w → I (advance_clock w).
Hypothesis I_event : ∀ ev w,
  is_fetch ev = false → (∀ kb, event_markup ev = Some kb → K kb) →
  I w → I (push_event ev w).
Hypothesis I_msg_id : ∀ u m w s,
  user_data w !! u = Some s → I w → I (set_user_data (insert u (set_msg_id m s)) w).

Ltac side :=
  try assumption;
  try (intros; apply I_event;
       [reflexivity|simpl; intros ? [= <-] || intros ? [=]; assumption|assumption]);
  try (intros; apply I_msg_id; assumption).

Lemma inv_safe_delete (chat_id : Z) (msg_id : option Z) :
  inv I (safe_delete env chat_id msg_id).
Proof. unfold safe_delete. repeat inv_step; side. Qed.

Lemma inv_build_keyboard (user_id total : Z) (show_list : bool) :
  inv I (build_keyboard user_id total show_list).
Proof. unfold build_keyboard. repeat inv_step; side. Qed.

Lemma inv_get_film_ratings (watch_link : option string) :
  (∀ url w, I w → I (push_event (HttpGet url) w)) →
  inv I (get_film_ratings env watch_link).
Proof. intros Hf. unfold get_film_ratings. repeat inv_step; side; apply Hf. Qed.

(** The keyboard of [show_current_film] is the one of [build_keyboard],
    whose result the invariant may constrain. *)
Ltac show_step Hkb :=
  lazymatch goal with
  | |- inv ?I' (mbind ?k (build_keyboard ?u ?t ?sl)) =>
      apply (inv_bind_val I' (build_keyboard u t sl) k K);
      [apply inv_build_keyboard|exact Hkb|intros ? ?]
  | |- inv _ (safe_delete _ _ _) => apply inv_safe_delete
  | |- _ => inv_step
  end.

Lemma inv_show_current_film (message : Message + CallbackQuery) (user_id : Z)
    (w : World) :
  I w →
  (∀ data w1 kb w2, user_data w !! user_id = Some data → I w1 →
     build_keyboard user_id (Py.len (results data)) true w1 = (Return kb, w2) → K kb) →
  ((∃ s film, user_data w !! user_id = Some s
      ∧ current_film s = Some film ∧ is_Some (kp film))
   ∨ ((∀ url w, I w → I (push_event (HttpGet url) w))
      ∧ (∀ u k i pos w s, user_data w !! u = Some s → I w →
           I (set_user_data
                (insert u (set_results (alter (set_ratings k i) pos (results s)) s)) w)))) →
  I (exec (show_current_film env message user_id) w).
Proof.
  intros Hw Hkb Hcase. unfold show_current_film, exec.
  rewrite bind_run, user_data_get_run.
  destruct (user_data w !! user_id) as [data|] eqn:Hdata; simpl; [|exact Hw].
  specialize (Hkb data). 
  assert (Hkb' : ∀ w1 kb w2, I w1 →
            build_keyboard user_id (Py.len (results data)) true w1 = (Return kb, w2) → K kb).
  { intros w1 kb w2 H1 H2. exact (Hkb w1 kb w2 eq_refl H1 H2). }
  clear Hkb.
  rewrite bind_run, getitem_at_run.
  destruct (Py.norm_index _ _) as [pos|] eqn:Hpos; simpl; [|exact Hw].
  destruct (results data !! pos) as [result|] eqn:Hres; simpl; [|exact Hw].
  destruct (kp result) as [k|] eqn:Hkp.
  - clear Hcase Hdata. revert w Hw. as_inv.
    repeat show_step Hkb'; side.
  - destruct Hcase as [(s & film & Hs & Hfilm & Hsome)|[Hfetch Hrat]].
    + exfalso. injection Hs as <-.
      unfold current_film, Py.getitem in Hfilm. rewrite Hpos in Hfilm. simpl in Hfilm.
      rewrite Hres in Hfilm. injection Hfilm as <-. rewrite Hkp in Hsome.
      destruct Hsome as [? ?]. discriminate.
    + clear Hdata. revert w Hw. as_inv.
      repeat (apply inv_get_film_ratings || show_step Hkb'); side.
      intros; apply Hrat; assumption.
Qed.

End Rendering.

(** ** Handlers that move no index

    An invariant that looks at the sessions only through their [shape] is
    kept by every function of the bot that assigns no index. *)

Section Shape.

Variable env : Env.
Variable I : World → Prop.

Hypothesis I_clock : ∀ w, I w → I (advance_clock w).
Hypothesis I_event : ∀ ev w, I w → I (push_event ev w).
Hypothesis I_storage : ∀ f w, I w → I (set_storage f w).
Hypothesis I_shape : ∀ u s s' w,
  user_data w !! u = Some s → shape s' = shape s → I w →
  I (set_user_data (insert u s') w).

Lemma shape_set_ratings (k i : string) (pos : nat) (s : Session) :
  shape (set_results (alter (set_ratings k i) pos (results s)) s) = shape s.
Proof. unfold shape. simpl. rewrite length_alter. reflexivity. Qed.

Ltac side :=
  try assumption;
  try (intros; apply I_event; assumption);
  try (intros; apply I_storage; assumption);
  try (intros; eapply I_shape;
       [eassumption|reflexivity || apply shape_set_ratings|assumption]).

Lemma inv_show_current_film_shape (message : Message + CallbackQuery) (user_id : Z) :
  inv I (show_current_film env message user_id).
Proof.
  intros w Hw. apply (inv_show_current_film env I (λ _, True)); side; auto.
  right. split; side.
Qed.

Lemma inv_safe_delete_shape (chat_id : Z) (msg_id : option Z) :
  inv I (safe_delete env chat_id msg_id).
Proof. apply (inv_safe_delete env I (λ _, True)); side. Qed.

Lemma inv_show_list_variants (message : CallbackQuery) (user_id : Z) (state : Z * Z) :
  inv I (show_list_variants env message user_id state).
Proof.
  unfold show_list_variants.
  repeat (inv_step || apply inv_safe_delete_shape); side.
Qed.

Lemma inv_confirm_no (callback : CallbackQuery) (state : Z * Z) :
  inv I (confirm_no env callback state).
Proof.
  unfold confirm_no. repeat (inv_step || apply inv_safe_delete_shape); side.
Qed.

Lemma inv_handle_number_choice (message : Message) (state : Z * Z) :
  inv I (handle_number_choice env message state).
Proof.
  unfold handle_number_choice. repeat inv_step; side.
Qed.

Lemma inv_handle_invalid (message : Message) (state : Z * Z) :
  inv I (handle_invalid env message state).
Proof. unfold handle_invalid. repeat inv_step; side. Qed.

(** [confirm_yes] assigns the index of the button: it keeps [I] when this
    one assignment does. *)
Lemma inv_confirm_yes (callback : CallbackQuery) (callback_data : ConfirmCallback)
    (state : Z * Z) :
  (∀ w s, user_data w !! cb_from_user callback = Some s → I w →
     I (set_user_data
          (insert (cb_from_user callback)
             (set_current_index (confirm_index callback_data) s)) w)) →
  inv I (confirm_yes env callback callback_data state).
Proof.
  intros Hidx. unfold confirm_yes.
  repeat (inv_step || apply inv_safe_delete_shape
          || apply inv_show_current_film_shape); side.
Qed.

(** [handle_navigation] assigns the index on [prev] and [next], before
    anything else is done: it keeps [I] when this assignment does. *)
Lemma handle_navigation_keeps (callback : CallbackQuery) (callback_data : NavCallback)
    (state : Z * Z) (w : World) :
  I w →
  (∀ s d, user_data w !! cb_from_user callback = Some s →
     (d = -1 ∧ nav_action callback_data = "prev"
      ∨ d = 1 ∧ nav_action callback_data = "next") →
     I (set_user_data
          (insert (cb_from_user callback)
             (set_current_index (current_index s + d) s)) w)) →
  I (exec (handle_navigation env callback callback_data state) w).
Proof.
  intros Hw Hidx. unfold handle_navigation.
  destruct (cb_message_chat callback) as [chat_id|]; [|exact Hw].
  unfold exec. rewrite bind_run. unfold user_data_contains at 1, get_world at 1.
  rewrite bind_run. simpl.
  destruct (user_data w !! cb_from_user callback) as [s|] eqn:Hs.
  2:{ rewrite bool_decide_eq_false_2 by (intros [? ?]; discriminate). simpl.
      revert w Hw Hidx Hs. intros w Hw _ _. revert w Hw. as_inv.
      repeat inv_step; side. }
  rewrite bool_decide_eq_true_2 by eauto. simpl.
  rewrite bind_run, user_data_get_run, Hs.
  destruct (String.eqb _ "prev") eqn:Hprev.
  { apply String.eqb_eq in Hprev.
    rewrite bind_run, user_data_update_run, Hs.
    apply inv_show_current_film_shape. apply (Hidx s (-1)); auto. }
  destruct (String.eqb _ "next") eqn:Hnext.
  { apply String.eqb_eq in Hnext.
    rewrite bind_run, user_data_update_run, Hs.
    apply inv_show_current_film_shape. apply (Hidx s 1); auto. }
  clear Hidx Hs. revert w Hw. as_inv.
  repeat (inv_step || apply inv_safe_delete_shape || apply inv_show_list_variants
          || apply inv_show_current_film_shape); side.
Qed.

End Shape.

(** ** The index of the record shown *)

Lemma in_bounds_shape (s s' : Session) :
  shape s' = shape s → in_bounds s → in_bounds s'.
Proof.
  unfold shape, in_bounds, Py.len. intros [= Hi Hl]. rewrite Hi, Hl. auto.
Qed.

Lemma store_in_bounds_insert (u : Z) (s' : Session) (w : World) :
  in_bounds s' → store_in_bounds w →
  store_in_bounds (set_user_data (insert u s') w).
Proof.
  intros Hs Hw. unfold store_in_bounds. simpl.
  apply map_Forall_insert_2; assumption.
Qed.

Lemma store_in_bounds_shape (u : Z) (s s' : Session) (w : World) :
  user_data w !! u = Some s → shape s' = shape s → store_in_bounds w →
  store_in_bounds (set_user_data (insert u s') w).
Proof.
  intros Hs Hshape Hw. apply store_in_bounds_insert; [|exact Hw].
  apply (in_bounds_shape s); [exact Hshape|]. exact (Hw u s Hs).
Qed.

Lemma store_in_bounds_clock (w : World) :
  store_in_bounds w → store_in_bounds (advance_clock w).
Proof. intros H. exact H. Qed.

Lemma store_in_bounds_event (ev : Event) (w : World) :
  store_in_bounds w → store_in_bounds (push_event ev w).
Proof. intros H. exact H. Qed.

Lemma store_in_bounds_storage f (w : World) :
  store_in_bounds w → store_in_bounds (set_storage f w).
Proof. intros H. exact H. Qed.

Create HintDb frames.

#[local] Hint Resolve store_in_bounds_clock store_in_bounds_event
  store_in_bounds_storage store_in_bounds_shape : frames.

(** The sessions are in bounds and the index [i] is a position of the
    list of the user [u]: what holds all along a confirmation of [i]. *)
Lemma confirmable_shape (u0 : Z) (i : Z) (u : Z) (s s' : Session) (w : World) :
  user_data w !! u = Some s → shape s' = shape s →
  store_in_bounds w
  ∧ (∀ s0, user_data w !! u0 = Some s0 → 0 ≤ i < Py.len (results s0)) →
  store_in_bounds (set_user_data (insert u s') w)
  ∧ (∀ s0, user_data (set_user_data (insert u s') w) !! u0 = Some s0 →
       0 ≤ i < Py.len (results s0)).
Proof.
  intros Hs Hshape [Hw Hi]. split; [eapply store_in_bounds_shape; eassumption|].
  simpl. intros s0. rewrite lookup_insert. case_decide as Hu.
  - intros [= <-]. subst u0. specialize (Hi s Hs).
    unfold shape in Hshape. injection Hshape as _ Hl. unfold Py.len in *.
    rewrite Hl. exact Hi.
  - apply Hi.
Qed.




(** ** The controls of the view *)

Lemma norm_index_in_range (n : nat) (i : Z) :
  0 ≤ i < Z.of_nat n → Py.norm_index n i = Some (Z.to_nat i).
Proof.
  intros H. unfold Py.norm_index.
  destruct (Z.leb_spec 0 i); [|lia]. destruct (Z.ltb_spec i (Z.of_nat n)); [|lia].
  reflexivity.
Qed.

Lemma offers_builder (action : string) (prev next list : bool) (url : option string) :
  offers action
    (let builder := [] in
     let builder := if prev then builder_button prev_button builder else builder in
     let builder := builder_button (watch_button url) builder in
     let builder := if next then builder_button next_button builder else builder in
     let builder := if list then builder_row [list_button] builder else builder in
     builder)
  = (prev && String.eqb "prev" action)
    || (next && String.eqb "next" action)
    || (list && String.eqb "list" action).
Proof.
  destruct prev, next, list; cbn -[String.eqb];
    generalize (String.eqb "prev" action), (String.eqb "next" action),
      (String.eqb "list" action);
    intros [] [] []; reflexivity.
Qed.

(** What [build_keyboard] returns, when it returns. *)
Lemma build_keyboard_offers (u total : Z) (show_list : bool) (w w' : World) (kb : Markup) :
  build_keyboard u total show_list w = (Return kb, w') →
  ∃ s, user_data w !! u = Some s
    ∧ offers "prev" kb = (0 <? current_index s)
    ∧ offers "next" kb = (current_index s <? total - 1)
    ∧ offers "list" kb = (3 <? total) && show_list.
Proof.
  unfold build_keyboard. rewrite bind_run, user_data_get_run.
  destruct (user_data w !! u) as [s|]; [|discriminate].
  rewrite bind_run, getitem_at_run.
  destruct (Py.norm_index _ _) as [pos|]; [|discriminate].
  destruct (results s !! pos) as [film|]; [|discriminate].
  intros [= <- _]. exists s. split; [reflexivity|].
  rewrite !offers_builder. cbn.
  rewrite !andb_false_r, !andb_true_r, !orb_false_r. auto.
Qed.

(** It returns for a session whose index is in bounds, and does not
    change the world. *)
Lemma build_keyboard_returns (u : Z) (show_list : bool) (s : Session) (w : World) :
  user_data w !! u = Some s → in_bounds s →
  ∃ kb, build_keyboard u (Py.len (results s)) show_list w = (Return kb, w).
Proof.
  intros Hs Hb. unfold build_keyboard. rewrite bind_run, user_data_get_run, Hs.
  rewrite bind_run, getitem_at_run, (norm_index_in_range _ _ Hb).
  destruct (lookup_lt_is_Some_2 (results s) (Z.to_nat (current_index s))) as [film ->].
  { unfold in_bounds, Py.len in Hb. lia. }
  eexists. reflexivity.
Qed.

(** Every keyboard [show_current_film] sends fits the session shown. *)
Lemma show_current_film_views (env : Env) (message : Message + CallbackQuery)
    (u : Z) (s : Session) (w : World) :
  user_data w !! u = Some s →
  ∃ evs, trace (exec (show_current_film env message u) w) = evs ++ trace w
    ∧ Forall (view_fits s) evs.
Proof.
  intros Hs.
  refine (proj2 (inv_show_current_film env
    (λ w', (∀ s', user_data w' !! u = Some s' → shape s' = shape s)
           ∧ ∃ evs, trace w' = evs ++ trace w ∧ Forall (view_fits s) evs)
    (keyboard_fits s) _ _ _ message u w _ _ _)).
  - intros w' H. exact H.
  - intros ev w' _ Hkb [Hsh (evs & Ht & Hf)]. split; [exact Hsh|].
    exists (ev :: evs). simpl. rewrite Ht. split; [reflexivity|].
    constructor; [exact Hkb|exact Hf].
  - intros u' m w' s' Hs' [Hsh Hev]. split; [|exact Hev].
    simpl. intros s0. rewrite lookup_insert. case_decide as Hu.
    + intros [= <-]. subst u'. rewrite <- (Hsh s' Hs'). reflexivity.
    + apply Hsh.
  - split; [|exists []; split; [reflexivity|constructor]].
    intros s'. rewrite Hs. intros [= <-]. reflexivity.
  - intros data w1 kb w2 Hdata [Hsh _] Hkb.
    rewrite Hs in Hdata. injection Hdata as <-.
    destruct (build_keyboard_offers _ _ _ _ _ _ Hkb) as (s1 & Hs1 & Hp & Hn & Hl).
    specialize (Hsh s1 Hs1). unfold shape in Hsh. injection Hsh as Hi _.
    unfold keyboard_fits. rewrite Hp, Hn, Hl, Hi, andb_true_r. auto.
  - right. split.
    + intros url w' [Hsh (evs & Ht & Hf)]. split; [exact Hsh|].
      exists (HttpGet url :: evs). simpl. rewrite Ht. split; [reflexivity|].
      constructor; [intros kb [=]|exact Hf].
    + intros u' k i pos w' s' Hs' [Hsh Hev]. split; [|exact Hev].
      simpl. intros s0. rewrite lookup_insert. case_decide as Hu.
      * intros [= <-]. subst u'. rewrite shape_set_ratings. apply (Hsh s' Hs').
      * apply Hsh.
Qed.

(** The handler has no guard of its own.  While the first of five records
    is shown and no state is set, [prev] moves the index to -1; while the
    last of two records is shown, [next] moves it to 2, past the end. *)
Lemma prev_at_first_and_next_at_last_move_the_index :
  (fsm_state (fsm_lookup Demo.state Demo.browsing_matrix) = None
   ∧ shape <$> user_data Demo.browsing_matrix !! Demo.user = Some (0, 5%nat)
   ∧ shape <$> user_data
       (exec (handle_navigation Demo.env Demo.press (Demo.nav "prev") Demo.state)
          Demo.browsing_matrix) !! Demo.user = Some (-1, 5%nat))
  ∧ (fsm_state (fsm_lookup Demo.state Demo.last_of_new) = None
     ∧ shape <$> user_data Demo.last_of_new !! Demo.user = Some (1, 2%nat)
     ∧ shape <$> user_data
         (exec (handle_navigation Demo.env Demo.press (Demo.nav "next") Demo.state)
            Demo.last_of_new) !! Demo.user = Some (2, 2%nat)).
Proof. vm_compute. repeat split. Qed.

(** C2, as the code has it: the guard of [prev] and [next] is the
    keyboard.  No view of a session whose index is 0 carries the [prev]
    button and no view of a session whose index is the last carries the
    [next] button; the keyboard of a session in bounds is built. *)
Theorem view_offers_no_move_off_the_ends
    (env : Env) (message : Message + CallbackQuery) (u : Z) (s : Session) (w : World) :
  user_data w !! u = Some s →
  (∃ evs, trace (exec (show_current_film env message u) w) = evs ++ trace w
     ∧ ∀ ev kb, ev ∈ evs → event_markup ev = Some kb →
         (current_index s = 0 → offers "prev" kb = false)
         ∧ (current_index s = Py.len (results s) - 1 → offers "next" kb = false))
  ∧ (in_bounds s →
     ∃ kb, build_keyboard u (Py.len (results s)) true w = (Return kb, w)
       ∧ (current_index s = 0 → offers "prev" kb = false)
       ∧ (current_index s = Py.len (results s) - 1 → offers "next" kb = false)).
Proof.
  intros Hs. split.
  - destruct (show_current_film_views env message u s w Hs) as (evs & Ht & Hf).
    exists evs. split; [exact Ht|]. intros ev kb Hev Hkb.
    rewrite Forall_forall in Hf. destruct (Hf ev Hev kb Hkb) as (Hp & Hn & _).
    rewrite Hp, Hn. split; intros ->.
    + reflexivity.
    + apply Z.ltb_irrefl.
  - intros Hb. destruct (build_keyboard_returns u true s w Hs Hb) as [kb Hkb].
    exists kb. split; [exact Hkb|].
    destruct (build_keyboard_offers _ _ _ _ _ _ Hkb) as (s' & Hs' & Hp & Hn & _).
    rewrite Hs in Hs'. injection Hs' as <-. rewrite Hp, Hn. split; intros ->.
    + reflexivity.
    + apply Z.ltb_irrefl.
Qed.

Lemma view_offers_no_move_off_the_ends_witness :
  ∃ s, user_data Demo.browsing_matrix !! Demo.user = Some s
    ∧ current_index s = 0
    ∧ in_bounds s
    ∧ ∃ kb, build_keyboard Demo.user (Py.len (results s)) true Demo.browsing_matrix
            = (Return kb, Demo.browsing_matrix)
        ∧ offers "prev" kb = false.
Proof.
  eexists. split; [vm_compute; reflexivity|]. split; [reflexivity|].
  split; [vm_compute; split; [discriminate|reflexivity]|].
  match goal with |- ∃ kb, build_keyboard _ (Py.len (results ?s)) _ _ = _ ∧ _ =>
    destruct (view_offers_no_move_off_the_ends Demo.env (inr Demo.press) Demo.user
                s Demo.browsing_matrix) as [_ H]
  end.
  - vm_compute. reflexivity.
  - destruct H as (kb & Hkb & Hp & _).
    + vm_compute. split; [discriminate|reflexivity].
    + exists kb. split; [exact Hkb|]. apply Hp. reflexivity.
Defined.

(** The handler of the list press looks at no number of records: a
    press that reaches it in a session of two records opens the list and
    makes the bot await a number. *)
Lemma list_press_opens_the_list_of_two_records :
  ∃ s, user_data Demo.browsing_new !! Demo.user = Some s
    ∧ Py.len (results s) = 2
    ∧ list_msg_id s = None
    ∧ fsm_state (fsm_lookup Demo.state Demo.browsing_new) = None
    ∧ outcome (handle_navigation Demo.env Demo.press (Demo.nav "list") Demo.state)
        Demo.browsing_new = Return tt
    ∧ fsm_state
        (fsm_lookup Demo.state
           (exec (handle_navigation Demo.env Demo.press (Demo.nav "list") Demo.state)
              Demo.browsing_new)) = Some waiting_for_number
    ∧ list_msg_id <$>
        user_data
          (exec (handle_navigation Demo.env Demo.press (Demo.nav "list") Demo.state)
             Demo.browsing_new) !! Demo.user = Some (Some 108)
    ∧ head (trace
              (exec (handle_navigation Demo.env Demo.press (Demo.nav "list") Demo.state)
                 Demo.browsing_new))
      = Some (SendMessage Demo.chat (list_text Demo.env (results s)) [[close_button]]).
Proof.
  eexists. split; [vm_compute; reflexivity|].
  repeat split; vm_compute; reflexivity.
Qed.

(** C6, as the code has it: a view carries the list control exactly when
    the session has more than three records; for a session of at most
    three records no view has it, so that no view offers [open-list]
    there.  (The keyboard of a session in bounds is built.  The handler
    of the press makes no check of its own.) *)
Theorem list_control_only_beyond_three
    (env : Env) (message : Message + CallbackQuery) (u : Z) (s : Session) (w : World) :
  user_data w !! u = Some s →
  (∃ evs, trace (exec (show_current_film env message u) w) = evs ++ trace w
     ∧ ∀ ev kb, ev ∈ evs → event_markup ev = Some kb →
         (offers "list" kb = true ↔ 3 < Py.len (results s))
         ∧ (Py.len (results s) ≤ 3 → offers "list" kb = false))
  ∧ (in_bounds s →
     ∃ kb, build_keyboard u (Py.len (results s)) true w = (Return kb, w)
       ∧ (offers "list" kb = true ↔ 3 < Py.len (results s))
       ∧ (Py.len (results s) ≤ 3 → offers "list" kb = false)).
Proof.
  assert (Hiff : ∀ b n, b = (3 <? n) → (b = true ↔ 3 < n) ∧ (n ≤ 3 → b = false)).
  { intros b n ->. split; [apply Z.ltb_lt|]. intros Hn. apply Z.ltb_ge. exact Hn. }
  intros Hs. split.
  - destruct (show_current_film_views env message u s w Hs) as (evs & Ht & Hf).
    exists evs. split; [exact Ht|]. intros ev kb Hev Hkb.
    rewrite Forall_forall in Hf. destruct (Hf ev Hev kb Hkb) as (_ & _ & Hl).
    apply Hiff, Hl.
  - intros Hb. destruct (build_keyboard_returns u true s w Hs Hb) as [kb Hkb].
    exists kb. split; [exact Hkb|].
    destruct (build_keyboard_offers _ _ _ _ _ _ Hkb) as (_ & _ & _ & _ & Hl).
    rewrite andb_true_r in Hl. apply Hiff, Hl.
Qed.

Lemma list_control_only_beyond_three_witness :
  ∃ s, user_data Demo.browsing_new !! Demo.user = Some s
    ∧ Py.len (results s) = 2
    ∧ ∃ kb, build_keyboard Demo.user (Py.len (results s)) true Demo.browsing_new
            = (Return kb, Demo.browsing_new)
        ∧ offers "list" kb = false.
Proof.
  eexists. split; [vm_compute; reflexivity|]. split; [reflexivity|].
  match goal with |- ∃ kb, build_keyboard _ (Py.len (results ?s)) _ _ = _ ∧ _ =>
    destruct (list_control_only_beyond_three Demo.env (inr Demo.press) Demo.user
                s Demo.browsing_new) as [_ H]
  end.
  - vm_compute. reflexivity.
  - destruct H as (kb & Hkb & _ & Hl).
    + vm_compute. split; [discriminate|reflexivity].
    + exists kb. split; [exact Hkb|]. apply Hl. vm_compute. discriminate.
Defined.

(** ** Exact runs of the deterministic steps *)

Lemma external_run {A} (ev : Event) (answer : nat → Py.Exn + A) (w : World) :
  external ev answer w =
  (match answer (clock w) with inr a => Return a | inl e => Raise e end,
   push_event ev (advance_clock w)).
Proof.
  unfold external, tick, emit, modify. rewrite !bind_run.
  destruct (answer (clock w)); reflexivity.
Qed.

Lemma external__run (ev : Event) (answer : nat → option Py.Exn) (w : World) :
  external_ ev answer w =
  (match answer (clock w) with None => Return tt | Some e => Raise e end,
   push_event ev (advance_clock w)).
Proof.
  unfold external_, tick, emit, modify. rewrite !bind_run.
  destruct (answer (clock w)); reflexivity.
Qed.

(** [safe_delete] returns, whatever Telegram answers. *)
Lemma safe_delete_run (env : Env) (chat_id : Z) (msg_id : option Z) (w : World) :
  safe_delete env chat_id msg_id w =
  (Return tt,
   match msg_id with
   | Some m =>
       if Py.truthy_oint msg_id then push_event (DeleteMessage chat_id m) (advance_clock w)
       else w
   | None => w
   end).
Proof.
  unfold safe_delete. destruct msg_id as [m|]; [|reflexivity].
  destruct (Py.truthy_oint (Some m)); [|reflexivity]. simpl.
  unfold try_except, bot_delete_message. rewrite external__run.
  destruct (telegram_call env (clock w)); reflexivity.
Qed.

Lemma user_data_contains_run (u : Z) (s : Session) (w : World) :
  user_data w !! u = Some s →
  user_data_contains (Some u) w = (Return true, w).
Proof.
  intros Hs. unfold user_data_contains, get_world. rewrite bind_run.
  rewrite bool_decide_eq_true_2 by eauto. reflexivity.
Qed.

(** ** Rendering changes nothing but message ids and cached ratings *)

Lemma frame_show_refl (w : World) : frame_show w w.
Proof. split; [reflexivity|]. split; reflexivity. Qed.

Lemma frame_show_clock (w0 w : World) :
  frame_show w0 w → frame_show w0 (advance_clock w).
Proof. intros H. exact H. Qed.

Lemma frame_show_event (w0 : World) (ev : Event) (w : World) :
  frame_show w0 w → frame_show w0 (push_event ev w).
Proof.
  intros (Hst & Hud & Htr). repeat split; [exact Hst|exact Hud|].
  simpl. apply suffix_cons_r, Htr.
Qed.

Lemma frame_show_core (w0 : World) (u : Z) (s s' : Session) (w : World) :
  user_data w !! u = Some s → core s' = core s →
  frame_show w0 w → frame_show w0 (set_user_data (insert u s') w).
Proof.
  intros Hs Hc (Hst & Hud & Htr). repeat split; [exact Hst| |exact Htr].
  simpl. rewrite fmap_insert, Hc, <- Hud. apply insert_id.
  rewrite lookup_fmap, Hs. reflexivity.
Qed.

Lemma core_set_ratings (k i : string) (pos : nat) (s : Session) :
  core (set_results (alter (set_ratings k i) pos (results s)) s) = core s.
Proof. unfold core. simpl. rewrite length_alter. reflexivity. Qed.

Lemma frame_show_show_current_film (env : Env) (w0 : World)
    (message : Message + CallbackQuery) (u : Z) :
  inv (frame_show w0) (show_current_film env message u).
Proof.
  intros w Hw. apply (inv_show_current_film env (frame_show w0) (λ _, True)); auto.
  - intros ev w' _ _. apply frame_show_event.
  - intros u' m w' s Hs. apply (frame_show_core w0 u' s); [exact Hs|reflexivity].
  - right. split.
    + intros url w'. apply frame_show_event.
    + intros u' k i pos w' s Hs. apply (frame_show_core w0 u' s); [exact Hs|].
      apply core_set_ratings.
Qed.

Lemma frame_show_callback_answer (env : Env) (w0 : World)
    (text : option string) (show_alert : bool) :
  inv (frame_show w0) (callback_answer env text show_alert).
Proof.
  unfold callback_answer. apply inv_external_.
  - apply frame_show_clock.
  - intros w. apply frame_show_event.
Qed.

(** What a frame keeps of a session. *)
Lemma frame_show_lookup (w0 w : World) (u : Z) (s0 : Session) :
  frame_show w0 w → user_data w0 !! u = Some s0 →
  ∃ s, user_data w !! u = Some s ∧ core s = core s0.
Proof.
  intros (_ & Hud & _) Hs0.
  apply (f_equal (λ m, m !! u)) in Hud. rewrite !lookup_fmap, Hs0 in Hud.
  destruct (user_data w !! u) as [s|]; [|discriminate].
  exists s. split; [reflexivity|]. simpl in Hud. congruence.
Qed.

(** The end of [confirm_yes]: the record is rendered, the press answered. *)
Lemma frame_show_render_and_answer (env : Env) (cb : CallbackQuery) (u : Z) (w : World) :
  frame_show w
    (exec (show_current_film env (inr cb) u;; callback_answer env None false) w).
Proof.
  apply inv_bind; [apply frame_show_show_current_film| |apply frame_show_refl].
  intros _. apply frame_show_callback_answer.
Qed.

Lemma confirm_yes_run (env : Env) (cb : CallbackQuery) (cbd : ConfirmCallback)
    (state : Z * Z) (chat : Z) (s : Session) (w : World) :
  cb_message_chat cb = Some chat →
  user_data w !! cb_from_user cb = Some s →
  ∃ w1,
    confirm_yes env cb cbd state w
    = (show_current_film env (inr cb) (cb_from_user cb);;
       callback_answer env None false) w1
    ∧ user_data w1
      = <[cb_from_user cb :=
            set_current_index (confirm_index cbd)
              (if Py.truthy_oint (list_msg_id s) then set_list_msg_id None s else s)]>
          (user_data w)
    ∧ storage w1 = <[state := fsm_empty]> (storage w)
    ∧ trace w1
      = deleted chat (fsm_data (fsm_lookup state w) !! "confirm_msg_id")
        ++ deleted chat (list_msg_id s) ++ trace w.
Proof.
  intros Hc Hs. unfold confirm_yes. rewrite Hc.
  rewrite bind_run. unfold state_get_data at 1, get_world at 1. rewrite bind_run.
  cbn [mret M_ret].
  rewrite bind_run, (user_data_contains_run _ s) by exact Hs. cbn [negb].
  rewrite bind_run, user_data_get_run, Hs.
  rewrite bind_run.
  set (confirm_msg_id := fsm_data (fsm_lookup state w) !! "confirm_msg_id").
  assert (Hdel : ∀ m w0, trace
            match m with
            | Some x => if Py.truthy_oint m
                        then push_event (DeleteMessage chat x) (advance_clock w0) else w0
            | None => w0
            end = deleted chat m ++ trace w0).
  { intros [x|] w0; [|reflexivity]. unfold deleted.
    destruct (Py.truthy_oint (Some x)); reflexivity. }
  assert (Hud : ∀ m w0, user_data
            match m with
            | Some x => if Py.truthy_oint m
                        then push_event (DeleteMessage chat x) (advance_clock w0) else w0
            | None => w0
            end = user_data w0).
  { intros [x|] w0; [|reflexivity]. destruct (Py.truthy_oint (Some x)); reflexivity. }
  assert (Hst : ∀ m w0, storage
            match m with
            | Some x => if Py.truthy_oint m
                        then push_event (DeleteMessage chat x) (advance_clock w0) else w0
            | None => w0
            end = storage w0).
  { intros [x|] w0; [|reflexivity]. destruct (Py.truthy_oint (Some x)); reflexivity. }
  destruct (Py.truthy_oint (list_msg_id s)) eqn:Hl.
  - rewrite bind_run, safe_delete_run, user_data_update_run, Hud, Hs.
    rewrite bind_run, safe_delete_run. rewrite bind_run, user_data_update_run.
    rewrite Hud. cbn [user_data set_user_data]. rewrite lookup_insert_eq.
    rewrite bind_run. unfold state_clear at 1, modify at 1.
    eexists. split; [reflexivity|].
    cbn [user_data storage trace set_user_data set_storage].
    repeat (rewrite ?Hud, ?Hst, ?Hdel;
            cbn [user_data storage trace set_user_data set_storage]).
    rewrite insert_insert_eq. auto.
  - cbn [mret M_ret].
    rewrite bind_run, safe_delete_run. rewrite bind_run, user_data_update_run.
    rewrite Hud, Hs.
    rewrite bind_run. unfold state_clear at 1, modify at 1.
    eexists. split; [reflexivity|].
    cbn [user_data storage trace set_user_data set_storage].
    repeat (rewrite ?Hud, ?Hst, ?Hdel;
            cbn [user_data storage trace set_user_data set_storage]).
    replace (deleted chat (list_msg_id s)) with (@nil Event); [auto|].
    unfold deleted. destruct (list_msg_id s); [rewrite Hl|]; reflexivity.
Qed.

(** Without a session of the user [confirm_yes] assigns nothing. *)
Lemma confirm_yes_without_session
    (env : Env) (cb : CallbackQuery) (cbd : ConfirmCallback) (state : Z * Z)
    (w : World) :
  user_data w !! cb_from_user cb = None →
  user_data (exec (confirm_yes env cb cbd state) w) = user_data w.
Proof.
  intros Hs. unfold confirm_yes, exec.
  destruct (cb_message_chat cb) as [chat|]; [|reflexivity].
  rewrite bind_run. unfold state_get_data at 1, get_world at 1. rewrite bind_run.
  cbn [mret M_ret]. rewrite bind_run.
  unfold user_data_contains, get_world. rewrite bind_run. cbn [mret M_ret].
  rewrite bool_decide_eq_false_2 by (rewrite Hs; intros [? ?]; discriminate).
  cbn [negb]. rewrite bind_run. unfold callback_answer. rewrite external__run.
  destruct (telegram_call env (clock w)); reflexivity.
Qed.

(** C3: [confirm_yes] assigns the index the button carries, whatever it
    is.  All it asks is a session of the user: the index of the button
    becomes the index of the session, the list of records is not
    consulted, and an index that is no position of the list leaves the
    session out of bounds. *)
Theorem confirm_yes_takes_the_index_unchecked
    (env : Env) (cb : CallbackQuery) (cbd : ConfirmCallback) (state : Z * Z)
    (chat : Z) (s : Session) (w : World) :
  cb_message_chat cb = Some chat →
  user_data w !! cb_from_user cb = Some s →
  ∃ s', user_data (exec (confirm_yes env cb cbd state) w) !! cb_from_user cb = Some s'
    ∧ current_index s' = confirm_index cbd
    ∧ length (results s') = length (results s)
    ∧ (¬ (0 ≤ confirm_index cbd < Py.len (results s)) → ¬ in_bounds s').
Proof.
  intros Hc Hs.
  destruct (confirm_yes_run env cb cbd state chat s w Hc Hs)
    as (w1 & Hrun & Hud & _ & _).
  unfold exec. rewrite Hrun.
  pose proof (frame_show_render_and_answer env cb (cb_from_user cb) w1) as Hf.
  eapply frame_show_lookup in Hf as (s' & Hs' & Hcore);
    [|rewrite Hud; apply lookup_insert_eq].
  exists s'. split; [exact Hs'|]. unfold core in Hcore. simpl in Hcore.
  injection Hcore as Hi Hl _ _.
  assert (Hlen : length (results s') = length (results s)).
  { rewrite Hl. destruct (Py.truthy_oint (list_msg_id s)); reflexivity. }
  split; [exact Hi|]. split; [exact Hlen|].
  unfold in_bounds, Py.len. rewrite Hi, Hlen. auto.
Qed.

(** The button that confirms number 4 of the old search, pressed under
    the new search of two records. *)
Lemma confirm_yes_takes_the_index_unchecked_witness :
  (∃ ev, hd_error (trace Demo.old_confirming) = Some ev
      ∧ event_markup ev = Some (confirm_keyboard 3))
  ∧ ∃ s, user_data Demo.superseded !! Demo.user = Some s
      ∧ shape s = (0, 2%nat)
      ∧ ∃ s', user_data
                (exec (confirm_yes Demo.env Demo.press (Demo.yes 3) Demo.state)
                   Demo.superseded) !! Demo.user = Some s'
          ∧ current_index s' = 3
          ∧ length (results s') = 2%nat
          ∧ ¬ in_bounds s'.
Proof.
  split; [eexists; split; vm_compute; reflexivity|].
  eexists. split; [vm_compute; reflexivity|].
  match goal with |- shape ?s = _ ∧ _ => set (s0 := s) end.
  split; [reflexivity|].
  destruct (confirm_yes_takes_the_index_unchecked Demo.env Demo.press
              (Demo.yes 3) Demo.state Demo.chat s0 Demo.superseded)
    as (s' & Hs' & Hi & Hl & Hout).
  - reflexivity.
  - vm_compute. reflexivity.
  - exists s'. split; [exact Hs'|]. split; [exact Hi|]. split; [exact Hl|].
    apply Hout. vm_compute. intros [_ H]. discriminate H.
Defined.

(** ** Choosing by number *)

Lemma int_nonempty (text : string) (n : Z) :
  Py.int text = Some n → Py.truthy_str text = true.
Proof. destruct text; [discriminate|reflexivity]. Qed.

Lemma getitem_in_range {A} (l : list A) (i : Z) :
  0 ≤ i < Py.len l → ∃ x, l !! Z.to_nat i = Some x ∧ Py.getitem l i = Some x.
Proof.
  intros Hi. destruct (lookup_lt_is_Some_2 l (Z.to_nat i)) as [x Hx].
  { unfold Py.len in Hi. lia. }
  exists x. split; [exact Hx|].
  unfold Py.getitem. rewrite (norm_index_in_range _ _ Hi). exact Hx.
Qed.

(** A number of the list whose record has a poster: the question is sent
    and the state changes. *)
Lemma handle_number_choice_in_range
    (env : Env) (message : Message) (state : Z * Z) (text : string) (n u sent : Z)
    (s : Session) (selected : Film) (p : string) (w : World) :
  m_text message = Some text → Py.int text = Some n →
  fsm_data (fsm_lookup state w) !! "user_id" = Some u →
  user_data w !! u = Some s →
  1 ≤ n ≤ Py.len (results s) →
  Py.getitem (results s) (n - 1) = Some selected →
  poster_url selected = Some p →
  telegram_send env (clock w) = inr sent →
  handle_number_choice env message state w
  = (Return tt,
     set_storage
       (insert state
          {| fsm_state := Some confirming_choice;
             fsm_data := {[ "confirm_msg_id" := sent; "chosen_index" := n - 1 ]}
                         ∪ fsm_data (fsm_lookup state w) |})
       (push_event
          (SendPhoto (m_chat message) (Some p)
             (confirm_caption selected) (confirm_keyboard (n - 1)))
          (advance_clock w))).
Proof.
  intros Htext Hint Hu Hs Hn Hget Hp Hsent.
  destruct (getitem_in_range (results s) (n - 1)) as (selected' & Hsel & Hget'); [lia|].
  assert (selected' = selected) as -> by congruence.
  unfold handle_number_choice. rewrite Htext, (int_nonempty _ _ Hint). cbn [negb].
  rewrite bind_run. unfold state_get_data at 1, get_world at 1. rewrite bind_run.
  cbn [mret M_ret]. rewrite Hu.
  rewrite bind_run, (user_data_contains_run _ s) by exact Hs. cbn [negb].
  rewrite bind_run, user_data_get_run, Hs.
  unfold try_except. rewrite bind_run, Hint. cbn [mret M_ret].
  destruct (Z.leb_spec 0 (n - 1)); [|lia].
  destruct (Z.ltb_spec (n - 1) (Py.len (results s))); [|lia]. cbn [andb].
  rewrite bind_run, getitem_at_run, norm_index_in_range, Hsel by (unfold Py.len in *; lia).
  rewrite bind_run. unfold photo_arg. rewrite Hp. cbn [mret M_ret].
  rewrite bind_run. unfold bot_send_photo. rewrite external_run, Hsent.
  rewrite bind_run. unfold state_set_state at 1. rewrite bind_run.
  unfold get_world at 1, modify at 1.
  unfold state_update_data, get_world, modify. rewrite bind_run.
  unfold fsm_lookup. cbn [storage set_storage push_event advance_clock].
  rewrite lookup_insert_eq. cbn [default fsm_state fsm_data].
  unfold set_storage, id.
  cbn [storage user_data trace clock push_event advance_clock fsm_state fsm_data].
  rewrite insert_insert_eq. reflexivity.
Qed.



(** A number that is no number of the list: the prompt is sent, and if
    the sending fails with a ValueError, the handler's [except] sends the
    other prompt; nothing else happens. *)
Lemma handle_number_choice_out_of_range
    (env : Env) (message : Message) (state : Z * Z) (text : string) (n u : Z)
    (s : Session) (w : World) :
  m_text message = Some text → Py.int text = Some n →
  fsm_data (fsm_lookup state w) !! "user_id" = Some u →
  user_data w !! u = Some s →
  ¬ (1 ≤ n ≤ Py.len (results s)) →
  let w' := exec (handle_number_choice env message state) w in
  user_data w' = user_data w
  ∧ storage w' = storage w
  ∧ ∃ later,
      trace w' = later ++ SendMessage (m_chat message) (reprompt (n - 1)) [] :: trace w
      ∧ (later = []
         ∨ later = [SendMessage (m_chat message) "Введите только число" []]).
Proof.
  intros Htext Hint Hu Hs Hn w'. subst w'. unfold exec.
  destruct (handle_number_choice env message state w) as [o w'] eqn:Hrun.
  cbn [snd]. revert Hrun.
  unfold handle_number_choice. rewrite Htext, (int_nonempty _ _ Hint). cbn [negb].
  rewrite bind_run. unfold state_get_data at 1, get_world at 1. rewrite bind_run.
  cbn [mret M_ret]. rewrite Hu.
  rewrite bind_run, (user_data_contains_run _ s) by exact Hs. cbn [negb].
  rewrite bind_run, user_data_get_run, Hs.
  unfold try_except. rewrite bind_run, Hint. cbn [mret M_ret].
  assert (Hrange : (0 <=? n - 1) && (n - 1 <? Py.len (results s)) = false).
  { apply andb_false_iff.
    destruct (Z.leb_spec 0 (n - 1)); [right|left; reflexivity].
    apply Z.ltb_ge. lia. }
  rewrite Hrange. rewrite bind_run. unfold message_answer. rewrite external_run.
  destruct (telegram_send env (clock w)) as [e|sent]; cbn [mret M_ret].
  - destruct e; cbn [value_error];
      try (intros [= <- <-]; split; [reflexivity|]; split; [reflexivity|];
           exists []; split; [reflexivity|left; reflexivity]).
    rewrite bind_run, external_run.
    destruct (telegram_send env _);
      (intros [= <- <-]; split; [reflexivity|]; split; [reflexivity|];
       eexists; split; [|right; reflexivity]; reflexivity).
  - intros [= <- <-]. split; [reflexivity|]. split; [reflexivity|].
    exists []. split; [reflexivity|left; reflexivity].
Qed.

(** C5: while a number is awaited, a number outside [1, len(records)]
    changes neither the sessions nor the FSM storage: the state stays
    [waiting_for_number] and the index keeps its value. *)
Theorem out_of_range_number_changes_nothing
    (env : Env) (message : Message) (state : Z * Z) (text : string) (n u : Z)
    (s : Session) (w : World) :
  m_text message = Some text → Py.int text = Some n →
  fsm_state (fsm_lookup state w) = Some waiting_for_number →
  fsm_data (fsm_lookup state w) !! "user_id" = Some u →
  user_data w !! u = Some s →
  ¬ (1 ≤ n ≤ Py.len (results s)) →
  let w' := exec (handle_number_choice env message state) w in
  user_data w' = user_data w
  ∧ storage w' = storage w
  ∧ fsm_state (fsm_lookup state w') = Some waiting_for_number
  ∧ current_index <$> user_data w' !! u = Some (current_index s).
Proof.
  intros Htext Hint Hstate Hu Hs Hn w'.
  destruct (handle_number_choice_out_of_range env message state text n u s w
              Htext Hint Hu Hs Hn) as (Hud & Hst & _).
  fold w' in Hud, Hst. split; [exact Hud|]. split; [exact Hst|]. split.
  - unfold fsm_lookup. rewrite Hst. exact Hstate.
  - rewrite Hud, Hs. reflexivity.
Qed.

Lemma out_of_range_number_changes_nothing_witness :
  ∃ s, user_data Demo.awaiting_matrix !! Demo.user = Some s
    ∧ Py.len (results s) = 5
    ∧ user_data (exec (handle_number_choice Demo.env (Demo.says "6") Demo.state)
                   Demo.awaiting_matrix) = user_data Demo.awaiting_matrix
    ∧ fsm_state (fsm_lookup Demo.state
                   (exec (handle_number_choice Demo.env (Demo.says "6") Demo.state)
                      Demo.awaiting_matrix)) = Some waiting_for_number.
Proof.
  eexists. split; [vm_compute; reflexivity|].
  match goal with |- Py.len (results ?s) = _ ∧ _ => set (s0 := s) end.
  split; [reflexivity|].
  destruct (out_of_range_number_changes_nothing Demo.env (Demo.says "6") Demo.state
              "6" 6 Demo.user s0 Demo.awaiting_matrix)
    as (Hud & _ & Hst & _).
  - reflexivity.
  - reflexivity.
  - vm_compute. reflexivity.
  - vm_compute. reflexivity.
  - vm_compute. reflexivity.
  - vm_compute. intros [_ H]. apply H. reflexivity.
  - split; [exact Hud|exact Hst].
Defined.

(** C10: the prompt after a number outside the list names as upper end
    the number typed minus one, not the number of records. *)
Theorem out_of_range_prompt_counts_from_the_input
    (env : Env) (message : Message) (state : Z * Z) (text : string) (n u : Z)
    (s : Session) (w : World) :
  m_text message = Some text → Py.int text = Some n →
  fsm_state (fsm_lookup state w) = Some waiting_for_number →
  fsm_data (fsm_lookup state w) !! "user_id" = Some u →
  user_data w !! u = Some s →
  ¬ (1 ≤ n ≤ Py.len (results s)) →
  ∃ later,
    trace (exec (handle_number_choice env message state) w)
    = later ++ SendMessage (m_chat message)
                 ("Введите номер от 1 до " +:+ Py.str (n - 1)) [] :: trace w
    ∧ (later = []
       ∨ later = [SendMessage (m_chat message) "Введите только число" []]).
Proof.
  intros Htext Hint _ Hu Hs Hn.
  destruct (handle_number_choice_out_of_range env message state text n u s w
              Htext Hint Hu Hs Hn) as (_ & _ & Hlater).
  exact Hlater.
Qed.

(** 99 typed against the five records of [matrix]. *)
Lemma out_of_range_prompt_counts_from_the_input_witness :
  ∃ s, user_data Demo.awaiting_matrix !! Demo.user = Some s
    ∧ Py.len (results s) = 5
    ∧ ∃ later,
        trace (exec (handle_number_choice Demo.env (Demo.says "99") Demo.state)
                 Demo.awaiting_matrix)
        = later ++ SendMessage Demo.chat "Введите номер от 1 до 98" []
                   :: trace Demo.awaiting_matrix.
Proof.
  eexists. split; [vm_compute; reflexivity|].
  match goal with |- Py.len (results ?s) = _ ∧ _ => set (s0 := s) end.
  split; [reflexivity|].
  destruct (out_of_range_prompt_counts_from_the_input Demo.env (Demo.says "99")
              Demo.state "99" 99 Demo.user s0 Demo.awaiting_matrix)
    as (later & Ht & _).
  - reflexivity.
  - reflexivity.
  - vm_compute. reflexivity.
  - vm_compute. reflexivity.
  - vm_compute. reflexivity.
  - vm_compute. intros [_ H]. apply H. reflexivity.
  - exists later. exact Ht.
Defined.

(** ** Extractor *)

Lemma parse_cards_omap (env : Env) (cards : list Html.Card) :
  parse_cards env cards = omap (parse_card env) cards.
Proof.
  induction cards as [|card rest IH]; [reflexivity|].
  cbn [parse_cards omap list_omap]. rewrite IH.
  destruct (parse_card env card); reflexivity.
Qed.

Lemma parse_card_linked (env : Env) (card : Html.Card) (film : Film) :
  parse_card env card = Some film → ∃ a, Html.link_elem card = Some a.
Proof.
  unfold parse_card. destruct (Html.link_elem card) as [a|]; [eauto|discriminate].
Qed.

Lemma session_get_run (env : Env) (url : string) (w : World) :
  session_get env url w =
  (match http_get env (clock w) url with inr resp => Return resp | inl e => Raise e end,
   push_event (HttpGet url) (advance_clock w)).
Proof.
  unfold session_get, tick, emit, modify. rewrite !bind_run.
  destruct (http_get env (clock w) url); reflexivity.
Qed.

(** An entry whose link element has no [href] is kept; its record has no
    watch link. *)
Lemma entry_without_href_is_kept (env : Env) (card : Html.Card) (a : Html.Anchor) :
  Html.link_elem card = Some a → Html.href a = None →
  ∃ film, parse_card env card = Some film ∧ watch_link film = None.
Proof.
  intros Ha Hhref. unfold parse_card. rewrite Ha, Hhref.
  eexists. split; reflexivity.
Qed.

(** C7: when the site answers, [parse_zona_results] returns, and every
    record it returns is the parse of an entry of the page that has its
    link element; on a results page the records are, in order, the parses
    of the entries, those without link element left out. *)
Theorem extracted_records_come_from_linked_entries
    (env : Env) (query : string) (status : Z) (doc : Html.Document) (w : World) :
  http_get env (clock w) (ZONA_SEARCH_URL env +:+ quote env query) = inr (status, doc) →
  ∃ films,
    outcome (parse_zona_results env query) w = Return films
    ∧ (∀ film, film ∈ films →
         ∃ card a, card ∈ Html.cards doc
           ∧ Html.link_elem card = Some a
           ∧ parse_card env card = Some film)
    ∧ (status = 200 → Html.results_title doc = true →
         films = omap (parse_card env) (Html.cards doc)
         ∧ ∀ card, card ∈ Html.cards doc → Html.link_elem card = None →
             parse_card env card = None).
Proof.
  intros Hget. unfold outcome, parse_zona_results.
  rewrite bind_run, session_get_run, Hget.
  assert (Hnil : ∀ film : Film, film ∈ @nil Film → 
            ∃ card a, card ∈ Html.cards doc ∧ Html.link_elem card = Some a
              ∧ parse_card env card = Some film).
  { intros film Hin. inversion Hin. }
  destruct (Z.eqb_spec status 200) as [->|Hne]; cbn [negb fst].
  - destruct (Html.results_title doc) eqn:Hmark; cbn [negb fst].
    + exists (parse_cards env (Html.cards doc)). split; [reflexivity|]. split.
      * intros film. rewrite parse_cards_omap, list_elem_of_omap.
        intros (card & Hin & Hcard).
        destruct (parse_card_linked env card film Hcard) as [a Ha].
        exists card, a. auto.
      * intros _ _. split; [apply parse_cards_omap|].
        intros card _ Hnone. unfold parse_card. rewrite Hnone. reflexivity.
    + exists []. split; [reflexivity|]. split; [exact Hnil|]. intros _ [=].
  - exists []. split; [reflexivity|]. split; [exact Hnil|]. intros Heq. contradiction.
Qed.

(** Six entries for [matrix], the third without link element: five
    records. *)
Lemma extracted_records_come_from_linked_entries_witness :
  ∃ films,
    outcome (parse_zona_results Demo.env "matrix") Demo.start = Return films
    ∧ films = omap (parse_card Demo.env) (Html.cards Demo.matrix_page)
    ∧ length (Html.cards Demo.matrix_page) = 6%nat
    ∧ length films = 5%nat.
Proof.
  destruct (extracted_records_come_from_linked_entries Demo.env "matrix" 200
              Demo.matrix_page Demo.start eq_refl) as (films & Hout & _ & Hall).
  exists films. split; [exact Hout|].
  destruct (Hall eq_refl eq_refl) as [Heq _].
  split; [exact Heq|]. split; [reflexivity|]. rewrite Heq. reflexivity.
Defined.

Lemma startswith_slashes (u : string) :
  Py.startswith u "//" = true →
  Py.truthy_str u = true ∧ String.eqb u no_cover = false.
Proof.
  unfold Py.startswith. destruct u as [|c1 [|c2 r]]; cbn [String.prefix];
    try discriminate.
  - destruct (ascii_dec "/" c1); discriminate.
  - destruct (ascii_dec "/" c1) as [<-|]; [|discriminate].
    destruct (ascii_dec "/" c2) as [<-|]; [|discriminate].
    intros _. split; reflexivity.
Qed.

(** The placeholder is looked for in the inline style only: named by the
    image metadata, it becomes the poster of the record. *)
Lemma placeholder_in_image_metadata_is_kept :
  ∃ film, parse_card Demo.env Demo.placeholder_in_meta = Some film
    ∧ Html.meta_img Demo.placeholder_in_meta = Some (Some no_cover)
    ∧ poster_url film = Some no_cover
    ∧ poster_url film ≠ None.
Proof.
  eexists. split; [vm_compute; reflexivity|]. split; [reflexivity|].
  split; [reflexivity|]. discriminate.
Qed.

(** C9, as the code has it: a protocol-relative poster URL, from the
    image metadata or, when that gives nothing (no element, no [content]
    attribute or an empty one), from the background image of the inline
    style, gets [https:] in front; a background image that is the
    no-cover placeholder is not taken, and the poster stays what the
    image metadata gave: nothing for an entry without the element or
    without its attribute, the empty string for an empty attribute.  (A
    placeholder named by the image metadata is not looked for.) *)
Theorem poster_normalization
    (env : Env) (card : Html.Card) (a : Html.Anchor) (film : Film) :
  Html.link_elem card = Some a →
  parse_card env card = Some film →
  (∀ u, Html.meta_img card = Some (Some u) → Py.startswith u "//" = true →
     poster_url film = Some ("https:" +:+ u))
  ∧ (∀ style g,
       Py.truthy_ostr (match Html.meta_img card with Some c => c | None => None end)
       = false →
       Html.item_preview a = Some (Some style) →
       Re.search_group1 style = Some g →
       Py.startswith (Py.strip_chars quote_chars g) "//" = true →
       poster_url film = Some ("https:" +:+ Py.strip_chars quote_chars g))
  ∧ (∀ style g,
       Py.truthy_ostr (match Html.meta_img card with Some c => c | None => None end)
       = false →
       Html.item_preview a = Some (Some style) →
       Re.search_group1 style = Some g →
       Py.strip_chars quote_chars g = no_cover →
       poster_url film = match Html.meta_img card with Some c => c | None => None end
       ∧ (Html.meta_img card = None ∨ Html.meta_img card = Some None →
          poster_url film = None)
       ∧ (Html.meta_img card = Some (Some EmptyString) →
          poster_url film = Some EmptyString)).
Proof.
  intros Ha. unfold parse_card. rewrite Ha. intros [= <-]. cbn [poster_url].
  split; [|split].
  - intros u Hmeta Hu. rewrite Hmeta.
    destruct (startswith_slashes u Hu) as [Ht _].
    cbn [Py.truthy_ostr]. rewrite Ht. cbn iota. rewrite Ht, Hu. reflexivity.
  - intros style g Hmeta Hprev Hg Hu. rewrite Hmeta.
    destruct (startswith_slashes _ Hu) as [Ht Hne].
    unfold preview_poster. rewrite Hprev, Hg, Ht, Hne. cbn [andb negb].
    cbn iota. rewrite Ht, Hu. reflexivity.
  - intros style g Hmeta Hprev Hg Hu.
    unfold preview_poster. rewrite Hprev, Hg, Hu.
    destruct (Html.meta_img card) as [[[|c u]|]|]; try discriminate Hmeta;
      (split; [reflexivity|]); split; intros H; try reflexivity;
      try (destruct H as [H|H]; discriminate H); discriminate H.
Qed.

(** The entries of the demo catalog: the protocol-relative background
    image of entry [A], and the placeholder of entry [G]. *)
Lemma poster_normalization_witness :
  (∃ film, parse_card Demo.env (Demo.card "A" "/a") = Some film
     ∧ poster_url film = Some "https://img.example.com/x.jpg")
  ∧ (∃ film, parse_card Demo.env Demo.placeholder_in_style = Some film
       ∧ poster_url film = None).
Proof.
  split.
  - eexists. split; [vm_compute; reflexivity|].
    match goal with |- poster_url ?f = _ =>
      destruct (poster_normalization Demo.env (Demo.card "A" "/a")
                  (Demo.anchor "A" (Some "/a")) f eq_refl) as (_ & H & _)
    end.
    + vm_compute. reflexivity.
    + refine (H "background-image: url('//img.example.com/x.jpg')"
                "'//img.example.com/x.jpg'" eq_refl eq_refl _ _);
        vm_compute; reflexivity.
  - eexists. split; [vm_compute; reflexivity|].
    match goal with |- poster_url ?f = _ =>
      destruct (poster_normalization Demo.env Demo.placeholder_in_style
                  {| Html.href := Some "/g";
                     Html.item_title := Some "G";
                     Html.item_year := None;
                     Html.item_rating := None;
                     Html.item_preview :=
                       Some (Some "background-image:url(/img/nocover.png)") |}
                  f eq_refl) as (_ & _ & H)
    end.
    + vm_compute. reflexivity.
    + refine (proj1 (proj2 (H "background-image:url(/img/nocover.png)"
                               "/img/nocover.png" eq_refl eq_refl _ _))
                (or_introl eq_refl)); vm_compute; reflexivity.
Defined.

(** ** The ratings of a record are fetched once *)

Lemma frame_render_refl (w : World) : frame_render w w.
Proof. split; [reflexivity|]. split; reflexivity. Qed.

Lemma frame_render_clock (w0 w : World) :
  frame_render w0 w → frame_render w0 (advance_clock w).
Proof. intros H. exact H. Qed.

Lemma frame_render_event (w0 : World) (ev : Event) (w : World) :
  is_fetch ev = false → frame_render w0 w → frame_render w0 (push_event ev w).
Proof.
  intros Hev (Hst & Hud & Hf). split; [exact Hst|]. split; [exact Hud|].
  unfold fetches in *. cbn [trace push_event List.filter]. rewrite Hev. exact Hf.
Qed.

Lemma frame_render_msg_id (w0 : World) (u : Z) (m : option Z) (w : World) (s : Session) :
  user_data w !! u = Some s → frame_render w0 w →
  frame_render w0 (set_user_data (insert u (set_msg_id m s)) w).
Proof.
  intros Hs (Hst & Hud & Hf). split; [exact Hst|]. split; [|exact Hf].
  cbn [user_data set_user_data]. rewrite fmap_insert, <- Hud.
  apply insert_id. rewrite lookup_fmap, Hs. reflexivity.
Qed.

(** What a rendering keeps of a session: all but the id of its message. *)
Lemma frame_render_lookup (w0 w : World) (u : Z) (s0 : Session) :
  frame_render w0 w → user_data w0 !! u = Some s0 →
  ∃ s, user_data w !! u = Some s ∧ set_msg_id None s = set_msg_id None s0.
Proof.
  intros (_ & Hud & _) Hs0.
  apply (f_equal (λ m, m !! u)) in Hud. rewrite !lookup_fmap, Hs0 in Hud.
  destruct (user_data w !! u) as [s|]; [|discriminate].
  exists s. split; [reflexivity|]. cbn [fmap option_fmap option_map] in Hud. congruence.
Qed.

(** A record with its ratings is shown without a request to the site. *)
Lemma show_current_film_cached (env : Env) (message : Message + CallbackQuery)
    (u : Z) (s : Session) (film : Film) (w : World) :
  user_data w !! u = Some s → current_film s = Some film → is_Some (kp film) →
  frame_render w (exec (show_current_film env message u) w).
Proof.
  intros Hs Hfilm Hkp.
  apply (inv_show_current_film env (frame_render w) (λ _, True)).
  - apply frame_render_clock.
  - intros ev w' Hev _. apply frame_render_event, Hev.
  - intros u' m w' s'. apply frame_render_msg_id.
  - apply frame_render_refl.
  - auto.
  - left. exists s, film. auto.
Qed.

(** [get_film_ratings] returns a pair, whatever the site answers. *)
Lemma get_film_ratings_returns (env : Env) (watch_link : option string) (w : World) :
  ∃ k i w0, get_film_ratings env watch_link w = (Return (k, i), w0)
    ∧ user_data w0 = user_data w ∧ storage w0 = storage w.
Proof.
  unfold get_film_ratings. destruct watch_link as [link|]; [|eauto 7].
  destruct (Py.truthy_str link); cbn [negb]; [|eauto 7].
  rewrite bind_run. unfold try_except. rewrite bind_run, session_get_run.
  destruct (http_get env (clock w) link) as [e|[status html]]; cbn [any_exception mret M_ret].
  - eauto 7.
  - destruct (status =? 200); [|eauto 7].
    destruct (Html.rating_dd html); eauto 7.
Qed.

Lemma inv_apply {A} (I : World → Prop) (m : M A) (w : World) :
  inv I m → I w → I (snd (m w)).
Proof. intros Hm Hw. exact (Hm w Hw). Qed.

Lemma frame_render_safe_delete (env : Env) (w0 : World) (chat_id : Z) (msg_id : option Z) :
  inv (frame_render w0) (safe_delete env chat_id msg_id).
Proof.
  apply (inv_safe_delete env (frame_render w0) (λ _, True)).
  - apply frame_render_clock.
  - intros ev w' Hev _. apply frame_render_event, Hev.
Qed.

(** The first showing of a record: its ratings are asked for and stored
    on the record; what follows is a rendering. *)
Lemma show_current_film_uncached (env : Env) (message : Message + CallbackQuery)
    (u : Z) (s : Session) (pos : nat) (film : Film) (w : World) :
  user_data w !! u = Some s →
  Py.norm_index (length (results s)) (current_index s) = Some pos →
  results s !! pos = Some film →
  kp film = None →
  ∃ k i w0,
    get_film_ratings env (watch_link film) w = (Return (k, i), w0)
    ∧ frame_render
        (set_user_data
           (insert u (set_results (alter (set_ratings k i) pos (results s)) s)) w0)
        (exec (show_current_film env message u) w).
Proof.
  intros Hs Hpos Hfilm Hkp.
  destruct (get_film_ratings_returns env (watch_link film) w)
    as (k & i & w0 & Hget & Hud0 & _).
  exists k, i, w0. split; [exact Hget|].
  unfold show_current_film, exec.
  rewrite bind_run, user_data_get_run, Hs.
  rewrite bind_run, getitem_at_run, Hpos, Hfilm.
  rewrite Hkp. rewrite bind_run. rewrite (bind_run (get_film_ratings _ _)), Hget.
  rewrite bind_run, user_data_update_run, Hud0, Hs. cbn [mret M_ret].
  set (w1 := set_user_data _ w0).
  apply (inv_apply (frame_render w1)); [|apply frame_render_refl].
  repeat (apply frame_render_safe_delete || inv_step || unfold build_keyboard);
    try apply frame_render_clock;
    try (intros; apply frame_render_event; [reflexivity|assumption]);
    try (intros; apply frame_render_msg_id; assumption).
Qed.



(** ** What the handlers touch

    An invariant kept by the clock, by every call to the outside, by the
    writes to the FSM records [keyed] and by the assignments to the
    sessions of the users [acting] is kept by a handler that writes and
    assigns nothing else. *)

Ltac foot_step :=
  first
    [ inv_step
    | progress unfold safe_delete, build_keyboard, get_film_ratings,
        show_current_film, show_list_variants, close_list ].

Section Footprint.

Variable env : Env.
Variable I : World → Prop.
Variable acting : Z → Prop.
Variable keyed : Z * Z → Prop.

Hypothesis I_clock : ∀ w, I w → I (advance_clock w).
Hypothesis I_event : ∀ ev w, I w → I (push_event ev w).
Hypothesis I_storage : ∀ st r w, keyed st → I w → I (set_storage (insert st r) w).
Hypothesis I_assign : ∀ u s s' w,
  acting u → user_data w !! u = Some s → assigns s s' → I w →
  I (set_user_data (insert u s') w).

Ltac side :=
  try assumption;
  try (intros; apply I_event; assumption);
  try (intros; apply I_storage; assumption);
  try (intros; eapply I_assign; [eassumption|eassumption|constructor|assumption]).

Lemma foot_show_current_film (message : Message + CallbackQuery) (u : Z) :
  acting u → inv I (show_current_film env message u).
Proof. intros Hu. repeat foot_step; side. Qed.

Lemma foot_show_list_variants (message : CallbackQuery) (u : Z) (state : Z * Z) :
  acting u → keyed state → inv I (show_list_variants env message u state).
Proof. intros Hu Hst. repeat foot_step; side. Qed.

Lemma foot_close_list (u chat_id : Z) :
  acting u → inv I (close_list env u chat_id).
Proof. intros Hu. repeat foot_step; side. Qed.

Lemma foot_cmd_help (message : Message) (state : Z * Z) :
  (∀ u, m_from_user message = Some u → acting u) →
  inv I (cmd_help env message state).
Proof.
  intros Hu. unfold cmd_help. destruct (m_from_user message) as [u|]; [|apply inv_ret].
  specialize (Hu u eq_refl). repeat foot_step; side.
Qed.

Lemma foot_handle_navigation (callback : CallbackQuery) (callback_data : NavCallback)
    (state : Z * Z) :
  acting (cb_from_user callback) → keyed state →
  inv I (handle_navigation env callback callback_data state).
Proof. intros Hu Hst. unfold handle_navigation. repeat foot_step; side. Qed.

Lemma foot_confirm_yes (callback : CallbackQuery) (callback_data : ConfirmCallback)
    (state : Z * Z) :
  acting (cb_from_user callback) → keyed state →
  inv I (confirm_yes env callback callback_data state).
Proof. intros Hu Hst. unfold confirm_yes. repeat foot_step; side. Qed.

Lemma foot_confirm_no (callback : CallbackQuery) (state : Z * Z) :
  keyed state → inv I (confirm_no env callback state).
Proof. intros Hst. unfold confirm_no. repeat foot_step; side. Qed.

Lemma foot_handle_number_choice (message : Message) (state : Z * Z) :
  keyed state → inv I (handle_number_choice env message state).
Proof. intros Hst. unfold handle_number_choice. repeat foot_step; side. Qed.

Lemma foot_handle_invalid (message : Message) (state : Z * Z) :
  inv I (handle_invalid env message state).
Proof. unfold handle_invalid. repeat foot_step; side. Qed.

Lemma foot_transition (a : Action) (state : Z * Z) :
  (∀ u, actor a = Some u → acting u) → keyed state →
  inv I (transition env a state).
Proof.
  intros Hu Hst. destruct a as [cb cbd|msg|cb cbd|cb]; cbn [transition].
  - apply foot_handle_navigation; auto.
  - apply foot_handle_number_choice; auto.
  - apply foot_confirm_yes; auto.
  - apply foot_confirm_no; auto.
Qed.

(** A search also forgets the session of its user and stores a new one. *)
Lemma foot_handle_search (message : Message) (state : Z * Z) :
  (∀ u, m_from_user message = Some u → acting u) → keyed state →
  (∀ u w, m_from_user message = Some u → I w → I (set_user_data (delete u) w)) →
  (∀ u s w, m_from_user message = Some u → I w → I (set_user_data (insert u s) w)) →
  inv I (handle_search env message state).
Proof.
  intros Hu Hst Hdel Hins. unfold handle_search.
  destruct (m_from_user message) as [u|]; [|apply inv_ret].
  specialize (Hu u eq_refl). specialize (Hdel u). specialize (Hins u).
  unfold parse_zona_results.
  repeat foot_step; side; intros; (apply Hdel || apply Hins); auto.
Qed.

End Footprint.

(** ** Isolation *)

(** X1: a navigation action assigns to the session of the user who sent it
    only: the session of every other user is what it was, whatever the
    action and whatever the outside answers. *)
Theorem transition_leaves_other_sessions
    (env : Env) (a : Action) (state : Z * Z) (w : World) (u' : Z) :
  actor a ≠ Some u' →
  user_data (exec (transition env a state) w) !! u' = user_data w !! u'.
Proof.
  intros Hne.
  apply (foot_transition env (λ w', user_data w' !! u' = user_data w !! u')
           (λ u, u ≠ u') (λ _, True)); auto.
  - intros u s s' w' Hu _ _ Hw'. cbn [user_data set_user_data].
    rewrite lookup_insert_ne by exact Hu. exact Hw'.
  - intros u Ha ->. apply Hne, Ha.
Qed.

Lemma transition_leaves_other_sessions_witness :
  ∃ s, user_data Guest.both_browsing !! Guest.user = Some s
    ∧ shape s = (0, 2%nat)
    ∧ user_data (exec (transition Demo.env (Nav Demo.press (Demo.nav "next")) Demo.state)
                   Guest.both_browsing) !! Guest.user = Some s.
Proof.
  eexists. split; [vm_compute; reflexivity|]. split; [reflexivity|].
  rewrite (transition_leaves_other_sessions Demo.env
             (Nav Demo.press (Demo.nav "next")) Demo.state Guest.both_browsing
             Guest.user).
  - vm_compute. reflexivity.
  - vm_compute. intros H. discriminate H.
Defined.

(** X2: a search and the help command touch the session of their sender
    only. *)
Theorem search_and_help_leave_other_sessions
    (env : Env) (message : Message) (state : Z * Z) (w : World) (u' : Z) :
  m_from_user message ≠ Some u' →
  user_data (exec (handle_search env message state) w) !! u' = user_data w !! u'
  ∧ user_data (exec (cmd_help env message state) w) !! u' = user_data w !! u'.
Proof.
  intros Hne.
  assert (Hassign : ∀ u s s' w', u ≠ u' → user_data w' !! u = Some s → assigns s s' →
            user_data w' !! u' = user_data w !! u' →
            user_data (set_user_data (insert u s') w') !! u' = user_data w !! u').
  { intros u s s' w' Hu _ _ Hw'. cbn [user_data set_user_data].
    rewrite lookup_insert_ne by exact Hu. exact Hw'. }
  assert (Hact : ∀ u, m_from_user message = Some u → u ≠ u').
  { intros u Hm ->. apply Hne, Hm. }
  split.
  - apply (foot_handle_search env (λ w', user_data w' !! u' = user_data w !! u')
             (λ u, u ≠ u') (λ _, True)); auto.
    + intros u w' Hm Hw'. cbn [user_data set_user_data].
      rewrite lookup_delete_ne by (apply Hact, Hm). exact Hw'.
    + intros u s w' Hm Hw'. cbn [user_data set_user_data].
      rewrite lookup_insert_ne by (apply Hact, Hm). exact Hw'.
  - apply (foot_cmd_help env (λ w', user_data w' !! u' = user_data w !! u')
             (λ u, u ≠ u')); auto.
Qed.

Lemma search_and_help_leave_other_sessions_witness :
  ∃ s, user_data Demo.browsing_matrix !! Demo.user = Some s
    ∧ shape s = (0, 5%nat)
    ∧ user_data (exec (handle_search Demo.env (Guest.says "new") Guest.state)
                   Demo.browsing_matrix) !! Demo.user = Some s.
Proof.
  eexists. split; [vm_compute; reflexivity|]. split; [reflexivity|].
  rewrite (proj1 (search_and_help_leave_other_sessions Demo.env (Guest.says "new")
                    Guest.state Demo.browsing_matrix Demo.user
                    ltac:(vm_compute; intros H; discriminate H))).
  vm_compute. reflexivity.
Defined.

(** X3: a handler writes to the FSM record of the conversation it was
    called for only; the help command writes to none. *)
Theorem handlers_leave_other_conversations
    (env : Env) (state key : Z * Z) (w : World) :
  key ≠ state →
  (∀ a, storage (exec (transition env a state) w) !! key = storage w !! key)
  ∧ (∀ message,
       storage (exec (handle_search env message state) w) !! key = storage w !! key
       ∧ storage (exec (cmd_help env message state) w) = storage w).
Proof.
  intros Hne.
  assert (Hst : ∀ st r w', st = state → storage w' !! key = storage w !! key →
            storage (set_storage (insert st r) w') !! key = storage w !! key).
  { intros st r w' -> Hw'. cbn [storage set_storage].
    rewrite lookup_insert_ne by (intros ->; apply Hne; reflexivity). exact Hw'. }
  split; [|split].
  - intros a. apply (foot_transition env (λ w', storage w' !! key = storage w !! key)
                       (λ _, True) (λ st, st = state)); auto.
  - apply (foot_handle_search env (λ w', storage w' !! key = storage w !! key)
             (λ _, True) (λ st, st = state)); auto.
  - apply (foot_cmd_help env (λ w', storage w' = storage w) (λ _, True)); auto.
Qed.

Lemma handlers_leave_other_conversations_witness :
  fsm_state (fsm_lookup Demo.state Guest.host_awaiting) = Some waiting_for_number
  ∧ storage (exec (handle_search Demo.env (Guest.says "old") Guest.state)
               Guest.host_awaiting) !! Demo.state
    = storage Guest.host_awaiting !! Demo.state.
Proof.
  split; [vm_compute; reflexivity|].
  apply (handlers_leave_other_conversations Demo.env Guest.state Demo.state
           Guest.host_awaiting).
  vm_compute. intros H. discriminate H.
Defined.

(** ** What navigation never changes *)

Lemma bare_alter_ratings (k i : string) (pos : nat) (l : list Film) :
  bare <$> alter (set_ratings k i) pos l = bare <$> l.
Proof.
  revert pos. induction l as [|f l IH]; intros [|pos]; cbn; try reflexivity.
  f_equal. apply IH.
Qed.

Lemma assigns_findings (s s' : Session) : assigns s s' → findings s' = findings s.
Proof.
  intros [m|m|i|k i pos]; unfold findings; cbn; try reflexivity.
  rewrite bare_alter_ratings. reflexivity.
Qed.

(** X4: the records of a search are fixed.  No navigation action adds,
    drops, reorders or rewrites a record of any session, nor changes its
    query: all that may change on a record are the ratings cached on it. *)
Theorem transition_keeps_the_findings
    (env : Env) (a : Action) (state : Z * Z) (w : World) :
  findings <$> user_data (exec (transition env a state) w) = findings <$> user_data w.
Proof.
  apply (foot_transition env
           (λ w', findings <$> user_data w' = findings <$> user_data w)
           (λ _, True) (λ _, True)); auto.
  intros u s s' w' _ Hs Hassign Hw'. cbn [user_data set_user_data].
  rewrite fmap_insert, (assigns_findings _ _ Hassign), <- Hw'.
  apply insert_id. rewrite lookup_fmap, Hs. reflexivity.
Qed.

(** X5: typing a number, rejecting a question or typing something else
    while a number is awaited assigns to no session: the index moves on a
    confirmation only, not on the choice of a number. *)
Theorem choosing_assigns_to_no_session
    (env : Env) (message : Message) (callback : CallbackQuery) (state : Z * Z)
    (w : World) :
  user_data (exec (handle_number_choice env message state) w) = user_data w
  ∧ user_data (exec (confirm_no env callback state) w) = user_data w
  ∧ user_data (exec (handle_invalid env message state) w) = user_data w.
Proof.
  split; [|split].
  - apply (foot_handle_number_choice env (λ w', user_data w' = user_data w) (λ _, True));
      auto.
  - apply (foot_confirm_no env (λ w', user_data w' = user_data w) (λ _, True)); auto.
  - apply (foot_handle_invalid env (λ w', user_data w' = user_data w)); auto.
Qed.

(** ** Failures that are swallowed, and failures that are not *)

(** X6: [safe_delete] never raises and never touches a session or the FSM
    storage.  It asks Telegram once to delete the message, and not at all
    when there is no message id or the id is 0; what Telegram answers
    makes no difference. *)
Theorem safe_delete_swallows_failures
    (env : Env) (chat_id : Z) (msg_id : option Z) (w : World) :
  outcome (safe_delete env chat_id msg_id) w = Return tt
  ∧ user_data (exec (safe_delete env chat_id msg_id) w) = user_data w
  ∧ storage (exec (safe_delete env chat_id msg_id) w) = storage w
  ∧ trace (exec (safe_delete env chat_id msg_id) w) = deleted chat_id msg_id ++ trace w
  ∧ (msg_id = None ∨ msg_id = Some 0 → exec (safe_delete env chat_id msg_id) w = w).
Proof.
  unfold outcome, exec. rewrite safe_delete_run. cbn [fst snd]. unfold deleted.
  split; [reflexivity|].
  destruct msg_id as [m|]; [|repeat split; reflexivity].
  destruct (Py.truthy_oint (Some m)) eqn:Hm.
  - repeat split; try reflexivity.
    intros [H|H]; [discriminate H|]. injection H as ->. discriminate Hm.
  - repeat split; reflexivity.
Qed.

(** X7: [get_film_ratings] never raises and always returns a pair.  It
    changes neither sessions nor FSM storage and sends at most one
    request, to the watch link itself. *)
Theorem get_film_ratings_never_raises
    (env : Env) (watch_link : option string) (w : World) :
  ∃ k i,
    outcome (get_film_ratings env watch_link) w = Return (k, i)
    ∧ user_data (exec (get_film_ratings env watch_link) w) = user_data w
    ∧ storage (exec (get_film_ratings env watch_link) w) = storage w
    ∧ (trace (exec (get_film_ratings env watch_link) w) = trace w
       ∨ ∃ link, watch_link = Some link
           ∧ trace (exec (get_film_ratings env watch_link) w) = HttpGet link :: trace w).
Proof.
  unfold outcome, exec, get_film_ratings.
  destruct watch_link as [link|]; [|exists dash, dash; cbn; auto].
  destruct (Py.truthy_str link); cbn [negb]; [|exists dash, dash; cbn; auto].
  rewrite bind_run. unfold try_except. rewrite bind_run, session_get_run.
  destruct (http_get env (clock w) link) as [e|[status html]];
    cbn [any_exception mret M_ret].
  - exists dash, dash. cbn. eauto 7.
  - destruct (status =? 200); [|exists dash, dash; cbn; eauto 7].
    destruct (Html.rating_dd html) as [dd|]; eexists _, _; cbn; eauto 7.
Qed.

(** X8: the placeholder pair.  Without a watch link (none, or empty)
    [get_film_ratings] returns the two dashes without any request; with a
    link, it returns them when the request raises, when the status is not
    200, and when the page has no rating element. *)
Theorem get_film_ratings_placeholders
    (env : Env) (watch_link : option string) (w : World) :
  (Py.truthy_ostr watch_link = false
   ∨ ∃ link, watch_link = Some link
       ∧ match http_get env (clock w) link with
         | inl _ => True
         | inr (status, html) => status ≠ 200 ∨ Html.rating_dd html = None
         end) →
  outcome (get_film_ratings env watch_link) w = Return (dash, dash)
  ∧ (Py.truthy_ostr watch_link = false →
     exec (get_film_ratings env watch_link) w = w).
Proof.
  unfold outcome, exec, get_film_ratings.
  destruct watch_link as [link|]; [|intros _; split; reflexivity].
  cbn [Py.truthy_ostr].
  destruct (Py.truthy_str link) eqn:Hlink; cbn [negb]; [|intros _; split; reflexivity].
  intros [H|(link' & [= <-] & H)]; [discriminate H|].
  split; [|intros H'; discriminate H'].
  rewrite bind_run. unfold try_except. rewrite bind_run, session_get_run.
  destruct (http_get env (clock w) link) as [e|[status html]];
    cbn [any_exception mret M_ret]; [reflexivity|].
  destruct (Z.eqb_spec status 200) as [->|Hne]; [|reflexivity].
  destruct H as [H|H]; [contradiction|]. rewrite H. reflexivity.
Qed.

Lemma get_film_ratings_placeholders_witness :
  outcome (get_film_ratings Demo.env None) Demo.start = Return (dash, dash)
  ∧ outcome (get_film_ratings Demo.env (Some "https://zona.example/search/new"))
      Demo.start = Return (dash, dash)
  ∧ exec (get_film_ratings Demo.env None) Demo.start = Demo.start.
Proof.
  split; [|split].
  - apply (get_film_ratings_placeholders Demo.env None Demo.start).
    left. reflexivity.
  - apply (get_film_ratings_placeholders Demo.env
             (Some "https://zona.example/search/new") Demo.start).
    right. eexists. split; [reflexivity|]. vm_compute. right. reflexivity.
  - apply (get_film_ratings_placeholders Demo.env None Demo.start);
      [left|]; reflexivity.
Defined.

(** X9: no results is not an error, a failing request is.  When the
    status is not 200 or the page has no results marker,
    [parse_zona_results] returns the empty list; when the request itself
    raises, the exception goes on to the caller.  In both cases the one
    request is all that happened. *)
Theorem parse_zona_results_degrades
    (env : Env) (query : string) (w : World) (r : Py.Exn + (Z * Html.Document)) :
  http_get env (clock w) (ZONA_SEARCH_URL env +:+ quote env query) = r →
  match r with
  | inl _ => True
  | inr (status, doc) => status ≠ 200 ∨ Html.results_title doc = false
  end →
  parse_zona_results env query w
  = (match r with inl e => Raise e | inr _ => Return [] end,
     push_event (HttpGet (ZONA_SEARCH_URL env +:+ quote env query)) (advance_clock w)).
Proof.
  intros Hr H. unfold parse_zona_results. rewrite bind_run, session_get_run, Hr.
  destruct r as [e|[status doc]]; [reflexivity|].
  destruct (Z.eqb_spec status 200) as [->|Hne]; cbn [negb]; [|reflexivity].
  destruct H as [H|H]; [contradiction|]. rewrite H. reflexivity.
Qed.

(** A query the demo site has no results page for. *)
Lemma parse_zona_results_degrades_witness :
  parse_zona_results Demo.env "zzz" Demo.start
  = (Return [],
     push_event (HttpGet "https://zona.example/search/zzz") (advance_clock Demo.start)).
Proof.
  apply (parse_zona_results_degrades Demo.env "zzz" Demo.start
           (inr (200, Demo.detail_page)) eq_refl).
  right. reflexivity.
Defined.

(** ** At and past the ends of the list *)

Lemma norm_index_out_of_range (n : nat) (i : Z) :
  Z.of_nat n ≤ i ∨ i < - Z.of_nat n → Py.norm_index n i = None.
Proof.
  intros H. unfold Py.norm_index.
  destruct (Z.leb_spec 0 i), (Z.ltb_spec i (Z.of_nat n)),
    (Z.leb_spec (- Z.of_nat n) i), (Z.ltb_spec i 0); cbn; try reflexivity; lia.
Qed.

Lemma show_current_film_out_of_range_aux
    (env : Env) (message : Message + CallbackQuery) (u : Z) (s : Session) (w : World) :
  user_data w !! u = Some s →
  Py.len (results s) ≤ current_index s ∨ current_index s < - Py.len (results s) →
  show_current_film env message u w = (Raise Py.IndexError, w).
Proof.
  intros Hs Hout. unfold show_current_film.
  rewrite bind_run, user_data_get_run, Hs.
  rewrite bind_run, getitem_at_run, (norm_index_out_of_range _ _ Hout).
  reflexivity.
Qed.

(** X10: without a session of the user [show_current_film] raises
    KeyError; with an index past the end of the list, or before its
    negative end, it raises IndexError.  Either way it stops at once:
    nothing is fetched, stored or sent. *)
Theorem show_current_film_out_of_range
    (env : Env) (message : Message + CallbackQuery) (u : Z) (w : World) :
  match user_data w !! u with
  | Some s =>
      Py.len (results s) ≤ current_index s ∨ current_index s < - Py.len (results s)
  | None => True
  end →
  show_current_film env message u w
  = (Raise match user_data w !! u with
           | Some _ => Py.IndexError
           | None => Py.KeyError
           end, w).
Proof.
  destruct (user_data w !! u) as [s|] eqn:Hs.
  - intros Hout. apply (show_current_film_out_of_range_aux env message u s w Hs Hout).
  - intros _. unfold show_current_film.
    rewrite bind_run, user_data_get_run, Hs. reflexivity.
Qed.

(** The index 2 of the two records of [new], where a second [next] left
    it. *)
Lemma show_current_film_out_of_range_witness :
  shape <$> user_data
    (exec (handle_navigation Demo.env Demo.press (Demo.nav "next") Demo.state)
       Demo.last_of_new) !! Demo.user = Some (2, 2%nat)
  ∧ outcome (show_current_film Demo.env (inr Demo.press) Demo.user)
      (exec (handle_navigation Demo.env Demo.press (Demo.nav "next") Demo.state)
         Demo.last_of_new) = Raise Py.IndexError.
Proof.
  split; [vm_compute; reflexivity|].
  unfold outcome.
  rewrite (show_current_film_out_of_range Demo.env (inr Demo.press) Demo.user).
  - vm_compute. reflexivity.
  - vm_compute. left. discriminate.
Defined.

(** X11: [next] on the last record.  The handler moves the index to
    [len(results)] and the rendering raises IndexError: nothing is sent,
    and the session stays with its index one past the end. *)
Theorem next_on_the_last_record_raises
    (env : Env) (callback : CallbackQuery) (state : Z * Z) (chat : Z)
    (s : Session) (w : World) :
  cb_message_chat callback = Some chat →
  user_data w !! cb_from_user callback = Some s →
  current_index s = Py.len (results s) - 1 →
  handle_navigation env callback {| nav_action := "next" |} state w
  = (Raise Py.IndexError,
     set_user_data
       (insert (cb_from_user callback) (set_current_index (Py.len (results s)) s)) w).
Proof.
  intros Hc Hs Hlast. unfold handle_navigation. rewrite Hc.
  rewrite bind_run, (user_data_contains_run _ s) by exact Hs. cbn [negb].
  rewrite bind_run, user_data_get_run, Hs. cbn [nav_action].
  change (String.eqb "next" "prev") with false.
  change (String.eqb "next" "next") with true. cbn iota.
  rewrite bind_run, user_data_update_run, Hs.
  replace (current_index s + 1) with (Py.len (results s)) by lia.
  rewrite (show_current_film_out_of_range_aux env (inr callback) _
             (set_current_index (Py.len (results s)) s)); [reflexivity| |].
  - cbn [user_data set_user_data]. apply lookup_insert_eq.
  - left. cbn. lia.
Qed.

Lemma next_on_the_last_record_raises_witness :
  ∃ s, user_data Demo.last_of_new !! Demo.user = Some s
    ∧ shape s = (1, 2%nat)
    ∧ outcome (handle_navigation Demo.env Demo.press {| nav_action := "next" |} Demo.state)
        Demo.last_of_new = Raise Py.IndexError.
Proof.
  eexists. split; [vm_compute; reflexivity|].
  match goal with |- shape ?s = _ ∧ _ => set (s0 := s) end.
  split; [reflexivity|]. unfold outcome.
  rewrite (next_on_the_last_record_raises Demo.env Demo.press Demo.state Demo.chat
             s0 Demo.last_of_new).
  - reflexivity.
  - reflexivity.
  - vm_compute. reflexivity.
  - reflexivity.
Defined.

(** ** A new search *)

Lemma safe_delete_spec (env : Env) (chat_id : Z) (msg_id : option Z)
    (w w' : World) (o : Outcome unit) :
  safe_delete env chat_id msg_id w = (o, w') →
  o = Return tt ∧ user_data w' = user_data w ∧ storage w' = storage w.
Proof.
  rewrite safe_delete_run. intros [= <- <-]. split; [reflexivity|].
  destruct msg_id as [m|]; [|split; reflexivity].
  destruct (Py.truthy_oint (Some m)); split; reflexivity.
Qed.

(** A search in two parts.  First the session it finds is dealt with and
    forgotten, whatever Telegram answers; then the site is asked, and a
    session is stored if records [Q] came back.  An invariant [I] of the
    second part holds at the end if it holds when the first part is
    done. *)
Lemma handle_search_establishes (env : Env) (message : Message) (state : Z * Z)
    (u : Z) (text : string) (w : World) (I : World → Prop) (Q : list Film → Prop) :
  m_from_user message = Some u → m_text message = Some text →
  Py.truthy_str text = true →
  (∀ w1, I w1 → I (advance_clock w1)) →
  (∀ ev w1, I w1 → I (push_event ev w1)) →
  (∀ u' m w1 s, user_data w1 !! u' = Some s → I w1 →
     I (set_user_data (insert u' (set_msg_id m s)) w1)) →
  (∀ u' k i pos w1 s, user_data w1 !! u' = Some s → I w1 →
     I (set_user_data
          (insert u' (set_results (alter (set_ratings k i) pos (results s)) s)) w1)) →
  (∀ w1 r w2, I w1 → parse_zona_results env (Py.strip text) w1 = (Return r, w2) → Q r) →
  (∀ r w1, Q r → r ≠ [] → I w1 →
     I (set_user_data
          (insert u {| results := r; current_index := 0; query := Py.strip text;
                       msg_id := None; list_msg_id := None |}) w1)) →
  (∀ w1, user_data w1 = delete u (user_data w) →
     storage w1 = <[state := fsm_empty]> (storage w) → I w1) →
  I (exec (handle_search env message state) w).
Proof.
  intros Hu Htext Ht Hclock Hevent Hmsg Hrat HQ Hins Hstart.
  unfold handle_search, exec. rewrite Hu, Htext, Ht. cbn [negb].
  rewrite bind_run. unfold state_clear at 1, modify at 1.
  rewrite bind_run. unfold user_data_contains at 1, get_world at 1. rewrite bind_run.
  cbn [mret M_ret].
  set (w0 := set_storage (insert state fsm_empty) w).
  change (user_data w0) with (user_data w).
  match goal with |- context [mbind ?k (if _ then _ else _)] => set (K := k) end.
  assert (HK : inv I (K tt)).
  { unfold K.
    apply inv_bind; [apply inv_get_world|]. intros wn.
    apply inv_bind; [unfold db_execute; apply inv_external_; auto|]. intros _.
    apply inv_bind; [unfold message_answer; apply inv_external; auto|]. intros searching.
    apply (inv_bind_val I _ _ Q).
    { unfold parse_zona_results. repeat inv_step; auto. }
    { exact HQ. }
    intros r Hr.
    apply inv_bind; [unfold bot_delete_message; apply inv_external_; auto|]. intros _.
    destruct r as [|f r].
    - repeat inv_step; auto.
    - apply inv_bind.
      + apply inv_modify. intros w1. apply Hins; [exact Hr|discriminate].
      + intros _ w1 Hw1.
        apply (inv_show_current_film env I (λ _, True)); auto. }
  rewrite bind_run.
  destruct (user_data w !! u) as [old|] eqn:Hold.
  2:{ rewrite bool_decide_eq_false_2 by (intros [? ?]; discriminate). cbn [mret M_ret].
      apply (inv_apply I (K tt)); [exact HK|]. apply Hstart; [|reflexivity].
      cbn. symmetry. apply delete_id, Hold. }
  rewrite bool_decide_eq_true_2 by eauto.
  rewrite bind_run, user_data_get_run.
  change (user_data w0) with (user_data w). rewrite Hold.
  rewrite bind_run.
  destruct (safe_delete env (m_chat message) (list_msg_id old) w0) as [o1 w1] eqn:E1.
  apply safe_delete_spec in E1 as (-> & Hud1 & Hst1).
  rewrite bind_run.
  assert (Hfreeze : ∃ w2,
    match msg_id old with
    | Some m =>
        if Py.truthy_oint (msg_id old)
        then
          try_except any_exception
            (getitem_at (results old) (current_index old)
             ≫= λ '(_, old_result),
                  photo_arg (poster_url old_result)
                  ≫= λ media,
                       bot_edit_message_media env (m_chat message) m media
                         (frozen_caption old_result (query old))
                         (builder_row [watch_button (watch_link old_result)] []))
            (safe_delete env (m_chat message) (msg_id old))
        else mret ()
    | None => mret ()
    end w1 = (Return tt, w2)
    ∧ user_data w2 = user_data w1 ∧ storage w2 = storage w1).
  { destruct (msg_id old) as [m|]; [|eauto].
    destruct (Py.truthy_oint (Some m)); [|eauto].
    unfold try_except. rewrite bind_run, getitem_at_run.
    destruct (Py.norm_index _ _) as [pos|].
    - destruct (results old !! pos) as [old_result|].
      + rewrite bind_run. unfold photo_arg.
        destruct (poster_url old_result) as [p|]; cbn [mret M_ret raise].
        * unfold bot_edit_message_media. rewrite external__run.
          destruct (telegram_call env (clock w1)); cbn [any_exception]; [|eauto].
          destruct (safe_delete env (m_chat message) (Some m) _) as [o w2] eqn:E.
          apply safe_delete_spec in E as (-> & Hud & Hst). eauto.
        * cbn [any_exception].
          destruct (safe_delete env (m_chat message) (Some m) _) as [o w2] eqn:E.
          apply safe_delete_spec in E as (-> & Hud & Hst). eauto.
      + cbn [any_exception].
        destruct (safe_delete env (m_chat message) (Some m) _) as [o w2] eqn:E.
        apply safe_delete_spec in E as (-> & Hud & Hst). eauto.
    - cbn [any_exception].
      destruct (safe_delete env (m_chat message) (Some m) _) as [o w2] eqn:E.
      apply safe_delete_spec in E as (-> & Hud & Hst). eauto. }
  destruct Hfreeze as (w2 & -> & Hud2 & Hst2).
  unfold modify at 1.
  apply (inv_apply I (K tt)); [exact HK|]. apply Hstart.
  - cbn [user_data set_user_data]. rewrite Hud2, Hud1. reflexivity.
  - cbn [storage set_user_data]. rewrite Hst2, Hst1. reflexivity.
Qed.

(** X12: a search replaces the session.  However the search ends, the
    FSM state of the conversation is cleared and the session the user had
    is gone: the user is left with no session, or with one for this query
    (the text, stripped), on its first record, with no list open and with
    its index in bounds. *)
Theorem search_replaces_the_session
    (env : Env) (message : Message) (state : Z * Z) (u : Z) (text : string) (w : World) :
  m_from_user message = Some u → m_text message = Some text →
  Py.truthy_str text = true →
  fsm_lookup state (exec (handle_search env message state) w) = fsm_empty
  ∧ (user_data (exec (handle_search env message state) w) !! u = None
     ∨ ∃ s', user_data (exec (handle_search env message state) w) !! u = Some s'
         ∧ core s' = (0, length (results s'), Py.strip text, None)
         ∧ in_bounds s').
Proof.
  intros Hu Htext Ht.
  assert (Hupd : ∀ u' s s' (w1 : World),
            user_data w1 !! u' = Some s → core s' = core s →
            (fsm_lookup state w1 = fsm_empty
             ∧ (user_data w1 !! u = None
                ∨ ∃ s0, user_data w1 !! u = Some s0
                    ∧ core s0 = (0, length (results s0), Py.strip text, None)
                    ∧ in_bounds s0)) →
            fsm_lookup state (set_user_data (insert u' s') w1) = fsm_empty
            ∧ (user_data (set_user_data (insert u' s') w1) !! u = None
               ∨ ∃ s0, user_data (set_user_data (insert u' s') w1) !! u = Some s0
                   ∧ core s0 = (0, length (results s0), Py.strip text, None)
                   ∧ in_bounds s0)).
  { intros u' s s' w1 Hs Hcore [Hst Hcase]. split; [exact Hst|].
    cbn [user_data set_user_data]. rewrite lookup_insert. case_decide as Hdec.
    - subst u'. right. exists s'. split; [reflexivity|].
      destruct Hcase as [Hnone|(s0 & Hs0 & Hc0 & Hb0)]; [congruence|].
      rewrite Hs in Hs0. injection Hs0 as <-.
      assert (Hlen : length (results s') = length (results s)).
      { unfold core in Hcore. congruence. }
      split; [rewrite Hcore, Hc0, Hlen; reflexivity|].
      apply (in_bounds_shape s); [|exact Hb0]. unfold shape, core in *. congruence.
    - exact Hcase. }
  apply (handle_search_establishes env message state u text w
           (λ w1, fsm_lookup state w1 = fsm_empty
                  ∧ (user_data w1 !! u = None
                     ∨ ∃ s0, user_data w1 !! u = Some s0
                         ∧ core s0 = (0, length (results s0), Py.strip text, None)
                         ∧ in_bounds s0))
           (λ _, True) Hu Htext Ht).
  - intros w1 H. exact H.
  - intros ev w1 H. exact H.
  - intros u' m w1 s Hs. apply (Hupd u' s); [exact Hs|reflexivity].
  - intros u' k i pos w1 s Hs. apply (Hupd u' s); [exact Hs|apply core_set_ratings].
  - auto.
  - intros r w1 _ Hr [Hst _]. split; [exact Hst|]. right.
    eexists. cbn [user_data set_user_data]. rewrite lookup_insert_eq.
    split; [reflexivity|]. split; [reflexivity|].
    unfold in_bounds, Py.len. cbn. destruct r; [contradiction|]. cbn. lia.
  - intros w1 Hud Hst. split.
    + unfold fsm_lookup. rewrite Hst, lookup_insert_eq. reflexivity.
    + left. rewrite Hud. apply lookup_delete_eq.
Qed.

Lemma search_replaces_the_session_witness :
  shape <$> user_data Demo.browsing_matrix !! Demo.user = Some (0, 5%nat)
  ∧ ∃ s', user_data (exec (handle_search Demo.env (Demo.says " new ") Demo.state)
                       Demo.browsing_matrix) !! Demo.user = Some s'
      ∧ core s' = (0, 2%nat, "new", None).
Proof.
  split; [vm_compute; reflexivity|].
  destruct (search_replaces_the_session Demo.env (Demo.says " new ") Demo.state
              Demo.user " new " Demo.browsing_matrix eq_refl eq_refl eq_refl)
    as [_ [Hnone|(s' & Hs' & Hcore & _)]].
  - vm_compute in Hnone. discriminate Hnone.
  - exists s'. split; [exact Hs'|]. rewrite Hcore.
    vm_compute in Hs'. injection Hs' as <-. reflexivity.
Defined.

(** X13: a search that finds nothing leaves the user without a session.
    If the site, whenever asked for this query, answers with a status
    other than 200, with a page without results marker, or with a page
    none of whose entries has a link element, then after the search the
    user has no session: the one the user had is gone. *)
Theorem search_without_results_leaves_no_session
    (env : Env) (message : Message) (state : Z * Z) (u : Z) (text : string) (w : World) :
  m_from_user message = Some u → m_text message = Some text →
  Py.truthy_str text = true →
  (∀ t, match http_get env t (ZONA_SEARCH_URL env +:+ quote env (Py.strip text)) with
        | inl _ => True
        | inr (status, doc) =>
            status ≠ 200 ∨ Html.results_title doc = false
            ∨ parse_cards env (Html.cards doc) = []
        end) →
  user_data (exec (handle_search env message state) w) !! u = None.
Proof.
  intros Hu Htext Ht Hsite.
  apply (handle_search_establishes env message state u text w
           (λ w1, user_data w1 !! u = None) (λ r, r = []) Hu Htext Ht).
  - intros w1 H. exact H.
  - intros ev w1 H. exact H.
  - intros u' m w1 s Hs Hnone. cbn [user_data set_user_data].
    rewrite lookup_insert_ne; [exact Hnone|]. intros ->. congruence.
  - intros u' k i pos w1 s Hs Hnone. cbn [user_data set_user_data].
    rewrite lookup_insert_ne; [exact Hnone|]. intros ->. congruence.
  - intros w1 r w2 _. unfold parse_zona_results.
    rewrite bind_run, session_get_run. specialize (Hsite (clock w1)).
    destruct (http_get env (clock w1) _) as [e|[status doc]]; [discriminate|].
    destruct (Z.eqb_spec status 200) as [->|Hne]; cbn [negb]; [|intros [= <- _]; reflexivity].
    destruct (Html.results_title doc); cbn [negb]; [|intros [= <- _]; reflexivity].
    destruct Hsite as [H|[H|H]]; [contradiction|discriminate|].
    rewrite H. intros [= <- _]. reflexivity.
  - intros r w1 -> Hr. contradiction.
  - intros w1 Hud _. rewrite Hud. apply lookup_delete_eq.
Qed.

Lemma search_without_results_leaves_no_session_witness :
  shape <$> user_data Demo.browsing_matrix !! Demo.user = Some (0, 5%nat)
  ∧ user_data (exec (handle_search Demo.env (Demo.says "zzz") Demo.state)
                 Demo.browsing_matrix) !! Demo.user = None.
Proof.
  split; [vm_compute; reflexivity|].
  apply (search_without_results_leaves_no_session Demo.env (Demo.says "zzz")
           Demo.state Demo.user "zzz" Demo.browsing_matrix eq_refl eq_refl eq_refl).
  intros t. vm_compute. right. left. reflexivity.
Defined.

(** ** Edit in place, or delete and send again *)

(** The first steps of [show_current_film] for a record that has its
    ratings, up to the attempt to edit the message. *)
Ltac render_cached Hs Hpos Hfilm Hkp Himdb Hposter Hchat Hdb Hkb :=
  unfold show_current_film;
  rewrite bind_run, user_data_get_run, Hs;
  rewrite bind_run, getitem_at_run, Hpos, Hfilm;
  rewrite Hkp; rewrite bind_run; cbn [mret M_ret];
  rewrite bind_run; unfold db_execute; rewrite external__run, Hdb;
  rewrite bind_run, Hkp; cbn [dict_item mret M_ret];
  rewrite bind_run, Himdb; cbn [dict_item mret M_ret];
  rewrite bind_run, Hkb; rewrite Hchat;
  rewrite bind_run, user_data_get_run;
  cbn [user_data push_event advance_clock]; rewrite Hs;
  rewrite bind_run; unfold photo_arg; rewrite Hposter; cbn [mret M_ret].

Lemma build_keyboard_frame (u total : Z) (show_list : bool) (kb : Markup)
    (w w1 : World) :
  build_keyboard u total show_list w = (Return kb, w) →
  user_data w1 = user_data w →
  build_keyboard u total show_list w1 = (Return kb, w1).
Proof.
  unfold build_keyboard. rewrite !bind_run, !user_data_get_run. intros H Hud.
  rewrite Hud. destruct (user_data w !! u) as [s|]; [|discriminate H].
  rewrite !bind_run, !getitem_at_run in *.
  destruct (Py.norm_index _ _) as [pos|]; [|discriminate H].
  destruct (results s !! pos) as [film|]; [|discriminate H].
  injection H as <-. reflexivity.
Qed.

(** X14: the record is edited in place.  When the session has a message
    and Telegram accepts the edit, [show_current_film] of a record that
    has its ratings and a poster makes two calls, the count of the view
    and the edit: nothing is deleted or sent, and no session changes. *)
Theorem show_current_film_edits_in_place
    (env : Env) (message : Message + CallbackQuery) (u chat m : Z) (s : Session)
    (pos : nat) (film : Film) (k i p : string) (kb : Markup) (w : World) :
  user_data w !! u = Some s →
  Py.norm_index (length (results s)) (current_index s) = Some pos →
  results s !! pos = Some film →
  kp film = Some k → imdb film = Some i → poster_url film = Some p →
  reply_chat message = Some chat →
  build_keyboard u (Py.len (results s)) true w = (Return kb, w) →
  db_call env (clock w) = None →
  msg_id s = Some m → m ≠ 0 →
  telegram_call env (S (clock w)) = None →
  outcome (show_current_film env message u) w = Return tt
  ∧ user_data (exec (show_current_film env message u) w) = user_data w
  ∧ storage (exec (show_current_film env message u) w) = storage w
  ∧ trace (exec (show_current_film env message u) w)
    = EditMessageMedia chat m (Some p)
        (film_caption film k i (current_index s + 1) (Py.len (results s)) (query s)) kb
      :: DbExecute (UpsertStats u
           (title film +:+
            (if Py.truthy_str (year film) then " (" +:+ year film +:+ ")"
             else EmptyString)))
      :: trace w.
Proof.
  intros Hs Hpos Hfilm Hkp Himdb Hposter Hchat Hkb Hdb Hm Hm0 Hedit.
  pose proof (build_keyboard_frame u _ true kb w
                (push_event (DbExecute (UpsertStats u
                   (title film +:+
                    (if Py.truthy_str (year film) then " (" +:+ year film +:+ ")"
                     else EmptyString))))
                   (advance_clock w)) Hkb eq_refl) as Hkb'.
  unfold outcome, exec.
  render_cached Hs Hpos Hfilm Hkp Himdb Hposter Hchat Hdb Hkb'.
  rewrite Hm. cbn [Py.truthy_oint].
  rewrite (proj2 (Z.eqb_neq m 0) Hm0). cbn [negb].
  unfold try_except, bot_edit_message_media. rewrite external__run.
  cbn [clock push_event advance_clock]. rewrite Hedit. cbn [fst snd].
  repeat split; reflexivity.
Qed.

(** The first record of [matrix], shown again in its message. *)
Lemma show_current_film_edits_in_place_witness :
  outcome (show_current_film Demo.env (inr Demo.press) Demo.user) Demo.browsing_matrix
  = Return tt
  ∧ user_data (exec (show_current_film Demo.env (inr Demo.press) Demo.user)
                 Demo.browsing_matrix) = user_data Demo.browsing_matrix.
Proof.
  refine (let H := show_current_film_edits_in_place Demo.env (inr Demo.press)
                      Demo.user Demo.chat 106 _ _ _ _ _ _ _ Demo.browsing_matrix
                      _ _ _ _ _ _ _ _ _ _ _ _ in
          conj (proj1 H) (proj1 (proj2 H)));
    try (vm_compute; reflexivity); discriminate.
Defined.

(** X15: the fallback, for a record with a poster.  When Telegram
    refuses the edit, the old message is deleted (whether that works or
    not) and the record is sent anew:
    the id Telegram gives the new message becomes the session's [msg_id].
    When the sending fails as well, its exception reaches the caller and
    the session is left without message id. *)
Theorem show_current_film_sends_anew
    (env : Env) (message : Message + CallbackQuery) (u chat m : Z) (s : Session)
    (pos : nat) (film : Film) (k i p : string) (kb : Markup) (e : Py.Exn) (w : World) :
  user_data w !! u = Some s →
  Py.norm_index (length (results s)) (current_index s) = Some pos →
  results s !! pos = Some film →
  kp film = Some k → imdb film = Some i → poster_url film = Some p →
  reply_chat message = Some chat →
  build_keyboard u (Py.len (results s)) true w = (Return kb, w) →
  db_call env (clock w) = None →
  msg_id s = Some m → m ≠ 0 →
  telegram_call env (S (clock w)) = Some e →
  outcome (show_current_film env message u) w
  = match telegram_send env (3 + clock w)%nat with
    | inr _ => Return tt
    | inl e' => Raise e'
    end
  ∧ user_data (exec (show_current_film env message u) w)
    = <[u := set_msg_id
               match telegram_send env (3 + clock w)%nat with
               | inr sent => Some sent
               | inl _ => None
               end s]> (user_data w)
  ∧ storage (exec (show_current_film env message u) w) = storage w
  ∧ ∃ caption db,
      trace (exec (show_current_film env message u) w)
      = SendPhoto chat (Some p) caption kb
        :: DeleteMessage chat m
        :: EditMessageMedia chat m (Some p) caption kb
        :: DbExecute db :: trace w.
Proof.
  intros Hs Hpos Hfilm Hkp Himdb Hposter Hchat Hkb Hdb Hm Hm0 Hedit.
  pose proof (build_keyboard_frame u _ true kb w
                (push_event (DbExecute (UpsertStats u
                   (title film +:+
                    (if Py.truthy_str (year film) then " (" +:+ year film +:+ ")"
                     else EmptyString))))
                   (advance_clock w)) Hkb eq_refl) as Hkb'.
  unfold outcome, exec.
  render_cached Hs Hpos Hfilm Hkp Himdb Hposter Hchat Hdb Hkb'.
  rewrite Hm. cbn [Py.truthy_oint].
  rewrite (proj2 (Z.eqb_neq m 0) Hm0). cbn [negb].
  unfold try_except, bot_edit_message_media. rewrite external__run.
  cbn [clock push_event advance_clock]. rewrite Hedit. cbn [any_exception].
  rewrite bind_run, safe_delete_run. cbn [Py.truthy_oint].
  rewrite (proj2 (Z.eqb_neq m 0) Hm0). cbn [negb].
  rewrite bind_run, user_data_update_run.
  cbn [user_data push_event advance_clock]. rewrite Hs.
  rewrite bind_run. unfold bot_send_photo. rewrite external_run.
  cbn [clock set_user_data push_event advance_clock].
  change (3 + clock w)%nat with (S (S (S (clock w)))).
  destruct (telegram_send env (S (S (S (clock w))))) as [e'|sent].
  - cbn [fst snd user_data storage trace push_event advance_clock set_user_data].
    repeat split; try reflexivity. do 2 eexists. reflexivity.
  - rewrite user_data_update_run.
    cbn [user_data push_event advance_clock set_user_data]. rewrite lookup_insert_eq.
    cbn [fst snd user_data storage trace push_event advance_clock set_user_data].
    rewrite insert_insert_eq.
    repeat split; try reflexivity. do 2 eexists. reflexivity.
Qed.


Lemma show_current_film_sends_anew_witness :
  outcome (show_current_film Guest.refusing (inr Demo.press) Demo.user)
    Demo.browsing_matrix = Return tt
  ∧ storage (exec (show_current_film Guest.refusing (inr Demo.press) Demo.user)
               Demo.browsing_matrix) = storage Demo.browsing_matrix.
Proof.
  refine (let H := show_current_film_sends_anew Guest.refusing (inr Demo.press)
                      Demo.user Demo.chat 106 _ _ _ _ _ _ _ Py.OtherError
                      Demo.browsing_matrix _ _ _ _ _ _ _ _ _ _ _ _ in
          conj (proj1 H) (proj1 (proj2 (proj2 H))));
    try (vm_compute; reflexivity); discriminate.
Defined.

Lemma get_film_ratings_spec (env : Env) (watch_link : option string)
    (w w0 : World) (o : Outcome (string * string)) :
  get_film_ratings env watch_link w = (o, w0) →
  user_data w0 = user_data w ∧ storage w0 = storage w.
Proof.
  destruct (get_film_ratings_returns env watch_link w) as (k & i & w0' & -> & Hud & Hst).
  intros [= <- <-]. split; assumption.
Qed.

Lemma build_keyboard_ratings (u total : Z) (show_list : bool) (kb : Markup)
    (s : Session) (k i : string) (pos : nat) (w w1 : World) :
  build_keyboard u total show_list w = (Return kb, w) →
  user_data w !! u = Some s →
  user_data w1 !! u = Some (set_results (alter (set_ratings k i) pos (results s)) s) →
  build_keyboard u total show_list w1 = (Return kb, w1).
Proof.
  unfold build_keyboard. rewrite !bind_run, !user_data_get_run. intros H Hs Hs1.
  rewrite Hs in H. rewrite Hs1. rewrite !bind_run, !getitem_at_run in *.
  cbn [results current_index set_results]. rewrite length_alter.
  destruct (Py.norm_index _ _) as [p|]; [|discriminate H].
  rewrite list_lookup_alter.
  destruct (decide (pos = p)) as [->|_];
    (destruct (results s !! p) as [film|]; [|discriminate H]);
    injection H as <-; reflexivity.
Qed.

(** X16: the first showing of a record with a poster.  A session
    without message has nothing to edit: the ratings are asked for and stored on the record,
    the view is counted, and the record is sent as a new message, whose
    id becomes the session's [msg_id].  When the sending fails, its
    exception reaches the caller and the session stays without message. *)
Theorem first_showing_sends_the_record
    (env : Env) (message : Message + CallbackQuery) (u chat : Z) (s : Session)
    (pos : nat) (film : Film) (k i p : string) (kb : Markup) (w w0 : World) :
  user_data w !! u = Some s →
  Py.norm_index (length (results s)) (current_index s) = Some pos →
  results s !! pos = Some film →
  kp film = None → poster_url film = Some p →
  reply_chat message = Some chat →
  Py.truthy_oint (msg_id s) = false →
  get_film_ratings env (watch_link film) w = (Return (k, i), w0) →
  build_keyboard u (Py.len (results s)) true w = (Return kb, w) →
  db_call env (clock w0) = None →
  outcome (show_current_film env message u) w
  = match telegram_send env (S (clock w0)) with
    | inr _ => Return tt
    | inl e => Raise e
    end
  ∧ user_data (exec (show_current_film env message u) w)
    = <[u := set_msg_id
               match telegram_send env (S (clock w0)) with
               | inr sent => Some sent
               | inl _ => None
               end
               (set_results (alter (set_ratings k i) pos (results s)) s)]> (user_data w)
  ∧ ∃ db,
      trace (exec (show_current_film env message u) w)
      = SendPhoto chat (Some p)
          (film_caption (set_ratings k i film) k i (current_index s + 1)
             (Py.len (results s)) (query s)) kb
        :: DbExecute db :: trace w0.
Proof.
  intros Hs Hpos Hfilm Hkp Hposter Hchat Hm Hget Hkb Hdb.
  destruct (get_film_ratings_spec _ _ _ _ _ Hget) as [Hud0 _].
  unfold outcome, exec, show_current_film.
  rewrite bind_run, user_data_get_run, Hs.
  rewrite bind_run, getitem_at_run, Hpos, Hfilm.
  rewrite Hkp. rewrite bind_run. rewrite (bind_run (get_film_ratings _ _)), Hget.
  rewrite bind_run, user_data_update_run, Hud0, Hs. cbn [mret M_ret].
  set (s1 := set_results (alter (set_ratings k i) pos (results s)) s).
  rewrite bind_run. unfold db_execute. rewrite external__run.
  cbn [clock set_user_data]. rewrite Hdb.
  cbn [kp imdb set_ratings dict_item].
  rewrite bind_run. cbn [mret M_ret]. rewrite bind_run. cbn [mret M_ret].
  rewrite bind_run.
  match goal with |- context [build_keyboard u _ true ?w1] =>
    rewrite (build_keyboard_ratings u _ true kb s k i pos w w1 Hkb Hs)
      by (cbn [user_data push_event advance_clock set_user_data];
          apply lookup_insert_eq)
  end.
  rewrite Hchat. rewrite bind_run, user_data_get_run.
  cbn [user_data push_event advance_clock set_user_data]. rewrite lookup_insert_eq.
  assert (Hm1 : Py.truthy_oint (msg_id s1) = false) by exact Hm.
  rewrite bind_run. unfold photo_arg. cbn [poster_url set_ratings].
  rewrite Hposter. cbn [mret M_ret].
  unfold try_except.
  assert (Hraise : ∀ w', match msg_id s1 with
            | Some m =>
                if Py.truthy_oint (msg_id s1)
                then bot_edit_message_media env chat m (Some p)
                       (film_caption (set_ratings k i film) k i (current_index s + 1)
                          (Py.len (results s)) (query s)) kb
                else raise Py.OtherError
            | None => raise Py.OtherError
            end w' = (Raise Py.OtherError, w')).
  { intros w'. rewrite Hm1. destruct (msg_id s1); reflexivity. }
  change (current_index s1) with (current_index s).
  change (query s1) with (query s).
  rewrite Hraise. cbn [any_exception].
  rewrite bind_run, safe_delete_run.
  assert (Hdel : ∀ w', match msg_id s1 with
            | Some m =>
                if Py.truthy_oint (msg_id s1)
                then push_event (DeleteMessage chat m) (advance_clock w') else w'
            | None => w'
            end = w').
  { intros w'. rewrite Hm1. destruct (msg_id s1); reflexivity. }
  rewrite Hdel.
  rewrite bind_run, user_data_update_run.
  cbn [user_data push_event advance_clock set_user_data]. rewrite lookup_insert_eq.
  rewrite bind_run. unfold bot_send_photo. rewrite external_run.
  cbn [clock set_user_data push_event advance_clock].
  destruct (telegram_send env (S (clock w0))) as [e'|sent].
  - cbn [fst snd user_data storage trace push_event advance_clock set_user_data].
    rewrite insert_insert_eq, Hud0.
    repeat split; try reflexivity. eexists. reflexivity.
  - rewrite user_data_update_run.
    cbn [user_data push_event advance_clock set_user_data]. rewrite lookup_insert_eq.
    cbn [fst snd user_data storage trace push_event advance_clock set_user_data].
    rewrite !insert_insert_eq, Hud0.
    repeat split; try reflexivity. eexists. reflexivity.
Qed.

Lemma first_showing_sends_the_record_witness :
  outcome (show_current_film Demo.env (inr Demo.press) Demo.user) Demo.found_new
  = Return tt.
Proof.
  refine (let H := first_showing_sends_the_record Demo.env (inr Demo.press)
                      Demo.user Demo.chat _ _ _ _ _ _ _ Demo.found_new _
                      _ _ _ _ _ _ _ _ _ _ in
          proj1 H);
    vm_compute; reflexivity.
Defined.

(** ** There and back *)

Lemma user_data_contains_run_none (u : Z) (w : World) :
  user_data w !! u = None →
  user_data_contains (Some u) w = (Return false, w).
Proof.
  intros Hs. unfold user_data_contains, get_world. rewrite bind_run.
  rewrite bool_decide_eq_false_2 by (rewrite Hs; intros [? ?]; discriminate).
  reflexivity.
Qed.

(** One move: the index of the user's session goes by one, whatever the
    rendering does afterwards. *)
Lemma handle_navigation_moves (env : Env) (cb : CallbackQuery) (state : Z * Z)
    (action : string) (d : Z) (w : World) :
  (action = "prev" ∧ d = -1) ∨ (action = "next" ∧ d = 1) →
  core <$> user_data (exec (handle_navigation env cb {| nav_action := action |} state) w)
  = match cb_message_chat cb with
    | Some _ => alter (moved d) (cb_from_user cb) (core <$> user_data w)
    | None => core <$> user_data w
    end.
Proof.
  intros Hd. unfold exec, handle_navigation.
  destruct (cb_message_chat cb) as [chat|]; [|reflexivity].
  destruct (user_data w !! cb_from_user cb) as [s|] eqn:Hs.
  - rewrite bind_run, (user_data_contains_run _ s) by exact Hs. cbn [negb].
    rewrite bind_run, user_data_get_run, Hs. cbn [nav_action].
    assert (Hcore : ∀ s', core s' = moved d (core s) →
              core <$> user_data
                (show_current_film env (inr cb) (cb_from_user cb)
                   (set_user_data (insert (cb_from_user cb) s') w)).2
              = alter (moved d) (cb_from_user cb) (core <$> user_data w)).
    { intros s' Hs'.
      destruct (frame_show_show_current_film env
                  (set_user_data (insert (cb_from_user cb) s') w) (inr cb)
                  (cb_from_user cb) _ (frame_show_refl _)) as (_ & Hud & _).
      unfold exec in Hud. rewrite Hud. cbn [user_data set_user_data].
      rewrite fmap_insert, Hs'. apply map_eq. intros u.
      rewrite lookup_alter, lookup_insert, !lookup_fmap.
      case_decide as Hu; [subst u; rewrite Hs|]; reflexivity. }
    destruct Hd as [[-> ->]|[-> ->]].
    + change (String.eqb "prev" "prev") with true. cbn iota.
      rewrite bind_run, user_data_update_run, Hs. apply Hcore. reflexivity.
    + change (String.eqb "next" "prev") with false.
      change (String.eqb "next" "next") with true. cbn iota.
      rewrite bind_run, user_data_update_run, Hs. apply Hcore. reflexivity.
  - rewrite bind_run, user_data_contains_run_none by exact Hs. cbn [negb].
    unfold callback_answer. rewrite external__run.
    cbn [snd user_data push_event advance_clock].
    apply map_eq. intros u. rewrite lookup_alter, !lookup_fmap.
    case_decide as Hu; [subst u; rewrite Hs|]; reflexivity.
Qed.

(** X17: [next] and [prev] undo each other.  After the one and then the
    other, in either order, every session has the index, the number of
    records, the query and the list message it had before: also when a
    rendering in between failed, when the move left the list of records,
    and when the user has no session at all. *)
Theorem next_and_prev_undo_each_other
    (env : Env) (cb : CallbackQuery) (state state' : Z * Z) (w : World) :
  core <$> user_data
    (exec (handle_navigation env cb {| nav_action := "prev" |} state')
       (exec (handle_navigation env cb {| nav_action := "next" |} state) w))
  = core <$> user_data w
  ∧ core <$> user_data
      (exec (handle_navigation env cb {| nav_action := "next" |} state')
         (exec (handle_navigation env cb {| nav_action := "prev" |} state) w))
    = core <$> user_data w.
Proof.
  assert (Hback : ∀ d (m : gmap Z (Z * nat * string * option Z)) u,
            alter (moved (- d)) u (alter (moved d) u m) = m).
  { intros d m u. apply map_eq. intros u'. rewrite !lookup_alter.
    case_decide as Hu; [subst u'|reflexivity].
    rewrite decide_True by reflexivity.
    destruct (m !! u) as [[[[i n] q] l]|]; [|reflexivity].
    cbn. do 4 f_equal. lia. }
  split.
  - rewrite (handle_navigation_moves env cb state' "prev" (-1)) by (left; split; reflexivity).
    rewrite (handle_navigation_moves env cb state "next" 1) by (right; split; reflexivity).
    destruct (cb_message_chat cb); [apply (Hback 1)|reflexivity].
  - rewrite (handle_navigation_moves env cb state' "next" 1) by (right; split; reflexivity).
    rewrite (handle_navigation_moves env cb state "prev" (-1)) by (left; split; reflexivity).
    destruct (cb_message_chat cb); [apply (Hback (-1))|reflexivity].
Qed.

(** ** Presses and numbers that find no session *)

(** X18: a stale press or number.  A navigation press or a confirmation
    of a user without session, and a number typed in a conversation whose
    FSM data name no user with a session, are answered by one notice and
    nothing else: no session appears and no record is shown.  The
    confirmation and the number clear the FSM record of the conversation;
    the navigation press leaves it as it is. *)
Theorem stale_session_is_told
    (env : Env) (cb : CallbackQuery) (nav : NavCallback) (cbd : ConfirmCallback)
    (message : Message) (text : string) (state : Z * Z) (chat sent : Z) (w : World) :
  cb_message_chat cb = Some chat →
  user_data w !! cb_from_user cb = None →
  m_text message = Some text → Py.truthy_str text = true →
  (∀ u, fsm_data (fsm_lookup state w) !! "user_id" = Some u → user_data w !! u = None) →
  telegram_call env (clock w) = None →
  telegram_send env (clock w) = inr sent →
  handle_navigation env cb nav state w
  = (Return tt,
     push_event (AnswerCallback (Some "Сделай новый поиск!") true) (advance_clock w))
  ∧ confirm_yes env cb cbd state w
    = (Return tt,
       set_storage (insert state fsm_empty)
         (push_event (AnswerCallback (Some "Сессия устарела") true) (advance_clock w)))
  ∧ handle_number_choice env message state w
    = (Return tt,
       set_storage (insert state fsm_empty)
         (push_event (SendMessage (m_chat message) "Поиск устарел. Сделай новый запрос." [])
            (advance_clock w))).
Proof.
  intros Hchat Hs Htext Ht Hfsm Hcall Hsend. repeat split.
  - unfold handle_navigation. rewrite Hchat.
    rewrite bind_run, user_data_contains_run_none by exact Hs. cbn [negb].
    unfold callback_answer. rewrite external__run, Hcall. reflexivity.
  - unfold confirm_yes. rewrite Hchat.
    rewrite bind_run. unfold state_get_data at 1, get_world at 1. rewrite bind_run.
    cbn [mret M_ret].
    rewrite bind_run, user_data_contains_run_none by exact Hs. cbn [negb].
    rewrite bind_run. unfold callback_answer. rewrite external__run, Hcall.
    reflexivity.
  - unfold handle_number_choice. rewrite Htext, Ht. cbn [negb].
    rewrite bind_run. unfold state_get_data at 1, get_world at 1. rewrite bind_run.
    cbn [mret M_ret].
    assert (Hnone : user_data_contains (fsm_data (fsm_lookup state w) !! "user_id") w
                    = (Return false, w)).
    { destruct (fsm_data (fsm_lookup state w) !! "user_id") as [u|] eqn:Hu.
      - apply user_data_contains_run_none, Hfsm. reflexivity.
      - reflexivity. }
    rewrite bind_run, Hnone. cbn [negb].
    rewrite bind_run. unfold message_answer. rewrite external_run, Hsend.
    reflexivity.
Qed.

Lemma stale_session_is_told_witness :
  outcome (handle_navigation Demo.env Demo.press (Demo.nav "next") Demo.state) Demo.start
  = Return tt
  ∧ user_data (exec (handle_number_choice Demo.env (Demo.says "2") Demo.state) Demo.start)
    = ∅.
Proof.
  refine (let H := stale_session_is_told Demo.env Demo.press (Demo.nav "next")
                     (Demo.yes 1) (Demo.says "2") "2" Demo.state Demo.chat 100
                     Demo.start _ _ _ _ _ _ _ in
          conj (f_equal fst (proj1 H))
               (f_equal (λ r, user_data (snd r)) (proj2 (proj2 H))));
    vm_compute; reflexivity.
Defined.

(** ** The list of variants *)

Lemma fsm_lookup_insert (state : Z * Z) (r : FSMRecord) (w : World) :
  fsm_lookup state (set_storage (insert state r) w) = r.
Proof. unfold fsm_lookup. cbn [storage set_storage]. rewrite lookup_insert_eq. reflexivity. Qed.

Lemma state_set_state_run (state : Z * Z) (st : ChooseFilm) (w : World) :
  state_set_state state st w
  = (Return tt,
     set_storage (insert state
       {| fsm_state := Some st; fsm_data := fsm_data (fsm_lookup state w) |}) w).
Proof. reflexivity. Qed.

Lemma state_set_data_run (state : Z * Z) (d : gmap string Z) (w : World) :
  state_set_data state d w
  = (Return tt,
     set_storage (insert state
       {| fsm_state := fsm_state (fsm_lookup state w); fsm_data := d |}) w).
Proof. reflexivity. Qed.

(** X19: opening the list.  The press is answered, the list that was
    open (if any) is taken off the screen, the list is sent with the one
    button that closes it, and its message becomes the session's list
    message.  The conversation then awaits a number, and its FSM data
    are replaced by the id of the user alone.  Index, records and the
    message of the record are not touched. *)
Theorem opening_the_list_awaits_a_number
    (env : Env) (cb : CallbackQuery) (state : Z * Z) (chat sent : Z)
    (s : Session) (w : World) :
  cb_message_chat cb = Some chat →
  user_data w !! cb_from_user cb = Some s →
  telegram_call env (clock w) = None →
  telegram_send env (S (clock w) + length (deleted chat (list_msg_id s))) = inr sent →
  outcome (handle_navigation env cb {| nav_action := "list" |} state) w = Return tt
  ∧ user_data (exec (handle_navigation env cb {| nav_action := "list" |} state) w)
    = <[cb_from_user cb := set_list_msg_id (Some sent) s]> (user_data w)
  ∧ fsm_lookup state (exec (handle_navigation env cb {| nav_action := "list" |} state) w)
    = {| fsm_state := Some waiting_for_number;
         fsm_data := {[ "user_id" := cb_from_user cb ]} |}
  ∧ trace (exec (handle_navigation env cb {| nav_action := "list" |} state) w)
    = SendMessage chat (list_text env (results s)) [[close_button]]
      :: deleted chat (list_msg_id s) ++ AnswerCallback None false :: trace w.
Proof.
  intros Hchat Hs Hcall Hsend. unfold outcome, exec, handle_navigation.
  rewrite Hchat, bind_run, (user_data_contains_run _ s) by exact Hs. cbn [negb].
  rewrite bind_run, user_data_get_run, Hs. cbn [nav_action].
  change (String.eqb "list" "prev") with false.
  change (String.eqb "list" "next") with false.
  change (String.eqb "list" "list") with true. cbn iota.
  rewrite bind_run. unfold callback_answer. rewrite external__run, Hcall.
  unfold show_list_variants. rewrite Hchat.
  rewrite bind_run, user_data_get_run. cbn [user_data push_event advance_clock].
  rewrite Hs. rewrite bind_run, safe_delete_run.
  set (w1 := push_event (AnswerCallback None false) (advance_clock w)).
  assert (Hdel : ∃ w2,
            match list_msg_id s with
            | Some m =>
                if Py.truthy_oint (list_msg_id s)
                then push_event (DeleteMessage chat m) (advance_clock w1) else w1
            | None => w1
            end = w2
            ∧ user_data w2 = user_data w ∧ storage w2 = storage w
            ∧ clock w2 = (S (clock w) + length (deleted chat (list_msg_id s)))%nat
            ∧ trace w2 = deleted chat (list_msg_id s) ++ AnswerCallback None false :: trace w).
  { eexists. split; [reflexivity|]. unfold deleted.
    destruct (list_msg_id s) as [m|]; [destruct (Py.truthy_oint (Some m))|];
      cbn; repeat split; try reflexivity; f_equal; lia. }
  destruct Hdel as (w2 & -> & Hud & Hst & Hclock & Htrace).
  rewrite bind_run. unfold message_answer. rewrite external_run, Hclock, Hsend.
  rewrite bind_run, user_data_update_run.
  cbn [user_data push_event advance_clock]. rewrite Hud, Hs.
  rewrite bind_run, state_set_state_run, state_set_data_run.
  cbn [fst snd]. rewrite fsm_lookup_insert.
  cbn [user_data storage trace set_storage set_user_data push_event advance_clock
       fsm_state fsm_data].
  rewrite Hud, Htrace. repeat split.
  apply fsm_lookup_insert.
Qed.

Lemma opening_the_list_awaits_a_number_witness :
  outcome (handle_navigation Demo.env Demo.press {| nav_action := "list" |} Demo.state)
    Demo.browsing_matrix = Return tt
  ∧ fsm_lookup Demo.state Demo.awaiting_matrix
    = {| fsm_state := Some waiting_for_number;
         fsm_data := {[ "user_id" := Demo.user ]} |}.
Proof.
  refine (let H := opening_the_list_awaits_a_number Demo.env Demo.press Demo.state
                     Demo.chat _ _ Demo.browsing_matrix _ _ _ _ in
          conj (proj1 H) (proj1 (proj2 (proj2 H))));
    vm_compute; reflexivity.
Defined.

(** What [safe_delete] leaves of a world. *)
Lemma safe_delete_world (chat : Z) (m : option Z) (w : World) :
  ∃ w',
    match m with
    | Some i =>
        if Py.truthy_oint m then push_event (DeleteMessage chat i) (advance_clock w) else w
    | None => w
    end = w'
    ∧ user_data w' = user_data w ∧ storage w' = storage w
    ∧ clock w' = (clock w + length (deleted chat m))%nat
    ∧ trace w' = deleted chat m ++ trace w.
Proof.
  eexists. split; [reflexivity|]. unfold deleted.
  destruct m as [i|]; [destruct (Py.truthy_oint (Some i))|];
    cbn; repeat split; try reflexivity; lia.
Qed.

(** X20: closing the list.  The press is answered, the list message (if
    there is one) is taken off the screen and forgotten, and the FSM
    record of the conversation is cleared: the bot no longer awaits a
    number.  The record on the screen is not rendered again, and index
    and records stay. *)
Theorem closing_the_list_ends_the_choice
    (env : Env) (cb : CallbackQuery) (state : Z * Z) (chat : Z)
    (s : Session) (w : World) :
  cb_message_chat cb = Some chat →
  user_data w !! cb_from_user cb = Some s →
  telegram_call env (clock w) = None →
  outcome (handle_navigation env cb {| nav_action := "close_list" |} state) w = Return tt
  ∧ user_data (exec (handle_navigation env cb {| nav_action := "close_list" |} state) w)
    = (if Py.truthy_oint (list_msg_id s)
       then <[cb_from_user cb := set_list_msg_id None s]> (user_data w)
       else user_data w)
  ∧ fsm_lookup state
      (exec (handle_navigation env cb {| nav_action := "close_list" |} state) w)
    = fsm_empty
  ∧ trace (exec (handle_navigation env cb {| nav_action := "close_list" |} state) w)
    = deleted chat (list_msg_id s) ++ AnswerCallback None false :: trace w.
Proof.
  intros Hchat Hs Hcall. unfold outcome, exec, handle_navigation.
  rewrite Hchat, bind_run, (user_data_contains_run _ s) by exact Hs. cbn [negb].
  rewrite bind_run, user_data_get_run, Hs. cbn [nav_action].
  change (String.eqb "close_list" "prev") with false.
  change (String.eqb "close_list" "next") with false.
  change (String.eqb "close_list" "list") with false.
  change (String.eqb "close_list" "close_list") with true. cbn iota.
  rewrite bind_run. unfold callback_answer. rewrite external__run, Hcall.
  rewrite bind_run. unfold deleted.
  destruct (list_msg_id s) as [m|] eqn:Hm; [destruct (Py.truthy_oint (Some m)) eqn:Ht|].
  - rewrite bind_run, safe_delete_run, Ht, user_data_update_run.
    cbn [user_data push_event advance_clock]. rewrite Hs.
    unfold state_clear, modify. cbn [fst snd]. rewrite fsm_lookup_insert.
    repeat split.
  - cbn [mret M_ret]. unfold state_clear, modify. cbn [fst snd].
    rewrite fsm_lookup_insert. repeat split.
  - cbn [Py.truthy_oint mret M_ret]. unfold state_clear, modify. cbn [fst snd].
    rewrite fsm_lookup_insert. repeat split.
Qed.

Lemma closing_the_list_ends_the_choice_witness :
  fsm_state (fsm_lookup Demo.state Demo.awaiting_matrix) = Some waiting_for_number
  ∧ fsm_lookup Demo.state
      (exec (handle_navigation Demo.env Demo.press {| nav_action := "close_list" |}
               Demo.state) Demo.awaiting_matrix)
    = fsm_empty.
Proof.
  split; [vm_compute; reflexivity|].
  refine (let H := closing_the_list_ends_the_choice Demo.env Demo.press Demo.state
                     Demo.chat _ Demo.awaiting_matrix _ _ _ in
          proj1 (proj2 (proj2 H)));
    vm_compute; reflexivity.
Defined.

Lemma close_list_run (env : Env) (u chat : Z) (w : World) :
  close_list env u chat w
  = (Return tt,
     match user_data w !! u with
     | Some s =>
         match list_msg_id s with
         | Some m =>
             if Py.truthy_oint (list_msg_id s)
             then set_user_data (insert u (set_list_msg_id None s))
                    (push_event (DeleteMessage chat m) (advance_clock w))
             else w
         | None => w
         end
     | None => w
     end).
Proof.
  unfold close_list. rewrite bind_run. unfold get_world at 1.
  destruct (user_data w !! u) as [s|] eqn:Hs; [|reflexivity].
  destruct (list_msg_id s) as [m|] eqn:Hm; [|reflexivity].
  destruct (Py.truthy_oint (Some m)); [|reflexivity].
  rewrite bind_run. unfold try_except, bot_delete_message. rewrite external__run.
  destruct (telegram_call env (clock w)) as [e|];
    cbn [any_exception mret M_ret];
    rewrite user_data_update_run; cbn [user_data push_event advance_clock];
    rewrite Hs; reflexivity.
Qed.

(** X21: [close_list] closes once.  It never raises, whatever Telegram
    answers to the deletion, and leaves the FSM storage alone.  When the
    user has a session with a list message, it makes one call, the
    deletion of that message, and sets the session's list message to
    [None]; otherwise it does nothing.  No other session and nothing
    else of the user's session changes.  Run again, it finds no list and
    does nothing: no call is made. *)
Theorem close_list_closes_once
    (env : Env) (u chat chat' : Z) (w : World) :
  outcome (close_list env u chat) w = Return tt
  ∧ storage (exec (close_list env u chat) w) = storage w
  ∧ user_data (exec (close_list env u chat) w)
    = match user_data w !! u with
      | Some s =>
          if Py.truthy_oint (list_msg_id s)
          then <[u := set_list_msg_id None s]> (user_data w)
          else user_data w
      | None => user_data w
      end
  ∧ trace (exec (close_list env u chat) w)
    = match user_data w !! u with
      | Some s => deleted chat (list_msg_id s)
      | None => []
      end ++ trace w
  ∧ close_list env u chat' (exec (close_list env u chat) w)
    = (Return tt, exec (close_list env u chat) w).
Proof.
  unfold outcome, exec, deleted.
  rewrite (close_list_run env u chat' _), !close_list_run.
  cbn [fst snd].
  destruct (user_data w !! u) as [s|] eqn:Hs.
  - destruct (list_msg_id s) as [m|] eqn:Hm;
      [destruct (Py.truthy_oint (Some m)) eqn:Ht|].
    + cbn [storage user_data trace set_user_data push_event advance_clock].
      rewrite lookup_insert_eq. repeat split.
    + rewrite Hs, Hm, Ht. repeat split.
    + rewrite Hs, Hm. repeat split.
  - rewrite Hs. repeat split.
Qed.

(** X22: rejecting the question.  The question is taken off the screen
    and the press answered; the conversation awaits a number again, with
    the FSM data it had, and no session is touched.  When Telegram
    refuses the answer to the press, the exception reaches the caller
    and the FSM record stays as it was. *)
Theorem rejecting_awaits_a_number_again
    (env : Env) (cb : CallbackQuery) (state : Z * Z) (chat : Z) (w : World) :
  cb_message_chat cb = Some chat →
  let question := fsm_data (fsm_lookup state w) !! "confirm_msg_id" in
  user_data (exec (confirm_no env cb state) w) = user_data w
  ∧ trace (exec (confirm_no env cb state) w)
    = AnswerCallback (Some "Выберите другой номер") false
      :: deleted chat question ++ trace w
  ∧ match telegram_call env (clock w + length (deleted chat question)) with
    | None =>
        outcome (confirm_no env cb state) w = Return tt
        ∧ fsm_lookup state (exec (confirm_no env cb state) w)
          = {| fsm_state := Some waiting_for_number;
               fsm_data := fsm_data (fsm_lookup state w) |}
    | Some e =>
        outcome (confirm_no env cb state) w = Raise e
        ∧ storage (exec (confirm_no env cb state) w) = storage w
    end.
Proof.
  intros Hchat question. unfold outcome, exec, confirm_no. rewrite Hchat.
  rewrite bind_run. unfold state_get_data, get_world. rewrite bind_run.
  cbn [mret M_ret]. fold question.
  rewrite bind_run, safe_delete_run.
  destruct (safe_delete_world chat question w) as (w1 & -> & Hud & Hst & Hclock & Htrace).
  rewrite bind_run. unfold callback_answer. rewrite external__run, Hclock.
  destruct (telegram_call env (clock w + length (deleted chat question))) as [e|].
  - cbn [fst snd user_data storage trace push_event advance_clock].
    rewrite Hud, Hst, Htrace. repeat split.
  - rewrite state_set_state_run.
    cbn [fst snd user_data storage trace push_event advance_clock set_storage].
    rewrite Hud, Htrace. repeat split.
    rewrite fsm_lookup_insert. unfold fsm_lookup.
    cbn [storage push_event advance_clock]. rewrite Hst. reflexivity.
Qed.

Lemma rejecting_awaits_a_number_again_witness :
  fsm_state (fsm_lookup Demo.state Demo.old_confirming) = Some confirming_choice
  ∧ user_data (exec (confirm_no Demo.env Demo.press Demo.state) Demo.old_confirming)
    = user_data Demo.old_confirming.
Proof.
  split; [vm_compute; reflexivity|].
  refine (let H := rejecting_awaits_a_number_again Demo.env Demo.press Demo.state
                     Demo.chat Demo.old_confirming _ in
          proj1 H);
    vm_compute; reflexivity.
Defined.

(** ** The texts of Python, character by character *)

(** White space is not one byte wide only: a no-break space (U+00A0) in
    front and an em space (U+2003) behind are stripped. *)
Lemma strip_takes_wide_spaces :
  Py.strip (String (ascii_of_nat 194) (String (ascii_of_nat 160) "new")
            +:+ String (ascii_of_nat 226) (String (ascii_of_nat 128)
                  (String (ascii_of_nat 131) EmptyString)))
  = "new".
Proof. vm_compute. reflexivity. Qed.

(** A title of 64 characters and 120 bytes is listed whole; one of 81
    characters is cut after the 77th. *)
Lemma list_line_counts_characters :
  let short := "Невероятные приключения итальянцев в России и другие истории два" in
  let long :=
    "Невероятные приключения итальянцев в России и другие истории о кино и людях в нём" in
  let line t i :=
    list_line i {| title := t; year := EmptyString; rating := "8.1"; poster_url := None;
                   watch_link := None; kp := None; imdb := None |} in
  Py.str_len short = 64 ∧ String.length short = 120%nat
  ∧ line short 1 = "<b>1.</b> " +:+ short +:+ " — ⭐ 8.1" +:+ nl
  ∧ Py.str_len long = 81
  ∧ line long 2
    = "<b>2.</b> "
      +:+ "Невероятные приключения итальянцев в России и другие истории о кино и людях в"
      +:+ "... — ⭐ 8.1" +:+ nl.
Proof. vm_compute. repeat split. Qed.

(** [int] reads the decimal digits of every script, and white space
    around them: Arabic-Indic twelve, and twelve with a line feed. *)
Lemma int_reads_the_digits_of_every_script :
  Py.int "١٢" = Some 12
  ∧ Py.int ("12" +:+ nl) = Some 12
  ∧ Py.int "12a" = None
  ∧ Py.int "1_000" = Some 1000
  ∧ Py.int "-3" = Some (-3).
Proof. vm_compute. repeat split. Qed.

(** ** Records without poster *)

Lemma build_keyboard_reads (u total : Z) (show_list : bool) (w : World) :
  ∃ o, build_keyboard u total show_list w = (o, w).
Proof.
  unfold build_keyboard. rewrite bind_run, user_data_get_run.
  destruct (user_data w !! u) as [s|]; [|eauto].
  rewrite bind_run, getitem_at_run.
  destruct (Py.norm_index _ _) as [pos|]; [|eauto].
  destruct (results s !! pos) as [film|]; eauto.
Qed.

Lemma get_film_ratings_fetches (env : Env) (watch_link : option string) (w : World) :
  ∃ k i w0, get_film_ratings env watch_link w = (Return (k, i), w0)
    ∧ user_data w0 = user_data w
    ∧ ∃ evs, trace w0 = evs ++ trace w
        ∧ Forall (λ ev, match ev with HttpGet _ | DbExecute _ => True | _ => False end) evs.
Proof.
  assert (Hnone : ∃ evs, trace w = evs ++ trace w
            ∧ Forall (λ ev, match ev with HttpGet _ | DbExecute _ => True | _ => False end)
                evs).
  { exists []. split; [reflexivity|constructor]. }
  unfold get_film_ratings. destruct watch_link as [link|]; [|eauto 8].
  destruct (Py.truthy_str link); cbn [negb]; [|eauto 8].
  rewrite bind_run. unfold try_except. rewrite bind_run, session_get_run.
  assert (Hone : ∃ evs, trace (push_event (HttpGet link) (advance_clock w)) = evs ++ trace w
            ∧ Forall (λ ev, match ev with HttpGet _ | DbExecute _ => True | _ => False end)
                evs).
  { exists [HttpGet link]. split; [reflexivity|]. repeat constructor. }
  destruct (http_get env (clock w) link) as [e|[status html]]; cbn [any_exception mret M_ret].
  - eauto 8.
  - destruct (status =? 200); [|eauto 8].
    destruct (Html.rating_dd html); eauto 8.
Qed.

(** X23: a record without poster is never shown.  Whatever the outside
    answers, [show_current_film] of such a record raises: the only calls
    it makes are the request for the ratings and the count of the view,
    no message is edited, deleted or sent, and the message of the
    session stays the one it was. *)
Theorem poster_less_record_is_not_shown
    (env : Env) (message : Message + CallbackQuery) (u chat : Z) (s : Session)
    (pos : nat) (film : Film) (w : World) :
  user_data w !! u = Some s →
  Py.norm_index (length (results s)) (current_index s) = Some pos →
  results s !! pos = Some film →
  poster_url film = None →
  reply_chat message = Some chat →
  (∃ e, outcome (show_current_film env message u) w = Raise e)
  ∧ (∃ evs, trace (exec (show_current_film env message u) w) = evs ++ trace w
       ∧ Forall (λ ev, match ev with HttpGet _ | DbExecute _ => True | _ => False end) evs)
  ∧ msg_id <$> user_data (exec (show_current_film env message u) w) !! u
    = Some (msg_id s).
Proof.
  intros Hs Hpos Hfilm Hposter Hchat.
  set (quiet := λ ev, match ev with HttpGet _ | DbExecute _ => True | _ => False end).
  destruct (show_current_film env message u w) as [o w'] eqn:Hrun.
  unfold outcome, exec. rewrite Hrun. cbn [fst snd]. revert Hrun.
  unfold show_current_film.
  rewrite bind_run, user_data_get_run, Hs.
  rewrite bind_run, getitem_at_run, Hpos, Hfilm.
  match goal with
  | |- context [mbind ?k ?m w] =>
      lazymatch m with context [kp film] => set (K := k) end
  end.
  assert (HK : ∀ result w1 s1 o1 w2,
            poster_url result = None → user_data w1 !! u = Some s1 →
            K result w1 = (o1, w2) →
            (∃ e, o1 = Raise e)
            ∧ (∃ evs, trace w2 = evs ++ trace w1 ∧ Forall quiet evs)
            ∧ user_data w2 = user_data w1).
  { intros result w1 s1 o1 w2 Hp Hs1. unfold K.
    assert (Hdb : ∃ evs, trace (push_event (DbExecute (UpsertStats u
                    (title result +:+
                     (if Py.truthy_str (year result)
                      then " (" +:+ year result +:+ ")" else EmptyString))))
                    (advance_clock w1)) = evs ++ trace w1 ∧ Forall quiet evs).
    { eexists [_]. split; [reflexivity|]. repeat constructor. }
    rewrite bind_run. unfold db_execute. rewrite external__run.
    destruct (db_call env (clock w1)) as [e|]; [intros [= <- <-]; eauto|].
    rewrite bind_run.
    destruct (kp result) as [k|]; cbn [dict_item mret M_ret raise];
      [|intros [= <- <-]; eauto].
    rewrite bind_run.
    destruct (imdb result) as [i|]; cbn [dict_item mret M_ret raise];
      [|intros [= <- <-]; eauto].
    rewrite bind_run.
    match goal with |- context [build_keyboard ?a ?b ?c ?d] =>
      destruct (build_keyboard_reads a b c d) as [okb ->] end.
    destruct okb as [kb|e]; [|intros [= <- <-]; eauto].
    rewrite Hchat. rewrite bind_run, user_data_get_run.
    cbn [user_data push_event advance_clock]. rewrite Hs1.
    rewrite bind_run. unfold photo_arg. rewrite Hp.
    intros [= <- <-]. eauto. }
  rewrite bind_run.
  destruct (kp film) as [k|] eqn:Hkp.
  - cbn [mret M_ret]. intros Hrun.
    destruct (HK film w s o w' Hposter Hs Hrun) as (He & Hev & Hud).
    split; [exact He|]. split; [exact Hev|]. rewrite Hud, Hs. reflexivity.
  - rewrite bind_run.
    destruct (get_film_ratings_fetches env (watch_link film) w)
      as (k & i & w0 & -> & Hud0 & evs0 & Htr0 & Hq0).
    rewrite bind_run, user_data_update_run, Hud0, Hs. cbn [mret M_ret].
    intros Hrun.
    destruct (HK (set_ratings k i film) _
                (set_results (alter (set_ratings k i) pos (results s)) s) _ _
                Hposter (lookup_insert_eq _ _ _) Hrun) as (He & (evs & Htr & Hq) & Hud).
    split; [exact He|]. split.
    + exists (evs ++ evs0). rewrite Htr. cbn [trace set_user_data].
      rewrite Htr0, app_assoc. split; [reflexivity|].
      apply Forall_app. split; assumption.
    + rewrite Hud. cbn [user_data set_user_data].
      rewrite lookup_insert_eq. reflexivity.
Qed.

Lemma poster_less_record_is_not_shown_witness :
  poster_url <$> results Plain.session !! 0%nat = Some None
  ∧ ∃ e, outcome (show_current_film Demo.env (inr Demo.press) Demo.user) Plain.found
         = Raise e.
Proof.
  split; [vm_compute; reflexivity|].
  refine (proj1 (poster_less_record_is_not_shown Demo.env (inr Demo.press) Demo.user
                   Demo.chat Plain.session 0%nat _ Plain.found _ _ _ _ _));
    vm_compute; reflexivity.
Defined.

(** ** The view a new search leaves behind *)

(** X24: a new search freezes the old view.  When the user has a session
    with a message and the index of a record, the search first takes the
    open list off the screen and then edits the message of the old
    record: its keyboard becomes the one button that opens the film, so
    that the old message offers no navigation any more.  When the old
    record has no poster the edit is not attempted, and when Telegram
    refuses the edit it has failed: in both cases the old message is
    deleted instead. *)
Theorem new_search_freezes_the_old_view
    (env : Env) (message : Message) (state : Z * Z) (u : Z) (text : string)
    (old : Session) (m : Z) (pos : nat) (old_result : Film) (w : World) :
  m_from_user message = Some u → m_text message = Some text →
  Py.truthy_str text = true →
  user_data w !! u = Some old →
  msg_id old = Some m → m ≠ 0 →
  Py.norm_index (length (results old)) (current_index old) = Some pos →
  results old !! pos = Some old_result →
  ∃ later,
    trace (exec (handle_search env message state) w)
    = later
      ++ match poster_url old_result with
         | Some p =>
             match telegram_call env
                     (clock w + length (deleted (m_chat message) (list_msg_id old))) with
             | Some _ => [DeleteMessage (m_chat message) m]
             | None => []
             end
             ++ [EditMessageMedia (m_chat message) m (Some p)
                   (frozen_caption old_result (query old))
                   [[UrlButton "🎬 Смотреть онлайн" (watch_link old_result)]]]
         | None => [DeleteMessage (m_chat message) m]
         end
      ++ deleted (m_chat message) (list_msg_id old) ++ trace w.
Proof.
  intros Hu Htext Ht Hold Hm Hm0 Hpos Hres.
  set (frozen := match poster_url old_result with
                 | Some p =>
                     match telegram_call env
                             (clock w
                              + length (deleted (m_chat message) (list_msg_id old))) with
                     | Some _ => [DeleteMessage (m_chat message) m]
                     | None => []
                     end
                     ++ [EditMessageMedia (m_chat message) m (Some p)
                           (frozen_caption old_result (query old))
                           [[UrlButton "🎬 Смотреть онлайн" (watch_link old_result)]]]
                 | None => [DeleteMessage (m_chat message) m]
                 end
                 ++ deleted (m_chat message) (list_msg_id old) ++ trace w).
  change (frozen `suffix_of` trace (exec (handle_search env message state) w)).
  unfold handle_search, exec. rewrite Hu, Htext, Ht. cbn [negb].
  rewrite bind_run. unfold state_clear at 1, modify at 1.
  set (w0 := set_storage (insert state fsm_empty) w).
  rewrite bind_run, (user_data_contains_run u old w0) by exact Hold.
  match goal with |- context [mbind ?k (mbind _ (user_data_get u))] => set (K := k) end.
  assert (HK : inv (λ w1, frozen `suffix_of` trace w1) (K tt)).
  { unfold K, parse_zona_results.
    repeat foot_step;
      intros; first [assumption | apply suffix_cons_r; assumption]. }
  rewrite bind_run, bind_run, user_data_get_run.
  change (user_data w0) with (user_data w). rewrite Hold.
  rewrite bind_run, safe_delete_run.
  destruct (safe_delete_world (m_chat message) (list_msg_id old) w0)
    as (w1 & -> & Hud1 & Hst1 & Hclock1 & Htrace1).
  change (clock w0) with (clock w) in Hclock1.
  change (trace w0) with (trace w) in Htrace1.
  rewrite bind_run, Hm. cbn [Py.truthy_oint].
  rewrite (proj2 (Z.eqb_neq m 0) Hm0). cbn [negb].
  unfold try_except. rewrite bind_run, getitem_at_run, Hpos, Hres.
  rewrite bind_run. unfold photo_arg.
  assert (Hfrozen : frozen
            = match poster_url old_result with
              | Some p =>
                  match telegram_call env (clock w1) with
                  | Some _ => [DeleteMessage (m_chat message) m]
                  | None => []
                  end
                  ++ [EditMessageMedia (m_chat message) m (Some p)
                        (frozen_caption old_result (query old))
                        [[UrlButton "🎬 Смотреть онлайн" (watch_link old_result)]]]
              | None => [DeleteMessage (m_chat message) m]
              end ++ trace w1).
  { unfold frozen. rewrite Hclock1, Htrace1. reflexivity. }
  destruct (poster_url old_result) as [p|]; cbn [mret M_ret raise any_exception].
  - unfold bot_edit_message_media. rewrite external__run.
    destruct (telegram_call env (clock w1)) as [e|]; cbn [any_exception].
    + rewrite safe_delete_run. cbn [Py.truthy_oint].
      rewrite (proj2 (Z.eqb_neq m 0) Hm0). cbn [negb].
      unfold modify at 1. apply (inv_apply _ (K tt) _ HK).
      rewrite Hfrozen. reflexivity.
    + unfold modify at 1. apply (inv_apply _ (K tt) _ HK).
      rewrite Hfrozen. reflexivity.
  - rewrite safe_delete_run. cbn [Py.truthy_oint].
    rewrite (proj2 (Z.eqb_neq m 0) Hm0). cbn [negb].
    unfold modify at 1. apply (inv_apply _ (K tt) _ HK).
    rewrite Hfrozen. reflexivity.
Qed.

(** The first record of [matrix] on the screen, and a search for [new]. *)
Lemma new_search_freezes_the_old_view_witness :
  ∃ later caption,
    trace (exec (handle_search Demo.env (Demo.says "new") Demo.state) Demo.browsing_matrix)
    = later
      ++ EditMessageMedia Demo.chat 106 (Some "https://img.example.com/x.jpg") caption
           [[UrlButton "🎬 Смотреть онлайн" (Some "https://zona.example/a")]]
      :: trace Demo.browsing_matrix.
Proof.
  let o := eval vm_compute in (user_data Demo.browsing_matrix !! Demo.user) in
  lazymatch o with
  | Some ?old =>
      let r := eval vm_compute in (results old !! 0%nat) in
      lazymatch r with
      | Some ?old_result =>
          destruct (new_search_freezes_the_old_view Demo.env (Demo.says "new")
                      Demo.state Demo.user "new" old 106 0%nat old_result
                      Demo.browsing_matrix) as [later Hlater]
      end
  end.
  - reflexivity.
  - reflexivity.
  - reflexivity.
  - vm_compute. reflexivity.
  - reflexivity.
  - discriminate.
  - vm_compute. reflexivity.
  - vm_compute. reflexivity.
  - exists later. eexists. rewrite Hlater. f_equal.
Defined.
